(** * A verification development for the MONAI-derived toolkit

    The Python sources are embedded shallowly: pure helpers become functions,
    raising code returns a [result], code that allocates or performs I/O threads
    an explicit state.  Numeric tensors are modelled in exact rational
    arithmetic ([Q]). *)

From Stdlib Require Import List String Ascii Bool Arith PeanoNat ZArith QArith Qminmax Qabs.
From Stdlib Require Import Lia Lqa Permutation DecimalString.
From Stdlib Require Import Sorted.
Import ListNotations.
Close Scope Q_scope.

(** ** Python exceptions and results *)

Inductive exn : Type :=
| ValueError (msg : string)
| RuntimeError (msg : string)
| KeyError (key : string)
| IndexError (msg : string)
| TypeError (msg : string)
| UnboundLocalError (name : string)
| OSError (msg : string).

Inductive result (A : Type) : Type :=
| Ok (a : A)
| Raise (e : exn).

Arguments Ok {A} a.
Arguments Raise {A} e.

Definition bind {A B : Type} (c : result A) (k : A -> result B) : result B :=
  match c with
  | Ok a => k a
  | Raise e => Raise e
  end.

Declare Scope py_scope.
Delimit Scope py_scope with py.
Notation "x <- c ;; k" := (bind c (fun x => k))
  (at level 61, c at next level, right associativity) : py_scope.
Open Scope py_scope.

Definition is_ok {A : Type} (r : result A) : bool :=
  match r with Ok _ => true | Raise _ => false end.

Definition raises {A : Type} (r : result A) : Prop := exists e, r = Raise e.

Definition is_RuntimeError (e : exn) : bool :=
  match e with RuntimeError _ => true | _ => false end.

Definition is_ValueError (e : exn) : bool :=
  match e with ValueError _ => true | _ => false end.

(** ** Small Python built-ins *)

(** [x in xs] for a list of strings. *)
Definition str_in (x : string) (xs : list string) : bool :=
  existsb (String.eqb x) xs.

(** [str(n)] for a non-negative integer and for any integer. *)
Definition str_nat (n : nat) : string := NilEmpty.string_of_uint (Nat.to_uint n).
Definition str_Z (z : Z) : string := NilEmpty.string_of_int (Z.to_int z).

(** [zip]-driven elementwise operation on two sequences. *)
Fixpoint zip_with {A B C : Type} (f : A -> B -> C) (xs : list A) (ys : list B) : list C :=
  match xs, ys with
  | x :: xs', y :: ys' => f x y :: zip_with f xs' ys'
  | _, _ => []
  end.

(** [sep.join(parts)]. *)
Fixpoint join (sep : string) (parts : list string) : string :=
  match parts with
  | [] => EmptyString
  | [p] => p
  | p :: rest => p ++ sep ++ join sep rest
  end.

(** [needle in haystack] for strings. *)
Fixpoint contains (needle haystack : string) : bool :=
  if String.prefix needle haystack then true
  else match haystack with
       | EmptyString => false
       | String _ rest => contains needle rest
       end.

(** The exception-monad traversal of a list, left to right: the first raise wins. *)
Fixpoint mapM {A B : Type} (f : A -> result B) (xs : list A) : result (list B) :=
  match xs with
  | [] => Ok []
  | x :: xs' => y <- f x ;; ys <- mapM f xs' ;; Ok (y :: ys)
  end.

Fixpoint foldM {A S : Type} (f : S -> A -> result S) (s : S) (xs : list A) : result S :=
  match xs with
  | [] => Ok s
  | x :: xs' => s' <- f s x ;; foldM f s' xs'
  end.

(** * monai/data/box_utils.py *)

Module BoxUtils.

Definition CORNER_CORNER_MODE : list string := ["xyxy"; "xyzxyz"]%string.
Definition XXYYZZ_MODE : list string := ["xxyy"; "xxyyzz"]%string.
Definition CORNER_SIZE_MODE : list string := ["xywh"; "xyzwhd"]%string.
Definition CENTER_SIZE_MODE : list string := ["ccwh"; "cccwhd"]%string.

Definition STANDARD_MODE : list string := CORNER_CORNER_MODE.
Definition SUPPORTED_MODE : list string :=
  CORNER_CORNER_MODE ++ XXYYZZ_MODE ++ CORNER_SIZE_MODE ++ CENTER_SIZE_MODE.

Definition TO_REMOVE : Q := 0.

(** A two-dimensional array of shape [(length rows, ncols)].  [storage]
    identifies the memory buffer behind it: two arrays share memory exactly
    when they carry the same identifier. *)
Record Tensor : Type := mkTensor {
  storage : nat;
  ncols : nat;
  rows : list (list Q)
}.

(** Every row of a well-formed array has [ncols] entries. *)
Definition is_array (t : Tensor) : Prop :=
  Forall (fun r => List.length r = ncols t) (rows t).

(** A column of the array ([N] entries), as produced by [bbox[:, j]] and by
    [split(1, dim=-1)]. *)
Definition Column : Type := list Q.

(** Modelled from the spec: [look_up_option] of monai/utils/module.py is not
    among the sources; it validates an option against the supported ones and
    raises [ValueError] on an unsupported one. *)
Definition look_up_option {A : Type} (eqb : A -> A -> bool) (opt : A) (supported : list A)
  : result A :=
  if existsb (eqb opt) supported then Ok opt
  else Raise (ValueError "Unsupported option").

(** Modelled from the spec: [convert_data_type] and [convert_to_dst_type] of
    monai/utils/type_conversion.py are not among the sources; they change the
    container type (ndarray or tensor) of an array, not its values, and may do
    so without copying. *)
Definition convert_data_type (t : Tensor) : Tensor := t.
Definition convert_to_dst_type (src dst : Tensor) : Tensor := src.

Definition get_dimension (bbox : option Tensor) (image_size : option (list Z))
    (mode : option string) : result nat :=
  let s0 := match image_size with Some sz => [List.length sz] | None => [] end in
  let s1 := match mode with Some m => [String.length m / 2] | None => [] end in
  let s2 := match bbox with Some b => [ncols b / 2] | None => [] end in
  let spatial_dims_list := nodup Nat.eq_dec (s0 ++ s1 ++ s2) in
  match spatial_dims_list with
  | [] => Raise (ValueError "At least one of bbox, image_size, and mode needs to be non-empty.")
  | [d] => look_up_option Nat.eqb d [2; 3]
  | _ => Raise (ValueError "The dimension of bbox, image_size, mode should match with each other.")
  end.

Definition get_standard_mode (spatial_dims : nat) : result string :=
  if spatial_dims =? 2 then Ok (nth 0 STANDARD_MODE EmptyString)
  else if spatial_dims =? 3 then Ok (nth 1 STANDARD_MODE EmptyString)
  else Raise (ValueError ("Images should have 2 or 3 dimensions, got " ++ str_nat spatial_dims)).

(** [bbox[:, j]]; indexing past the last column raises [IndexError]. *)
Definition column (bbox : Tensor) (j : nat) : result Column :=
  if j <? ncols bbox then Ok (map (fun r => nth j r 0%Q) (rows bbox))
  else Raise (IndexError "index is out of bounds for axis 1").

(** Elementwise [a < b] of two columns, and [a < 0]. *)
Definition col_lt (a b : Column) : list bool := zip_with (fun x y => negb (Qle_bool y x)) a b.
Definition col_lt0 (a : Column) : list bool := map (fun x => negb (Qle_bool 0 x)) a.
Definition mask_or (a b : list bool) : list bool := zip_with orb a b.
Definition mask_sum (a : list bool) : nat := List.length (filter (fun b => b) a).

(** [range(1, spatial_dims)]. *)
Definition range1 (spatial_dims : nat) : list nat := seq 1 (spatial_dims - 1).

Definition check_box_mode (bbox : Tensor) (mode : option string) : result bool :=
  mode <- match mode with
          | None => get_standard_mode (ncols bbox / 2)
          | Some m => Ok m
          end ;;
  mode <- look_up_option String.eqb mode SUPPORTED_MODE ;;
  spatial_dims <- get_dimension (Some bbox) None (Some mode) ;;
  box_error <-
    (if str_in mode ["ccwh"; "cccwhd"; "xywh"; "xyzwhd"]%string then
       c <- column bbox spatial_dims ;;
       foldM (fun box_error axis =>
                c <- column bbox (spatial_dims + axis) ;;
                Ok (mask_or box_error (col_lt0 c)))
             (col_lt0 c) (range1 spatial_dims)
     else if str_in mode ["xxyy"; "xxyyzz"]%string then
       c1 <- column bbox 1 ;;
       c0 <- column bbox 0 ;;
       foldM (fun box_error axis =>
                hi <- column bbox (2 * axis + 1) ;;
                lo <- column bbox (2 * axis) ;;
                Ok (mask_or box_error (col_lt hi lo)))
             (col_lt c1 c0) (range1 spatial_dims)
     else if str_in mode ["xyxy"; "xyzxyz"]%string then
       hi <- column bbox spatial_dims ;;
       lo <- column bbox 0 ;;
       foldM (fun box_error axis =>
                hi <- column bbox (spatial_dims + axis) ;;
                lo <- column bbox axis ;;
                Ok (mask_or box_error (col_lt hi lo)))
             (col_lt hi lo) (range1 spatial_dims)
     else Raise (ValueError ("Box mode " ++ mode ++ " not in SUPPORTED_MODE."))) ;;
  if 0 <? mask_sum box_error then Ok false else Ok true.

(** [bbox_t.split(1, dim=-1)]: the columns of the array, as views. *)
Definition split (bbox : Tensor) : list Column :=
  map (fun j => map (fun r => nth j r 0%Q) (rows bbox)) (seq 0 (ncols bbox)).

(** Elementwise arithmetic on columns. *)
Definition col_add (a b : Column) : Column := zip_with Qplus a b.
Definition col_sub (a b : Column) : Column := zip_with Qminus a b.
Definition col_sub_scalar (a : Column) (s : Q) : Column := map (fun x => x - s)%Q a.
Definition col_add_scalar (a : Column) (s : Q) : Column := map (fun x => x + s)%Q a.
Definition col_div_scalar (a : Column) (s : Q) : Column := map (fun x => x / s)%Q a.
Definition clamp_min (a : Column) (lo : Q) : Column := map (fun x => Qmax x lo) a.

Definition unpack_error {A : Type} : result A :=
  Raise (ValueError "wrong number of values to unpack").

Definition split_into_corners (bbox : Tensor) (mode : option string) : result (list Column) :=
  let bbox_t := convert_data_type bbox in
  mode <- match mode with
          | None => get_standard_mode (ncols bbox_t / 2)
          | Some m => Ok m
          end ;;
  mode <- look_up_option String.eqb mode SUPPORTED_MODE ;;
  split_result <-
    (if str_in mode ["xxyy"; "xxyyzz"]%string then Ok (split bbox_t)
     else if String.eqb mode "xyzxyz" then
       match split bbox_t with
       | [xmin; ymin; zmin; xmax; ymax; zmax] => Ok [xmin; xmax; ymin; ymax; zmin; zmax]
       | _ => unpack_error
       end
     else if String.eqb mode "xyxy" then
       match split bbox_t with
       | [xmin; ymin; xmax; ymax] => Ok [xmin; xmax; ymin; ymax]
       | _ => unpack_error
       end
     else if String.eqb mode "xyzwhd" then
       match split bbox_t with
       | [xmin; ymin; zmin; w; h; d] =>
           Ok [xmin; col_add xmin (clamp_min (col_sub_scalar w TO_REMOVE) 0);
               ymin; col_add ymin (clamp_min (col_sub_scalar h TO_REMOVE) 0);
               zmin; col_add zmin (clamp_min (col_sub_scalar d TO_REMOVE) 0)]
       | _ => unpack_error
       end
     else if String.eqb mode "xywh" then
       match split bbox_t with
       | [xmin; ymin; w; h] =>
           Ok [xmin; col_add xmin (clamp_min (col_sub_scalar w TO_REMOVE) 0);
               ymin; col_add ymin (clamp_min (col_sub_scalar h TO_REMOVE) 0)]
       | _ => unpack_error
       end
     else if String.eqb mode "cccwhd" then
       match split bbox_t with
       | [xc; yc; zc; w; h; d] =>
           Ok [col_sub xc (clamp_min (col_div_scalar (col_sub_scalar w TO_REMOVE) 2) 0);
               col_add xc (clamp_min (col_div_scalar (col_sub_scalar w TO_REMOVE) 2) 0);
               col_sub yc (clamp_min (col_div_scalar (col_sub_scalar h TO_REMOVE) 2) 0);
               col_add yc (clamp_min (col_div_scalar (col_sub_scalar h TO_REMOVE) 2) 0);
               col_sub zc (clamp_min (col_div_scalar (col_sub_scalar d TO_REMOVE) 2) 0);
               col_add zc (clamp_min (col_div_scalar (col_sub_scalar d TO_REMOVE) 2) 0)]
       | _ => unpack_error
       end
     else if String.eqb mode "ccwh" then
       match split bbox_t with
       | [xc; yc; w; h] =>
           Ok [col_sub xc (clamp_min (col_div_scalar (col_sub_scalar w TO_REMOVE) 2) 0);
               col_add xc (clamp_min (col_div_scalar (col_sub_scalar w TO_REMOVE) 2) 0);
               col_sub yc (clamp_min (col_div_scalar (col_sub_scalar h TO_REMOVE) 2) 0);
               col_add yc (clamp_min (col_div_scalar (col_sub_scalar h TO_REMOVE) 2) 0)]
       | _ => unpack_error
       end
     else Raise (RuntimeError "Should not be here")) ;;
  Ok split_result.

(** Allocation of array memory: the state is the next unused buffer
    identifier. *)
Definition Alloc (A : Type) : Type := nat -> result (A * nat).

(** [torch.cat(cols, dim=-1)] of [N x 1] columns: a new array in fresh memory. *)
Definition cat (cols : list Column) : Alloc Tensor :=
  fun next =>
    let n := match cols with c :: _ => List.length c | [] => 0 end in
    Ok (mkTensor next (List.length cols)
          (map (fun i => map (fun c => nth i c 0%Q) cols) (seq 0 n)),
        S next).

(** [deepcopy(t)]: the same values in fresh memory. *)
Definition deepcopy (t : Tensor) : Alloc Tensor :=
  fun next => Ok (mkTensor next (ncols t) (rows t), S next).

Definition lift {A : Type} (r : result A) : Alloc A :=
  fun next => match r with Ok a => Ok (a, next) | Raise e => Raise e end.

Definition abind {A B : Type} (c : Alloc A) (k : A -> Alloc B) : Alloc B :=
  fun next => match c next with
              | Ok (a, next') => k a next'
              | Raise e => Raise e
              end.

Notation "x <~ c ;; k" := (abind c (fun x => k))
  (at level 61, c at next level, right associativity) : py_scope.

Definition box_convert_mode (bbox : Tensor) (src_mode dst_mode : option string)
  : Alloc Tensor :=
  valid <~ lift (check_box_mode bbox src_mode) ;;
  if negb valid then
    lift (Raise (ValueError "Given bbox has invalid values. The box size must be non-negative."))
  else
  let bbox_t := convert_data_type bbox in
  src_mode <~ lift (match src_mode with
                    | None => get_standard_mode (ncols bbox_t / 2)
                    | Some m => Ok m
                    end) ;;
  dst_mode <~ lift (match dst_mode with
                    | None => get_standard_mode (ncols bbox_t / 2)
                    | Some m => Ok m
                    end) ;;
  src_mode <~ lift (look_up_option String.eqb src_mode SUPPORTED_MODE) ;;
  dst_mode <~ lift (look_up_option String.eqb dst_mode SUPPORTED_MODE) ;;
  spatial_dims <~ lift (get_dimension (Some bbox_t) None (Some src_mode)) ;;
  if negb (String.length src_mode =? String.length dst_mode) then
    lift (Raise (ValueError
      "The dimension of the new mode should have the same spatial dimension as the old mode."))
  else
  bbox_t_dst <~
    (if String.eqb src_mode dst_mode then deepcopy bbox_t
     else if str_in dst_mode ["xxyy"; "xxyyzz"]%string then
       corners <~ lift (split_into_corners bbox_t (Some src_mode)) ;;
       cat corners
     else if spatial_dims =? 3 then
       corners <~ lift (split_into_corners bbox_t (Some src_mode)) ;;
       match corners with
       | [xmin; xmax; ymin; ymax; zmin; zmax] =>
           if String.eqb dst_mode "xyzxyz" then cat [xmin; ymin; zmin; xmax; ymax; zmax]
           else if String.eqb dst_mode "xyzwhd" then
             cat [xmin; ymin; zmin;
                  col_add_scalar (col_sub xmax xmin) TO_REMOVE;
                  col_add_scalar (col_sub ymax ymin) TO_REMOVE;
                  col_add_scalar (col_sub zmax zmin) TO_REMOVE]
           else if String.eqb dst_mode "cccwhd" then
             cat [col_div_scalar (col_add_scalar (col_add xmin xmax) TO_REMOVE) 2;
                  col_div_scalar (col_add_scalar (col_add ymin ymax) TO_REMOVE) 2;
                  col_div_scalar (col_add_scalar (col_add zmin zmax) TO_REMOVE) 2;
                  col_add_scalar (col_sub xmax xmin) TO_REMOVE;
                  col_add_scalar (col_sub ymax ymin) TO_REMOVE;
                  col_add_scalar (col_sub zmax zmin) TO_REMOVE]
           else lift (Raise (ValueError ("We support only bbox mode in SUPPORTED_MODE, got "
                                          ++ dst_mode)))
       | _ => lift unpack_error
       end
     else if spatial_dims =? 2 then
       corners <~ lift (split_into_corners bbox_t (Some src_mode)) ;;
       match corners with
       | [xmin; xmax; ymin; ymax] =>
           if String.eqb dst_mode "xyxy" then cat [xmin; ymin; xmax; ymax]
           else if String.eqb dst_mode "xywh" then
             cat [xmin; ymin;
                  col_add_scalar (col_sub xmax xmin) TO_REMOVE;
                  col_add_scalar (col_sub ymax ymin) TO_REMOVE]
           else if String.eqb dst_mode "ccwh" then
             cat [col_div_scalar (col_add_scalar (col_add xmin xmax) TO_REMOVE) 2;
                  col_div_scalar (col_add_scalar (col_add ymin ymax) TO_REMOVE) 2;
                  col_add_scalar (col_sub xmax xmin) TO_REMOVE;
                  col_add_scalar (col_sub ymax ymin) TO_REMOVE]
           else lift (Raise (ValueError ("We support only bbox mode in SUPPORTED_MODE, got "
                                          ++ dst_mode)))
       | _ => lift unpack_error
       end
     else lift (Raise (ValueError ("Images should have 2 or 3 dimensions, got "
                                    ++ str_nat spatial_dims)))) ;;
  lift (Ok (convert_to_dst_type bbox_t_dst bbox)).

Definition box_convert_standard_mode (bbox : Tensor) (mode : option string) : Alloc Tensor :=
  mode <~ lift (match mode with
                | None => get_standard_mode (ncols bbox / 2)
                | Some m => Ok m
                end) ;;
  mode <~ lift (look_up_option String.eqb mode SUPPORTED_MODE) ;;
  spatial_dims <~ lift (get_dimension (Some bbox) None (Some mode)) ;;
  mode_standard <~ lift (get_standard_mode spatial_dims) ;;
  box_convert_mode bbox (Some mode) (Some mode_standard).

(** ** Row-level reading of the column-wise code *)

Definition entry (r : list Q) (i : nat) : Q := nth i r 0%Q.

(** The size of a box along [axis], read off the encoding of [mode]:
    the stored size for the corner-size and centre-size modes, [max - min]
    for the others. *)
Definition box_size (mode : string) (axis : nat) (box : list Q) : Q :=
  let d := String.length mode / 2 in
  if str_in mode (CORNER_SIZE_MODE ++ CENTER_SIZE_MODE) then entry box (d + axis)
  else if str_in mode XXYYZZ_MODE then Qminus (entry box (2 * axis + 1)) (entry box (2 * axis))
  else Qminus (entry box (d + axis)) (entry box axis).

Definition has_negative_size (mode : string) (box : list Q) : Prop :=
  exists axis, axis < String.length mode / 2 /\ (box_size mode axis box < 0)%Q.

(** The test [check_box_mode] applies to one row along one axis. *)
Definition axis_invalid (m : string) (d axis : nat) (r : list Q) : bool :=
  if str_in m (CORNER_SIZE_MODE ++ CENTER_SIZE_MODE) then
    negb (Qle_bool 0 (entry r (d + axis)))
  else if str_in m XXYYZZ_MODE then
    negb (Qle_bool (entry r (2 * axis)) (entry r (2 * axis + 1)))
  else negb (Qle_bool (entry r axis) (entry r (d + axis))).

Definition row_invalid (m : string) (r : list Q) : bool :=
  existsb (fun axis => axis_invalid m (String.length m / 2) axis r)
          (seq 0 (String.length m / 2)).

(** What [split_into_corners] computes on one row:
    [xmin, xmax, ymin, ymax(, zmin, zmax)]. *)
Definition corners_of (m : string) (r : list Q) : list Q :=
  let x := entry r in
  let half_size i := Qmax ((entry r i - TO_REMOVE) / 2) 0 in
  let size i := Qmax (entry r i - TO_REMOVE) 0 in
  if String.eqb m "xxyy" then [x 0; x 1; x 2; x 3]
  else if String.eqb m "xxyyzz" then [x 0; x 1; x 2; x 3; x 4; x 5]
  else if String.eqb m "xyxy" then [x 0; x 2; x 1; x 3]
  else if String.eqb m "xyzxyz" then [x 0; x 3; x 1; x 4; x 2; x 5]
  else if String.eqb m "xywh" then
    [x 0; Qplus (x 0) (size 2); x 1; Qplus (x 1) (size 3)]
  else if String.eqb m "xyzwhd" then
    [x 0; Qplus (x 0) (size 3); x 1; Qplus (x 1) (size 4); x 2; Qplus (x 2) (size 5)]
  else if String.eqb m "ccwh" then
    [Qminus (x 0) (half_size 2); Qplus (x 0) (half_size 2);
     Qminus (x 1) (half_size 3); Qplus (x 1) (half_size 3)]
  else
    [Qminus (x 0) (half_size 3); Qplus (x 0) (half_size 3);
     Qminus (x 1) (half_size 4); Qplus (x 1) (half_size 4);
     Qminus (x 2) (half_size 5); Qplus (x 2) (half_size 5)].

(** What [box_convert_mode] assembles from the corners of one row. *)
Definition of_corners (m : string) (c : list Q) : list Q :=
  let x := entry c in
  let size lo hi := (entry c hi - entry c lo + TO_REMOVE)%Q in
  let centre lo hi := ((entry c lo + entry c hi + TO_REMOVE) / 2)%Q in
  if String.eqb m "xxyy" then [x 0; x 1; x 2; x 3]
  else if String.eqb m "xxyyzz" then [x 0; x 1; x 2; x 3; x 4; x 5]
  else if String.eqb m "xyxy" then [x 0; x 2; x 1; x 3]
  else if String.eqb m "xyzxyz" then [x 0; x 2; x 4; x 1; x 3; x 5]
  else if String.eqb m "xywh" then [x 0; x 2; size 0 1; size 2 3]
  else if String.eqb m "xyzwhd" then [x 0; x 2; x 4; size 0 1; size 2 3; size 4 5]
  else if String.eqb m "ccwh" then [centre 0 1; centre 2 3; size 0 1; size 2 3]
  else [centre 0 1; centre 2 3; centre 4 5; size 0 1; size 2 3; size 4 5].

Definition convert_row (m1 m2 : string) (r : list Q) : list Q :=
  if String.eqb m1 m2 then r else of_corners m2 (corners_of m1 r).

(** Equality of arrays in exact arithmetic, and memory sharing. *)
Definition same_values (a b : Tensor) : Prop :=
  ncols a = ncols b /\ Forall2 (Forall2 Qeq) (rows a) (rows b).

Definition shares_memory (a b : Tensor) : Prop := storage a = storage b.

(** ** Example arrays *)

Definition unit_box_3d : Tensor := mkTensor 0 6 [[0; 0; 0; 1; 1; 1]%Q].

Definition two_boxes : Tensor := mkTensor 0 4 [[0; 0; 1; 2]%Q; [1; 1; 3; 4]%Q].

(** A box whose maximal corner lies below its minimal corner. *)
Definition inverted_box : Tensor := mkTensor 0 4 [[1; 1; 0; 0]%Q].

(** Two boxes with a fifth column, such as a score. *)
Definition scored_boxes : Tensor :=
  mkTensor 0 5 [[0; 0; 1; 2; 9 # 10]%Q; [1; 1; 3; 4; 1 # 2]%Q].

(** The standard mode of a given length of mode string. *)
Definition standard_mode_of (m : string) : string :=
  if String.length m =? 4 then "xyxy"%string else "xyzxyz"%string.

End BoxUtils.

(** * monai/losses/utils.py *)

Module LossUtils.

(** A tensor of shape [shape]: [elems idx] is the entry at the multi-index
    [idx], which has one component per dimension. *)
Record Tensor : Type := mkTensor {
  shape : list nat;
  elems : list nat -> Q
}.

Definition shape_eqb (s1 s2 : list nat) : bool :=
  if list_eq_dec Nat.eq_dec s1 s2 then true else false.

(** Broadcasting of two shapes, on the reversed shapes: trailing dimensions
    are aligned, and two sizes are compatible when they are equal or one of
    them is 1. *)
Fixpoint broadcast_rev (s1 s2 : list nat) : option (list nat) :=
  match s1, s2 with
  | [], s => Some s
  | s, [] => Some s
  | a :: s1', b :: s2' =>
      match broadcast_rev s1' s2' with
      | None => None
      | Some s =>
          if a =? b then Some (a :: s)
          else if a =? 1 then Some (b :: s)
          else if b =? 1 then Some (a :: s)
          else None
      end
  end.

Definition broadcast_shapes (s1 s2 : list nat) : result (list nat) :=
  match broadcast_rev (rev s1) (rev s2) with
  | Some s => Ok (rev s)
  | None => Raise (RuntimeError "The size of tensor a must match the size of tensor b")
  end.

(** The index into a tensor of shape [s] that an index of the broadcast shape
    reads: leading dimensions are dropped, dimensions of size 1 read entry 0. *)
Definition expand_index (s : list nat) (idx : list nat) : list nat :=
  zip_with (fun d i => if d =? 1 then 0 else i) s (skipn (List.length idx - List.length s) idx).

(** [t.expand(s)]; nothing changes when [t] already has shape [s]. *)
Definition expand (t : Tensor) (s : list nat) : Tensor :=
  if shape_eqb (shape t) s then t
  else mkTensor s (fun idx => elems t (expand_index (shape t) idx)).

(** Elementwise binary operation with broadcasting. *)
Definition elementwise (op : Q -> Q -> Q) (a b : Tensor) : result Tensor :=
  s <- broadcast_shapes (shape a) (shape b) ;;
  Ok (mkTensor s (fun idx => op (elems (expand a s) idx) (elems (expand b s) idx))).

Definition mul : Tensor -> Tensor -> result Tensor := elementwise Qmult.
Definition sub : Tensor -> Tensor -> result Tensor := elementwise Qminus.
Definition add : Tensor -> Tensor -> result Tensor := elementwise Qplus.

(** Elementwise operations with a Python scalar. *)
Definition map_elems (f : Q -> Q) (t : Tensor) : Tensor :=
  mkTensor (shape t) (fun idx => f (elems t idx)).

(** [s - t] for a scalar [s]. *)
Definition rsub_scalar (s : Q) (t : Tensor) : Tensor := map_elems (fun x => Qminus s x) t.
Definition div_scalar (t : Tensor) (s : Q) : Tensor := map_elems (fun x => Qdiv x s) t.

(** A [dim] entry, which may be negative, as a position. *)
Definition normalize_axis (rank : nat) (a : Z) : result nat :=
  let r := Z.max (Z.of_nat rank) 1 in
  if ((- r <=? a) && (a <? r))%Z then Ok (Z.to_nat (a mod r))
  else Raise (IndexError "Dimension out of range").

Fixpoint has_dup (l : list nat) : bool :=
  match l with
  | [] => false
  | x :: l' => existsb (Nat.eqb x) l' || has_dup l'
  end.

(** The dimensions of [dims] (numbered from [pos]) that are not reduced. *)
Fixpoint kept_dims (dims : list nat) (pos : nat) (axes : list nat) : list nat :=
  match dims with
  | [] => []
  | d :: dims' =>
      if existsb (Nat.eqb pos) axes then kept_dims dims' (S pos) axes
      else d :: kept_dims dims' (S pos) axes
  end.

(** The sum of [f] over all indices that agree with [kept] on the kept
    dimensions; [prefix] is the part of the index already fixed, reversed. *)
Fixpoint sum_over (dims : list nat) (pos : nat) (axes kept prefix : list nat)
    (f : list nat -> Q) : Q :=
  match dims with
  | [] => f (rev prefix)
  | d :: dims' =>
      if existsb (Nat.eqb pos) axes then
        fold_right (fun j acc => Qplus (sum_over dims' (S pos) axes kept (j :: prefix) f) acc)
                   0%Q (seq 0 d)
      else
        match kept with
        | k :: kept' => sum_over dims' (S pos) axes kept' (k :: prefix) f
        | [] => 0%Q
        end
  end.

(** [torch.sum(t, dim=reduce_axis)]: an empty [dim] reduces every dimension. *)
Definition reduce_axes (rank : nat) (dim : list Z) : result (list nat) :=
  axes <- mapM (normalize_axis rank) dim ;;
  if has_dup axes then
    Raise (RuntimeError "dim appears multiple times in the list of dims")
  else Ok (match dim with [] => seq 0 rank | _ => axes end).

Definition sum (t : Tensor) (dim : list Z) : result Tensor :=
  axes <- reduce_axes (List.length (shape t)) dim ;;
  Ok (mkTensor (kept_dims (shape t) 0 axes)
               (fun kept => sum_over (shape t) 0 axes kept [] (elems t))).

(** [|x| ** ord], with [|x| ** 0] counting a non-zero entry. *)
Definition abs_pow (ord : nat) (x : Q) : Q :=
  match ord with
  | 0 => if Qeq_bool x 0 then 0%Q else 1%Q
  | _ => Qpower (Qabs x) (Z.of_nat ord)
  end.

(** [torch.pow(LA.vector_norm(t, ord, dim), ord)] when [ord > 1], and
    [LA.vector_norm(t, ord, dim)] when [ord] is 0 or 1: in both cases the sum
    of [|x| ** ord] over the reduced dimensions. *)
Definition vector_norm_pow (t : Tensor) (ord : nat) (dim : list Z) : result Tensor :=
  sum (map_elems (abs_pow ord) t) dim.

(** [ord] ranges over the non-negative integers. *)
Definition compute_tp_fp_fn (input target : Tensor) (reduce_axis : list Z) (ord : nat)
    (soft_label decoupled : bool) : result (Tensor * Tensor * Tensor) :=
  if (ord =? 1) && negb soft_label then
    it <- mul input target ;;
    tp <- sum it reduce_axis ;;
    if decoupled then
      si <- sum input reduce_axis ;;
      fp <- sub si tp ;;
      st <- sum target reduce_axis ;;
      fn <- sub st tp ;;
      Ok (tp, fp, fn)
    else
      x <- mul input (rsub_scalar 1 target) ;;
      fp <- sum x reduce_axis ;;
      y <- mul (rsub_scalar 1 input) target ;;
      fn <- sum y reduce_axis ;;
      Ok (tp, fp, fn)
  else
    pred_o <- vector_norm_pow input ord reduce_axis ;;
    ground_o <- vector_norm_pow target ord reduce_axis ;;
    d <- sub input target ;;
    difference <- vector_norm_pow d ord reduce_axis ;;
    s <- add pred_o ground_o ;;
    s <- sub s difference ;;
    let tp := div_scalar s 2 in
    fp <- sub pred_o tp ;;
    fn <- sub ground_o tp ;;
    Ok (tp, fp, fn).

(** Equality of tensors in exact arithmetic. *)
Definition tensor_eq (a b : Tensor) : Prop :=
  shape a = shape b /\ forall idx, (elems a idx == elems b idx)%Q.

(** Equality of two outcomes of [compute_tp_fp_fn]: the same exception, or
    triples of equal tensors. *)
Definition outcome_eq (a b : result (Tensor * Tensor * Tensor)) : Prop :=
  match a, b with
  | Ok (tp1, fp1, fn1), Ok (tp2, fp2, fn2) =>
      tensor_eq tp1 tp2 /\ tensor_eq fp1 fp2 /\ tensor_eq fn1 fn2
  | Raise e1, Raise e2 => e1 = e2
  | _, _ => False
  end.

(** A one-dimensional tensor from its entries. *)
Definition vector (xs : list Q) : Tensor :=
  mkTensor [List.length xs] (fun idx => nth (hd 0 idx) xs 0%Q).

(** An outcome with the false positives and the false negatives exchanged. *)
Definition swap_fp_fn (r : result (Tensor * Tensor * Tensor))
  : result (Tensor * Tensor * Tensor) :=
  match r with
  | Ok (tp, fp, fn) => Ok (tp, fn, fp)
  | Raise e => Raise e
  end.


(** A tensor of probabilities: every entry lies in [[0, 1]]. *)
Definition unit_range (t : Tensor) : Prop :=
  forall idx, (0 <= elems t idx <= 1)%Q.

End LossUtils.

(** * The operating system and monai/apps/utils.py, as seen by the apps *)

(** [os.path.isdir], [os.path.exists] and [os.listdir]. *)
Record FileSystem : Type := mkFileSystem {
  isdir : string -> bool;
  path_exists : string -> bool;
  listdir : string -> result (list string)
}.

Definition ends_with_slash (s : string) : bool :=
  match String.get (String.length s - 1) s with
  | Some c => Ascii.eqb c "/"%char
  | None => false
  end.

(** [os.path.join(a, b)] on a POSIX system. *)
Definition path_join (a b : string) : string :=
  if String.prefix "/" b then b
  else if String.eqb a "" then b
  else if ends_with_slash a then a ++ b
  else a ++ "/" ++ b.

(** One call [download_and_extract(url, filepath, output_dir, hash_val)]. *)
Record DownloadCall : Type := mkDownloadCall {
  url : string;
  filepath : string;
  output_dir : string;
  hash_val : string
}.

(** [sorted(names)] for strings. *)
Fixpoint insert_sorted (x : string) (l : list string) : list string :=
  match l with
  | [] => [x]
  | y :: l' => if String.leb x y then x :: l else y :: insert_sorted x l'
  end.

Definition sorted (l : list string) : list string := fold_right insert_sorted [] l.

(** [d[key]] and [key in d] for a dictionary kept in insertion order. *)
Fixpoint dict_get {V : Type} (d : list (string * V)) (key : string) : option V :=
  match d with
  | [] => None
  | (k, v) :: d' => if String.eqb k key then Some v else dict_get d' key
  end.

Definition dict_mem {V : Type} (d : list (string * V)) (key : string) : bool :=
  match dict_get d key with Some _ => true | None => false end.

Definition dict_lookup {V : Type} (d : list (string * V)) (key : string) : result V :=
  match dict_get d key with
  | Some v => Ok v
  | None => Raise (KeyError key)
  end.

(** [s] between double quotes. *)
Definition quoted (s : string) : string :=
  String (Ascii.ascii_of_nat 34) (s ++ String (Ascii.ascii_of_nat 34) EmptyString).

(** [l[i]] for a Python list and an integer index, which may be negative. *)
Definition py_index {A : Type} (l : list A) (i : Z) : result A :=
  let n := Z.of_nat (List.length l) in
  let j := if (i <? 0)%Z then (i + n)%Z else i in
  if ((0 <=? j) && (j <? n))%Z then
    match nth_error l (Z.to_nat j) with
    | Some x => Ok x
    | None => Raise (IndexError "list index out of range")
    end
  else Raise (IndexError "list index out of range").

Definition Qltb (a b : Q) : bool := negb (Qle_bool b a).
Definition Qgeb (a b : Q) : bool := Qle_bool b a.

(** * monai/apps/datasets.py *)

Module Datasets.

Record Item : Type := mkItem {
  image : string;
  label : nat
}.

Definition MedNIST_resource : string :=
  "https://www.dropbox.com/s/5wwskxctvcxiuea/MedNIST.tar.gz?dl=1".
Definition MedNIST_md5 : string := "0bc7306e7427e00ad1c5526a6677552d".
Definition MedNIST_compressed_file_name : string := "MedNIST.tar.gz".
Definition MedNIST_dataset_folder_name : string := "MedNIST".

Definition Decathlon_resource : list (string * string) :=
  [("Task01_BrainTumour", "https://msd-for-monai.s3-us-west-2.amazonaws.com/Task01_BrainTumour.tar");
   ("Task02_Heart", "https://msd-for-monai.s3-us-west-2.amazonaws.com/Task02_Heart.tar");
   ("Task03_Liver", "https://msd-for-monai.s3-us-west-2.amazonaws.com/Task03_Liver.tar");
   ("Task04_Hippocampus", "https://msd-for-monai.s3-us-west-2.amazonaws.com/Task04_Hippocampus.tar");
   ("Task05_Prostate", "https://msd-for-monai.s3-us-west-2.amazonaws.com/Task05_Prostate.tar");
   ("Task06_Lung", "https://msd-for-monai.s3-us-west-2.amazonaws.com/Task06_Lung.tar");
   ("Task07_Pancreas", "https://msd-for-monai.s3-us-west-2.amazonaws.com/Task07_Pancreas.tar");
   ("Task08_HepaticVessel", "https://msd-for-monai.s3-us-west-2.amazonaws.com/Task08_HepaticVessel.tar");
   ("Task09_Spleen", "https://msd-for-monai.s3-us-west-2.amazonaws.com/Task09_Spleen.tar");
   ("Task10_Colon", "https://msd-for-monai.s3-us-west-2.amazonaws.com/Task10_Colon.tar")]%string.

Definition Decathlon_md5 : list (string * string) :=
  [("Task01_BrainTumour", "240a19d752f0d9e9101544901065d872");
   ("Task02_Heart", "06ee59366e1e5124267b774dbd654057");
   ("Task03_Liver", "a90ec6c4aa7f6a3d087205e23d4e6397");
   ("Task04_Hippocampus", "9d24dba78a72977dbd1d2e110310f31b");
   ("Task05_Prostate", "35138f08b1efaef89d7424d2bcc928db");
   ("Task06_Lung", "8afd997733c7fc0432f71255ba4e52dc");
   ("Task07_Pancreas", "4f7080cfca169fa8066d17ce6eb061e4");
   ("Task08_HepaticVessel", "641d79e80ec66453921d997fbf12a29c");
   ("Task09_Spleen", "410d4a301da4e5b2f6f86ec3ddba524e");
   ("Task10_Colon", "bad7a188931dc2f6acf72b08eb6202d0")]%string.

(** The item built for index [i] of the listing. *)
Definition item_at (image_files_list : list string) (image_class : list nat) (i : nat) : Item :=
  mkItem (nth i image_files_list EmptyString) (nth i image_class 0).

(** Every image with its label, in listing order. *)
Definition all_items (image_files_list : list string) (image_class : list nat) : list Item :=
  map (item_at image_files_list image_class) (seq 0 (List.length image_class)).

Definition supported_section (section : string) : bool :=
  str_in section ["training"; "validation"; "test"]%string.

Section WithEnvironment.

(** The random state behind [Randomizable] ([set_random_state(seed)] installs
    [np.random.RandomState(seed)]; [R.random()] and [R.shuffle(data)] draw
    from it), and the helpers of monai/apps/utils.py and monai/data that the
    datasets call; none of them is among the sources. *)
Variable RandomState : Type.
Variable new_random_state : Z -> RandomState.
Variable random : RandomState -> Q * RandomState.
Variable shuffle : RandomState -> list nat -> list nat * RandomState.
Variable download_and_extract : DownloadCall -> FileSystem -> result FileSystem.
Variable DecathlonItem : Type.
Variable load_decathlon_datalist : FileSystem -> string -> bool -> string -> result (list DecathlonItem).
Variable split_dataset : Z -> nat -> list (nat * nat).

(** *** MedNISTDataset *)

(** The loop [for i in range(num_total)] of [_generate_data_list], over the
    indices still to visit. *)
Fixpoint select_items (section : string) (val_frac test_frac : Q)
    (image_files_list : list string) (image_class : list nat)
    (indices : list nat) (R : RandomState) : result (list Item) :=
  match indices with
  | [] => Ok []
  | i :: rest =>
      let (rann, R') := random R in
      let item := mkItem (nth i image_files_list EmptyString) (nth i image_class 0) in
      let continue := select_items section val_frac test_frac image_files_list image_class rest R' in
      let append := (data <- continue ;; Ok (item :: data)) in
      if String.eqb section "training" then
        if Qltb rann (val_frac + test_frac) then continue else append
      else if String.eqb section "validation" then
        if Qgeb rann val_frac then continue else append
      else if String.eqb section "test" then
        if Qltb rann val_frac || Qgeb rann (val_frac + test_frac) then continue else append
      else
        Raise (ValueError ("Unsupported section: " ++ section
          ++ ", available options are [" ++ quoted "training" ++ ", "
          ++ quoted "validation" ++ ", " ++ quoted "test" ++ "]."))
  end.

(** [image_files_list] and [image_class] as [_generate_data_list] builds them. *)
Definition list_images (fs : FileSystem) (dataset_dir : string)
  : result (list string * list nat) :=
  entries <- listdir fs dataset_dir ;;
  let class_names := sorted (filter (fun x => isdir fs (path_join dataset_dir x)) entries) in
  let num_class := List.length class_names in
  image_files <-
    mapM (fun i =>
            let class_dir := path_join dataset_dir (nth i class_names EmptyString) in
            names <- listdir fs class_dir ;;
            Ok (map (fun x => path_join class_dir x) names))
         (seq 0 num_class) ;;
  let num_each := map (fun i => List.length (nth i image_files [])) (seq 0 num_class) in
  let image_files_list := flat_map (fun i => nth i image_files []) (seq 0 num_class) in
  let image_class := flat_map (fun i => repeat i (nth i num_each 0)) (seq 0 num_class) in
  Ok (image_files_list, image_class).

Definition MedNIST_generate_data_list (fs : FileSystem) (section : string)
    (val_frac test_frac : Q) (R : RandomState) (dataset_dir : string) : result (list Item) :=
  images <- list_images fs dataset_dir ;;
  let (image_files_list, image_class) := images in
  let num_total := List.length image_class in
  select_items section val_frac test_frac image_files_list image_class (seq 0 num_total) R.

(** [MedNISTDataset.__init__]: the outcome (the data list handed to
    [CacheDataset.__init__], or the exception) and the calls of
    [download_and_extract] that were made. *)
Definition MedNISTDataset_init (fs : FileSystem) (root_dir section : string)
    (download : bool) (seed : Z) (val_frac test_frac : Q)
  : result (list Item) * list DownloadCall :=
  if negb (isdir fs root_dir) then
    (Raise (ValueError "Root directory root_dir must be a directory."), [])
  else
    let R := new_random_state seed in
    let tarfile_name := path_join root_dir MedNIST_compressed_file_name in
    let dataset_dir := path_join root_dir MedNIST_dataset_folder_name in
    let call := mkDownloadCall MedNIST_resource tarfile_name root_dir MedNIST_md5 in
    let downloaded :=
      if download then (download_and_extract call fs, [call]) else (Ok fs, []) in
    match downloaded with
    | (Raise e, calls) => (Raise e, calls)
    | (Ok fs', calls) =>
        if negb (path_exists fs' dataset_dir) then
          (Raise (RuntimeError ("Cannot find dataset directory: " ++ dataset_dir
                                ++ ", please use download=True to download it.")), calls)
        else
          (MedNIST_generate_data_list fs' section val_frac test_frac R dataset_dir, calls)
    end.

(** *** DecathlonDataset *)

(** [indices[a:b]] and [np.delete(indices, np.s_[a:b])] for in-range bounds. *)
Definition slice {A : Type} (l : list A) (a b : nat) : list A := firstn (b - a) (skipn a l).
Definition delete_slice {A : Type} (l : list A) (a b : nat) : list A :=
  firstn a l ++ skipn (Nat.max a b) l.

Definition Decathlon_split_datalist (section : string) (nsplits fold : Z) (R : RandomState)
    (datalist : list DecathlonItem) : result (list DecathlonItem) :=
  if String.eqb section "test" then Ok datalist
  else
    let length := List.length datalist in
    let (indices, _) := shuffle R (seq 0 length) in
    indices <-
      (if (1 <? nsplits)%Z then
         let fold_indices := split_dataset nsplits length in
         bounds <- py_index fold_indices fold ;;
         if String.eqb section "training" then Ok (delete_slice indices (fst bounds) (snd bounds))
         else Ok (slice indices (fst bounds) (snd bounds))
       else if String.eqb section "validation" then
         Raise (ValueError "if nplits is 1, will not generate datalist for validation.")
       else Ok indices) ;;
    mapM (fun i => py_index datalist (Z.of_nat i)) indices.

Definition Decathlon_generate_data_list (fs : FileSystem) (section : string)
    (nsplits fold : Z) (R : RandomState) (dataset_dir : string) : result (list DecathlonItem) :=
  let section' := if str_in section ["training"; "validation"]%string
                  then "training"%string else "test"%string in
  datalist <- load_decathlon_datalist fs (path_join dataset_dir "dataset.json") true section' ;;
  Decathlon_split_datalist section nsplits fold R datalist.

(** [DecathlonDataset.__init__], up to the data list, with the calls of
    [download_and_extract] that were made. *)
Definition DecathlonDataset_init (fs : FileSystem) (root_dir task section : string)
    (download : bool) (seed nsplits fold : Z)
  : result (list DecathlonItem) * list DownloadCall :=
  if negb (isdir fs root_dir) then
    (Raise (ValueError "Root directory root_dir must be a directory."), [])
  else if (nsplits - 1 <? fold)%Z then
    (Raise (ValueError "fold index should be in [0, nsplit - 1]."), [])
  else
    let R := new_random_state seed in
    if negb (dict_mem Decathlon_resource task) then
      (Raise (ValueError ("Unsupported task: " ++ task)), [])
    else
      let dataset_dir := path_join root_dir task in
      let tarfile_name := (dataset_dir ++ ".tar")%string in
      let downloaded :=
        if download then
          match dict_lookup Decathlon_resource task, dict_lookup Decathlon_md5 task with
          | Ok resource, Ok md5 =>
              let call := mkDownloadCall resource tarfile_name root_dir md5 in
              (download_and_extract call fs, [call])
          | Raise e, _ => (Raise e, [])
          | _, Raise e => (Raise e, [])
          end
        else (Ok fs, []) in
      match downloaded with
      | (Raise e, calls) => (Raise e, calls)
      | (Ok fs', calls) =>
          if negb (path_exists fs' dataset_dir) then
            (Raise (RuntimeError ("Cannot find dataset directory: " ++ dataset_dir
                                  ++ ", please use download=True to download it.")), calls)
          else
            (Decathlon_generate_data_list fs' section nsplits fold R dataset_dir, calls)
      end.

End WithEnvironment.

(** ** Reading the data lists *)

(** [l[i]] as a list: empty when [i] is out of range. *)
Definition pick {A : Type} (l : list A) (i : nat) : list A :=
  match nth_error l i with Some x => [x] | None => [] end.

(** The class directories of a dataset directory, in the order that gives
    them their labels. *)
Definition class_directories (fs : FileSystem) (dataset_dir : string) (entries : list string)
  : list string :=
  sorted (filter (fun x => isdir fs (path_join dataset_dir x)) entries).

(** An item whose image lies in the class directory that its label numbers:
    the image is an entry of that directory's listing, joined to it. *)
Definition labelled_by_directory (fs : FileSystem) (dataset_dir : string)
    (class_names : list string) (item : Item) : Prop :=
  label item < List.length class_names
  /\ exists names x,
       listdir fs (path_join dataset_dir (nth (label item) class_names EmptyString)) = Ok names
       /\ In x names
       /\ image item
          = path_join (path_join dataset_dir (nth (label item) class_names EmptyString)) x.

(** ** A concrete environment *)

(** A random state that hands out a prepared sequence of draws. *)
Definition next_draw (R : list Q) : Q * list Q :=
  match R with
  | x :: R' => (x, R')
  | [] => (0%Q, [])
  end.

(** The first draws of [np.random.RandomState(0)], to seven digits. *)
Definition draws_of_seed (seed : Z) : list Q :=
  [5488135 # 10000000; 7151894 # 10000000; 6027634 # 10000000]%Q.

Definition no_download (call : DownloadCall) (fs : FileSystem) : result FileSystem := Ok fs.

(** A root directory whose [MedNIST] folder holds two classes and three images. *)
Definition small_fs : FileSystem :=
  mkFileSystem
    (fun p => str_in p ["data"; "data/MedNIST"; "data/MedNIST/Hand"; "data/MedNIST/AbdomenCT"]%string)
    (fun p => str_in p ["data"; "data/MedNIST"; "data/MedNIST/Hand"; "data/MedNIST/AbdomenCT"]%string)
    (fun p =>
       if String.eqb p "data/MedNIST" then Ok ["Hand"; "README.md"; "AbdomenCT"]%string
       else if String.eqb p "data/MedNIST/Hand" then Ok ["h1.jpeg"]%string
       else if String.eqb p "data/MedNIST/AbdomenCT" then Ok ["a1.jpeg"; "a2.jpeg"]%string
       else Raise (OSError "No such file or directory")).

(** A root directory whose [MedNIST] folder exists and is empty. *)
Definition empty_dataset_fs : FileSystem :=
  mkFileSystem
    (fun p => str_in p ["data"; "data/MedNIST"]%string)
    (fun p => str_in p ["data"; "data/MedNIST"]%string)
    (fun p => if String.eqb p "data/MedNIST" then Ok []
              else Raise (OSError "No such file or directory")).

(** A random state that counts its draws: the draws cycle through
    0.0, 0.1, ..., 0.9. *)
Definition counter_draw (R : nat) : Q * nat := (Qmake (Z.of_nat (R mod 10)) 10, S R).

(** A shuffle that reverses, and a split into two folds. *)
Definition reverse_shuffle (R : unit) (l : list nat) : list nat * unit := (rev l, R).

Definition two_folds (nsplits : Z) (length : nat) : list (nat * nat) :=
  [(0, length / 2); (length / 2, length)].

End Datasets.

(** * monai/utils/misc.py *)

Module Misc.

(** An argument that may be one value or a sequence of values:
    [issequenceiterable] holds of the sequences (lists, tuples, ranges) and
    not of the scalars, among them [None] and the strings. *)
Inductive Arg (A : Type) : Type :=
| Scalar (a : A)
| Sequence (items : list A).

Arguments Scalar {A} a.
Arguments Sequence {A} items.

Definition issequenceiterable {A : Type} (obj : Arg A) : bool :=
  match obj with
  | Scalar _ => false
  | Sequence _ => true
  end.

(** [first(iterable, default)]. *)
Definition first {A : Type} (iterable : list A) (default : option A) : option A :=
  match iterable with
  | i :: _ => Some i
  | [] => default
  end.

Definition ensure_tuple {A : Type} (vals : Arg A) : list A :=
  match vals with
  | Scalar a => [a]
  | Sequence items => items
  end.

(** [dim] is a number of dimensions, hence not negative. *)
Definition ensure_tuple_size {A : Type} (tup : Arg A) (dim : nat) (pad_val : A) : list A :=
  let tup := ensure_tuple tup ++ repeat pad_val dim in
  firstn dim tup.

Definition ensure_tuple_rep {A : Type} (tup : Arg A) (dim : nat) : result (list A) :=
  match tup with
  | Scalar a => Ok (repeat a dim)
  | Sequence items =>
      if List.length items =? dim then Ok items
      else Raise (ValueError ("Sequence must have length " ++ str_nat dim ++ ", got "
                              ++ str_nat (List.length items) ++ "."))
  end.

(** The components are integers or [None]. *)
Definition fall_back_tuple (user_provided : Arg (option Z)) (default : list (option Z))
    (func : option Z -> bool) : result (list (option Z)) :=
  let ndim := List.length default in
  user <- ensure_tuple_rep user_provided ndim ;;
  Ok (zip_with (fun default_c user_c => if func user_c then user_c else default_c)
               default user).

(** The default [func] of [fall_back_tuple]: [lambda x: x and x > 0]. *)
Definition positive (x : option Z) : bool :=
  match x with
  | Some z => (0 <? z)%Z
  | None => false
  end.

End Misc.

(** * monai/apps/auto3dseg/bundle_gen.py *)

(** Values found in a parameter dictionary. *)
#[local] Set Warnings "-register-all".
Inductive PyValue : Type :=
| VInt (z : Z)
| VStr (s : string)
| VList (items : list PyValue).

Fixpoint py_repr (v : PyValue) : string :=
  match v with
  | VInt z => str_Z z
  | VStr s => "'" ++ s ++ "'"
  | VList items => "[" ++ join ", " (map py_repr items) ++ "]"
  end.

(** [str(v)], as an f-string renders [{v}]. *)
Definition py_str (v : PyValue) : string :=
  match v with
  | VStr s => s
  | _ => py_repr v
  end.

(** [len(v)] and [[str(x) for x in v]]. *)
Definition py_len (v : PyValue) : result nat :=
  match v with
  | VInt _ => Raise (TypeError "object of type 'int' has no len()")
  | VStr s => Ok (String.length s)
  | VList items => Ok (List.length items)
  end.

Definition py_strs (v : PyValue) : result (list string) :=
  match v with
  | VInt _ => Raise (TypeError "'int' object is not iterable")
  | VStr s => Ok (map (fun c => String c EmptyString) (list_ascii_of_string s))
  | VList items => Ok (map py_str items)
  end.

(** [d.pop(key)] for a key that is present, and [d[key] = v]. *)
Fixpoint dict_remove {V : Type} (d : list (string * V)) (key : string) : list (string * V) :=
  match d with
  | [] => []
  | (k, v) :: d' => if String.eqb k key then d' else (k, v) :: dict_remove d' key
  end.

Fixpoint dict_set {V : Type} (d : list (string * V)) (key : string) (v : V)
  : list (string * V) :=
  match d with
  | [] => [(key, v)]
  | (k, v') :: d' => if String.eqb k key then (k, v) :: d' else (k, v') :: dict_set d' key v
  end.

Definition is_space (c : ascii) : bool :=
  let n := Ascii.nat_of_ascii c in
  (n =? 32) || ((9 <=? n) && (n <=? 13)) || ((28 <=? n) && (n <=? 31)).

(** [s.split()]: the maximal runs of non-whitespace characters.  [word] is
    the run being read, reversed. *)
Fixpoint split_words (s : string) (word : list ascii) : list string :=
  let flush rest :=
    match word with
    | [] => rest
    | _ => string_of_list_ascii (rev word) :: rest
    end in
  match s with
  | EmptyString => flush []
  | String c s' =>
      if is_space c then flush (split_words s' []) else split_words s' (c :: word)
  end.

Definition str_split (s : string) : list string := split_words s [].

(** [s.replace("\\" + c, r)]: every backslash followed by [c] becomes [r]. *)
Fixpoint replace_escape (c r : ascii) (s : string) : string :=
  match s with
  | EmptyString => EmptyString
  | String a tl =>
      match tl with
      | String b rest =>
          if Ascii.eqb a (Ascii.ascii_of_nat 92) && Ascii.eqb b c
          then String r (replace_escape c r rest)
          else String a (replace_escape c r tl)
      | EmptyString => String a EmptyString
      end
  end.

Module BundleGen.

Local Open Scope string_scope.

(** What [subprocess.run(argv, env=..., capture_output=True)] met: the
    process could not be started, or it ran and exited. *)
Inductive ProcessOutcome : Type :=
| CannotStart (msg : string)
| Exited (returncode : Z) (stdout stderr : string).

Record CompletedProcess : Type := mkCompletedProcess {
  args : list string;
  returncode : Z;
  stdout : string;
  stderr : string
}.

(** One launch of a subprocess: its argument vector and its environment. *)
Record Launch : Type := mkLaunch {
  argv : list string;
  environ : list (string * string)
}.

Definition algo_zip : string :=
  "https://github.com/Project-MONAI/MONAI-extra-test-data/releases/download/0.8.1/algo_templates.tar.gz".
Definition md5 : string := "c671dcd525a736f083ac1ca3d23a86dc".

Definition default_algos : list (string * list (string * string)) :=
  [("unet", [("_target_", "unet.scripts.algo.UnetAlgo");
             ("template_configs", "algo_templates/unet/configs");
             ("scripts_path", "algo_templates/unet/scripts")]);
   ("segresnet2d", [("_target_", "segresnet2d.scripts.algo.Segresnet2DAlgo");
                    ("template_configs", "algo_templates/segresnet2d/configs");
                    ("scripts_path", "algo_templates/segresnet2d/scripts")]);
   ("dints", [("_target_", "dints.scripts.algo.DintsAlgo");
              ("template_configs", "algo_templates/dints/configs");
              ("scripts_path", "algo_templates/dints/scripts")]);
   ("SwinUNETR", [("_target_", "SwinUNETR.scripts.algo.SwinUNETRAlgo");
                  ("template_configs", "algo_templates/SwinUNETR/configs");
                  ("scripts_path", "algo_templates/SwinUNETR/scripts")]);
   ("segresnet", [("_target_", "segresnet.scripts.algo.SegresnetAlgo");
                  ("template_configs", "algo_templates/segresnet/configs");
                  ("scripts_path", "algo_templates/segresnet/scripts")])]%string.

Section WithEnvironment.

(** [repr] of a [bytes] object, the operating system's answer to a launch,
    [torch.cuda.device_count()], and the helpers of monai that are not among
    the sources. *)
Variable repr_bytes : string -> string.
Variable subprocess_run : Launch -> ProcessOutcome.
Variable cuda_device_count : nat.
Variable download_and_extract : DownloadCall -> FileSystem -> result FileSystem.
Variable Algo : Type.
Variable get_parsed_content : list (string * string) -> result Algo.
Variable set_name : Algo -> string -> Algo.

(** [repr(b).replace("\\n", "\n").replace("\\t", "\t")]. *)
Definition render (b : string) : string :=
  replace_escape "t" (Ascii.ascii_of_nat 9)
    (replace_escape "n" (Ascii.ascii_of_nat 10) (repr_bytes b)).

Definition call_error_message (returncode : Z) (out err : string) : string :=
  "subprocess call error " ++ str_Z returncode ++ ": " ++ render err ++ ", " ++ render out.

(** [BundleAlgo.train]: the outcome and the subprocesses launched, in order.
    [output_path] is [self.output_path]; [os_environ] is [os.environ]. *)
Definition train (output_path : option string)
    (train_params : option (list (string * PyValue)))
    (os_environ : list (string * string))
  : result CompletedProcess * list Launch :=
  match output_path with
  | None => (Raise (TypeError "expected str, bytes or os.PathLike object, not NoneType"), [])
  | Some output_path =>
  let train_py := path_join (path_join output_path "scripts") "train.py" in
  let config_yaml := path_join (path_join output_path "configs") "algo_config.yaml" in
  let base_cmd := train_py ++ " run --config_file=" ++ config_yaml ++ " " in
  match train_params with
  | None => (Raise (UnboundLocalError "params"), [])
  | Some params =>
  let devices :=
    match dict_get params "CUDA_VISIBLE_DEVICES" with
    | Some devices =>
        n_devices <- py_len devices ;;
        strs <- py_strs devices ;;
        Ok (dict_remove params "CUDA_VISIBLE_DEVICES", n_devices, join "," strs)
    | None => Ok (params, cuda_device_count, EmptyString)
    end in
  match devices with
  | Raise e => (Raise e, [])
  | Ok (params, n_devices, devices_str) =>
  let cmd := if (1 <? n_devices)%nat
             then "torchrun --nnodes=1 --nproc_per_node=" ++ str_nat n_devices ++ " "
             else "python " in
  let cmd := cmd ++ base_cmd in
  let cmd := fold_left (fun cmd kv => cmd ++ " --" ++ fst kv ++ "=" ++ py_str (snd kv))
                       params cmd in
  let ps_environ :=
    if negb (String.eqb devices_str "")
    then dict_set os_environ "CUDA_VISIBLE_DEVICES" devices_str
    else os_environ in
  let launch := mkLaunch (str_split cmd) ps_environ in
  match subprocess_run launch with
  | CannotStart msg => (Raise (OSError msg), [launch])
  | Exited returncode out err =>
      if (returncode =? 0)%Z
      then (Ok (mkCompletedProcess (str_split cmd) returncode out err), [launch])
      else (Raise (RuntimeError (call_error_message returncode out err)), [launch])
  end
  end
  end
  end.

(** The command line [train] assembles for [n_devices] devices, before it is
    split into words. *)
Definition launch_command (output_path : string) (n_devices : nat)
    (params : list (string * PyValue)) : string :=
  let train_py := path_join (path_join output_path "scripts") "train.py" in
  let config_yaml := path_join (path_join output_path "configs") "algo_config.yaml" in
  let launcher := if (1 <? n_devices)%nat
                  then "torchrun --nnodes=1 --nproc_per_node=" ++ str_nat n_devices ++ " "
                  else "python " in
  fold_left (fun cmd kv => cmd ++ " --" ++ fst kv ++ "=" ++ py_str (snd kv)) params
            (launcher ++ train_py ++ " run --config_file=" ++ config_yaml ++ " ").

(** The [algos] argument of [BundleGen.__init__]: [None], a dictionary of
    algorithm parameters, or algorithm objects. *)
Inductive AlgosArg : Type :=
| AlgosNone
| AlgosDict (d : list (string * list (string * string)))
| AlgosObjects (objs : list Algo).

(** What [BundleGen.__init__] changes outside the object: the calls of
    [download_and_extract], [sys.path], and the module-level
    [default_algos], whose inner dictionaries the shallow [copy] shares. *)
Record Globals : Type := mkGlobals {
  downloads : list DownloadCall;
  sys_path : list string;
  module_default_algos : list (string * list (string * string))
}.

Definition with_algo_path (algo_path : string) (algos : list (string * list (string * string)))
  : result (list (string * list (string * string))) :=
  mapM (fun entry : string * list (string * string) =>
          let (name, params) := entry in
          template_configs <- dict_lookup params "template_configs" ;;
          let params := dict_set params "template_configs" (path_join algo_path template_configs) in
          scripts_path <- dict_lookup params "scripts_path" ;;
          let params := dict_set params "scripts_path" (path_join algo_path scripts_path) in
          Ok (name, params))
       algos.

(** [BundleGen.__init__]: [self.algos] (or the exception), and the globals
    afterwards.  [tmp_dir] is the name of the [TemporaryDirectory]. *)
Definition BundleGen_init (fs : FileSystem) (tmp_dir algo_path : string) (algos : AlgosArg)
    (g : Globals) : result (list Algo) * Globals :=
  let parse (d : list (string * list (string * string))) (g : Globals) :=
    (mapM (fun entry : string * list (string * string) =>
             a <- get_parsed_content (snd entry) ;; Ok (set_name a (fst entry))) d,
     g) in
  match algos with
  | AlgosNone =>
      let algo_compressed_file := path_join tmp_dir "algo_templates.tar.gz" in
      let call := mkDownloadCall algo_zip algo_compressed_file algo_path md5 in
      let g := mkGlobals (downloads g ++ [call])%list (sys_path g) (module_default_algos g) in
      match download_and_extract call fs with
      | Raise e => (Raise e, g)
      | Ok _ =>
          let g := mkGlobals (downloads g) (path_join algo_path "algo_templates" :: sys_path g)
                             (module_default_algos g) in
          match with_algo_path algo_path (module_default_algos g) with
          | Raise e => (Raise e, g)
          | Ok algos =>
              parse algos (mkGlobals (downloads g) (sys_path g) algos)
          end
      end
  | AlgosDict d => parse d g
  | AlgosObjects objs => (Ok objs, g)
  end.

End WithEnvironment.

(** ** Prediction *)

(** A parameter value as an argument of [ensure_tuple]: a list is a
    sequence, an integer or a string is a scalar. *)
Definition as_arg (v : PyValue) : Misc.Arg PyValue :=
  match v with
  | VList items => Misc.Sequence items
  | _ => Misc.Scalar v
  end.

Section WithInferer.

(** [os.path.isfile], and the class [InferClass] that [get_inferer] loads
    from the bundle's [scripts/infer.py]: its constructor and its [infer]. *)
Variable isfile : string -> bool.
Variable Inferer : Type.
Variable Prediction : Type.
Variable InferClass : option string -> list (string * PyValue) -> result Inferer.
Variable infer : Inferer -> PyValue -> result Prediction.

Definition get_inferer (output_path : option string) (kwargs : list (string * PyValue))
  : result Inferer :=
  match output_path with
  | None => Raise (TypeError "expected str, bytes or os.PathLike object, not NoneType")
  | Some output_path =>
      let infer_py := path_join (path_join output_path "scripts") "infer.py" in
      if negb (isfile infer_py) then
        Raise (ValueError (infer_py ++ " is not found, please check the path."))
      else
        let config_path := path_join (path_join output_path "configs") "algo_config.yaml" in
        let config_path := if isfile config_path then Some config_path else None in
        InferClass config_path kwargs
  end.

Definition predict (output_path : option string)
    (predict_params : option (list (string * PyValue))) : result (list Prediction) :=
  let params := match predict_params with
                | None => []
                | Some predict_params => predict_params
                end in
  let files := match dict_get params "files" with
               | Some files => files
               | None => VStr "."
               end in
  let params := dict_remove params "files" in
  inferer <- get_inferer output_path params ;;
  mapM (infer inferer) (Misc.ensure_tuple (as_arg files)).

End WithInferer.

(** ** Repeated construction *)

(** The default algorithms after [n] constructions with [algos=None]: every
    path has been joined to [algo_path] [n] times. *)
Fixpoint joined (n : nat) (algo_path path : string) : string :=
  match n with
  | 0 => path
  | S n' => path_join algo_path (joined n' algo_path path)
  end.

Definition default_algos_after (n : nat) (algo_path : string)
  : list (string * list (string * string)) :=
  map (fun entry : string * list (string * string) =>
         (fst entry,
          map (fun kv : string * string =>
                 if String.eqb (fst kv) "_target_" then kv
                 else (fst kv, joined n algo_path (snd kv)))
              (snd entry)))
      default_algos.

(** ** A concrete environment *)

(** A subprocess that exits with code 0 and prints nothing; a configuration
    parser that returns the name it is given. *)
Definition exits_normally (launch : Launch) : ProcessOutcome := Exited 0 "" "".

Definition download_succeeds (call : DownloadCall) (fs : FileSystem) : result FileSystem :=
  Ok fs.

Definition fresh_globals : Globals := mkGlobals [] [] default_algos.

End BundleGen.

(** * monai/apps/pathology/evaluators.py *)

Module Evaluators.

(** The keyword arguments of one call of [compute_fp_tp_probs]. *)
Record FpTpArgs (Mask : Type) : Type := mkFpTpArgs {
  probs : list Q;
  y_coord : list Z;
  x_coord : list Z;
  evaluation_mask : Mask;
  labels_to_exclude : list nat;
  resolution_level : nat
}.

Arguments mkFpTpArgs {Mask}.
Arguments probs {Mask}.
Arguments y_coord {Mask}.
Arguments x_coord {Mask}.
Arguments evaluation_mask {Mask}.
Arguments labels_to_exclude {Mask}.
Arguments resolution_level {Mask}.

Section WithEnvironment.

(** A sample, the non-maximal suppression [self.nms] applied to its loaded
    probability map, [prepare_ground_truth] (whose image reading and labelling
    are library calls), the level [sample["level"]], and
    [monai.metrics.compute_fp_tp_probs]; none of them is among the sources. *)
Variable Sample : Type.
Variable Mask : Type.
Variable nms : Sample -> list (Q * Z * Z).
Variable prepare_ground_truth : Sample -> Mask * list nat.
Variable level : Sample -> nat.
Variable compute_fp_tp_probs : FpTpArgs Mask -> list Q * list Q * nat.

(** Returns [(probs, x_coord, y_coord)]. *)
Definition prepare_inference_result (sample : Sample) : list Q * list Z * list Z :=
  let nms_outputs := nms sample in
  match nms_outputs with
  | [] => ([], [], [])
  | _ => (map (fun o => fst (fst o)) nms_outputs,
          map (fun o => snd (fst o)) nms_outputs,
          map (fun o => snd o) nms_outputs)
  end.

(** The call of [compute_fp_tp_probs] in the loop of [compute_fp_tp]. *)
Definition fp_tp_args (sample : Sample) : FpTpArgs Mask :=
  let '(probs, y_coord, x_coord) := prepare_inference_result sample in
  let (ground_truth, itc_labels) := prepare_ground_truth sample in
  mkFpTpArgs probs y_coord x_coord ground_truth itc_labels (level sample).

Definition compute_fp_tp (data : list Sample) : list Q * list Q * nat * nat :=
  let num_images := List.length data in
  let '(total_fp_probs, total_tp_probs, total_num_targets) :=
    fold_left
      (fun acc sample =>
         let '(total_fp_probs, total_tp_probs, total_num_targets) := acc in
         let '(fp_probs, tp_probs, num_targets) := compute_fp_tp_probs (fp_tp_args sample) in
         (total_fp_probs ++ fp_probs, total_tp_probs ++ tp_probs,
          total_num_targets + num_targets))
      data ([], [], 0) in
  (total_fp_probs, total_tp_probs, total_num_targets, num_images).

End WithEnvironment.

(** The body of the loop of [compute_isolated_tumor_cells]. *)
Definition itc_step (major_axis_lengths : list Q) (threshold : Q)
    (itc_list : list nat) (i : nat) : result (list nat) :=
  major_axis_length <- py_index major_axis_lengths (Z.of_nat i) ;;
  if Qltb major_axis_length threshold then Ok (itc_list ++ [i + 1]) else Ok itc_list.

(** [compute_isolated_tumor_cells].  [max_label] is [np.amax(tumor_mask)] and
    [major_axis_lengths] lists [properties[i].major_axis_length] for the
    regions that [measure.regionprops] returned, in order; both are library
    calls on the mask. *)
Definition compute_isolated_tumor_cells (max_label : nat) (major_axis_lengths : list Q)
    (threshold : Q) : result (list nat) :=
  foldM (itc_step major_axis_lengths threshold) [] (seq 0 max_label).

End Evaluators.

(** * monai/data/inverse_batch_transform.py *)

Module InverseBatchTransform.

Local Open Scope string_scope.

(** One entry of the list [data[key + "_transforms"]]: the applied
    transform's class name and the size of its input. *)
Record TransformRecord : Type := mkTransformRecord {
  class_name : string;
  orig_size : list Z
}.

Section WithEnvironment.

(** Arrays, [CenterSpatialCrop(roi_size)(img)], the wrapped transform's
    [inverse], [decollate_batch] and the collation function of the loader;
    none of them is among the sources. *)
Variable Array : Type.

(** A value of an item dictionary: an array, or a list of transform records. *)
Definition Value : Type := (Array + list TransformRecord)%type.
Definition Item : Type := list (string * Value).

Variable Batch : Type.
Variable Inverted : Type.
Variable Collated : Type.
Variable CenterSpatialCrop : list Z -> Array -> Array.
Variable decollate_batch : Batch -> list Item.
Variable collate : list Inverted -> result Collated.
Variable inverse : Item -> option (list string) -> result Inverted.

Record BatchInverseDataset : Type := mkBatchInverseDataset {
  ds_data : list Item;
  ds_keys : option (list string);
  ds_pad_collation_used : bool
}.

(** [_BatchInverseDataset.__init__]; the transform is the section's [inverse]. *)
Definition BatchInverseDataset_init (data : Batch) (keys : option (list string))
    (pad_collation_used : bool) : BatchInverseDataset :=
  mkBatchInverseDataset (decollate_batch data)
    (match keys with
     | Some (k :: ks) => Some (k :: ks)
     | _ => None
     end)
    pad_collation_used.

Definition transform_key (key : string) : string := key ++ "_transforms".

(** One round of the loop in [__getitem__]: pop the last record of
    [data[transform_key]], check its class, crop [data[key]]. *)
Definition undo_pad (data : Item) (key : string) : result Item :=
  v <- dict_lookup data (transform_key key) ;;
  match v with
  | inl _ => Raise (TypeError "'pop' needs a list")
  | inr transforms =>
      match rev transforms with
      | [] => Raise (IndexError "pop from empty list")
      | transform :: earlier =>
          let data := dict_set data (transform_key key) (inr (rev earlier)) in
          if negb (String.eqb (class_name transform) "SpatialPadd") then
            Raise (RuntimeError
              ("Expected most recent transform to have been SpatialPadd because "
               ++ "pad_list_data_collate was used. Instead, found " ++ class_name transform))
          else
            d <- dict_lookup data key ;;
            match d with
            | inl img => Ok (dict_set data key (inl (CenterSpatialCrop (orig_size transform) img)))
            | inr _ => Raise (TypeError "CenterSpatialCrop needs an array")
            end
      end
  end.

(** The keys [__getitem__] works on when [self.keys] is [None]. *)
Definition keys_with_transforms (data : Item) : list string :=
  filter (fun key => dict_mem data (transform_key key)) (map fst data).

(** [_BatchInverseDataset.__getitem__].  [dict(self.data[index])] is a shallow
    copy, so the [pop] also shortens the list kept in [self.data]; the loader
    fetches every index once, and the item is read here before that. *)
Definition getitem (self : BatchInverseDataset) (index : nat) : result Inverted :=
  data <- py_index (ds_data self) (Z.of_nat index) ;;
  data <-
    (if ds_pad_collation_used self then
       let keys := match ds_keys self with
                   | Some keys => keys
                   | None => keys_with_transforms data
                   end in
       foldM undo_pad data keys
     else Ok data) ;;
  inverse data (ds_keys self).

(** [first(DataLoader(inv_ds, batch_size=..., collate_fn=...))]: the first
    batch, that is the first [batch_size] items fetched in order and collated,
    or [None] for an empty dataset. *)
Definition first_batch (inv_ds : BatchInverseDataset) (batch_size : nat)
  : result (option Collated) :=
  match seq 0 (Nat.min batch_size (List.length (ds_data inv_ds))) with
  | [] => Ok None
  | indices =>
      items <- mapM (getitem inv_ds) indices ;;
      batch <- collate items ;;
      Ok (Some batch)
  end.

Definition hint : string :=
  String (Ascii.ascii_of_nat 10)
    "MONAI hint: try creating `BatchInverseTransform` with `collate_fn=lambda x: x`.".

(** [BatchInverseTransform.__call__]; [batch_size] and [pad_collation_used]
    are the attributes set by [__init__]. *)
Definition call (batch_size : nat) (pad_collation_used : bool)
    (data : Batch) (keys : option (list string)) : result (option Collated) :=
  let inv_ds := BatchInverseDataset_init data keys pad_collation_used in
  match first_batch inv_ds batch_size with
  | Raise (RuntimeError re_str) =>
      if contains "stack expects each tensor to be equal size" re_str
      then Raise (RuntimeError (re_str ++ hint))
      else Raise (RuntimeError re_str)
  | r => r
  end.

(** ** Reading the item dictionary *)

(** [key] was padded: its list of transform records ends with [rec], whose
    class name satisfies [P], and its value is an array. *)
Definition padded_with (P : string -> Prop) (data : Item) (key : string) : Prop :=
  exists earlier rec img,
    dict_get data (transform_key key) = Some (inr (earlier ++ [rec])%list)
    /\ dict_get data key = Some (inl img)
    /\ P (class_name rec).

Definition padded : Item -> string -> Prop := padded_with (fun _ => True).
Definition padded_by_SpatialPadd : Item -> string -> Prop :=
  padded_with (fun c => c = "SpatialPadd").
Definition padded_by_other : Item -> string -> Prop :=
  padded_with (fun c => c <> "SpatialPadd").

(** In [data'] the last record of [key] is gone and the array of [key] is
    the centre crop of the one in [data], to the size that record holds. *)
Definition cropped (data data' : Item) (key : string) : Prop :=
  exists earlier rec img,
    dict_get data (transform_key key) = Some (inr (earlier ++ [rec])%list)
    /\ dict_get data key = Some (inl img)
    /\ dict_get data' (transform_key key) = Some (inr earlier)
    /\ dict_get data' key = Some (inl (CenterSpatialCrop (orig_size rec) img)).

(** The keys [__getitem__] undoes the padding of. *)
Definition inverted_keys (self : BatchInverseDataset) (data : Item) : list string :=
  match ds_keys self with
  | Some keys => keys
  | None => keys_with_transforms data
  end.

End WithEnvironment.


(** ** A concrete batch *)

(** Arrays stand for their spatial sizes; cropping to a size gives that size. *)
Definition crop_to (roi_size : list Z) (img : list Z) : list Z := roi_size.

(** An item whose image was padded from 3 x 3 to 4 x 4 by the collation. *)
Definition padded_item : Item (list Z) :=
  [("image", inl [4%Z; 4%Z]);
   ("image_transforms",
    inr [mkTransformRecord "Rotate90d" [3%Z; 3%Z]; mkTransformRecord "SpatialPadd" [3%Z; 3%Z]])].

(** An item that no transform was recorded for. *)
Definition plain_item : Item (list Z) := [("image", inl [4%Z; 4%Z])].

End InverseBatchTransform.

(** * Proofs *)

(** ** monai/data/box_utils.py *)

Module BoxUtilsFacts.

Import BoxUtils.

Lemma zip_with_map {A B C D : Type} (f : B -> C -> D) (g : A -> B) (h : A -> C) (l : list A) :
  zip_with f (map g l) (map h l) = map (fun x => f (g x) (h x)) l.
Proof. induction l; simpl; congruence. Qed.

Lemma mask_sum_pos {A : Type} (p : A -> bool) (l : list A) :
  match mask_sum (map p l) with 0 => false | S _ => true end = existsb p l.
Proof.
  unfold mask_sum. induction l as [|x l IH]; simpl; [reflexivity|].
  destruct (p x); simpl; [reflexivity|exact IH].
Qed.

Lemma existsb_of_map {A B : Type} (p : B -> bool) (f : A -> B) (l : list A) :
  existsb p (map f l) = existsb (fun x => p (f x)) l.
Proof. induction l; simpl; congruence. Qed.

Lemma existsb_pointwise {A : Type} (p q : A -> bool) (l : list A) :
  (forall x, p x = q x) -> existsb p l = existsb q l.
Proof. intros E. induction l; simpl; [reflexivity|]. now rewrite E, IHl. Qed.

Ltac each_mode H :=
  unfold SUPPORTED_MODE in H; simpl in H;
  repeat (destruct H as [<- | H]); try contradiction.

Lemma look_up_option_unsupported (mode : string) :
  ~ In mode SUPPORTED_MODE ->
  look_up_option String.eqb mode SUPPORTED_MODE = Raise (ValueError "Unsupported option").
Proof.
  intros Hn. unfold look_up_option.
  destruct (existsb (String.eqb mode) SUPPORTED_MODE) eqn:E; [|reflexivity].
  apply existsb_exists in E. destruct E as [m [Hin Heq]].
  apply String.eqb_eq in Heq. subst m. contradiction.
Qed.

Lemma check_box_mode_rows (bbox : Tensor) (m : string) :
  In m SUPPORTED_MODE -> ncols bbox = String.length m ->
  check_box_mode bbox (Some m) = Ok (negb (existsb (row_invalid m) (rows bbox))).
Proof.
  intros Hm Hc. destruct bbox as [s c rs]; simpl in Hc; subst c.
  each_mode Hm;
    (unfold check_box_mode; cbn -[mask_sum]; unfold col_lt, col_lt0, mask_or;
     rewrite ?map_map, ?zip_with_map, mask_sum_pos;
     match goal with |- (if ?b then _ else _) = _ =>
       transitivity (@Ok bool (negb b)); [destruct b; reflexivity|] end;
     do 2 f_equal; apply existsb_pointwise;
     intros r; unfold row_invalid, axis_invalid, entry; cbn;
     repeat match goal with |- context [Qle_bool ?a ?b] => destruct (Qle_bool a b) end;
     reflexivity).
Qed.

Lemma check_box_mode_mismatch (bbox : Tensor) (m : string) :
  In m SUPPORTED_MODE -> ncols bbox = 4 \/ ncols bbox = 6 -> String.length m <> ncols bbox ->
  check_box_mode bbox (Some m)
  = Raise (ValueError "The dimension of bbox, image_size, mode should match with each other.").
Proof.
  intros Hm Hc Hne. destruct bbox as [s c rs]; simpl in *.
  destruct Hc; subst c; each_mode Hm; try (exfalso; apply Hne; reflexivity); reflexivity.
Qed.

Lemma axis_invalid_negative (m : string) (axis : nat) (r : list Q) :
  axis_invalid m (String.length m / 2) axis r = true <-> (box_size m axis r < 0)%Q.
Proof.
  unfold axis_invalid, box_size.
  destruct (str_in m (CORNER_SIZE_MODE ++ CENTER_SIZE_MODE));
    [|destruct (str_in m XXYYZZ_MODE)];
    rewrite negb_true_iff, <- not_true_iff_false, Qle_bool_iff; split; intros H.
  all: try (apply Qnot_le_lt in H; lra).
  all: apply Qlt_not_le; lra.
Qed.

Lemma row_invalid_negative (m : string) (r : list Q) :
  row_invalid m r = true <-> has_negative_size m r.
Proof.
  unfold row_invalid, has_negative_size. rewrite existsb_exists. split.
  - intros [axis [Hin Hax]]. exists axis. apply in_seq in Hin.
    apply axis_invalid_negative in Hax. split; [lia|assumption].
  - intros [axis [Hlt Hneg]]. exists axis. split.
    + apply in_seq. lia.
    + apply axis_invalid_negative. assumption.
Qed.

(** [check_box_mode] against the reading of "negative size" above. *)
Lemma check_box_mode_spec (bbox : Tensor) (m : string) :
  In m SUPPORTED_MODE -> ncols bbox = String.length m ->
  exists b, check_box_mode bbox (Some m) = Ok b /\
            (b = false <-> exists box, In box (rows bbox) /\ has_negative_size m box).
Proof.
  intros Hm Hc. rewrite (check_box_mode_rows bbox m Hm Hc).
  eexists; split; [reflexivity|].
  rewrite negb_false_iff, existsb_exists.
  split; intros [box [Hin Hb]]; exists box; (split; [assumption|]);
    apply row_invalid_negative; assumption.
Qed.

Lemma cat_rows {A : Type} (f0 : A -> Q) (fs : list (A -> Q)) (l : list A) (next : nat) :
  cat (map (fun f => map f l) (f0 :: fs)) next
  = Ok (mkTensor next (S (List.length fs)) (map (fun x => map (fun f => f x) (f0 :: fs)) l),
        S next).
Proof.
  unfold cat. rewrite length_map. cbn [map List.length]. rewrite length_map.
  do 3 f_equal.
  induction l as [|x l IH]; [reflexivity|].
  cbn [List.length seq map]. f_equal.
  - cbn. f_equal. rewrite map_map. reflexivity.
  - rewrite <- seq_shift, map_map. rewrite <- IH.
    apply map_ext. intros i. cbn. f_equal. rewrite !map_map. reflexivity.
Qed.

Lemma cat4 {A : Type} (f1 f2 f3 f4 : A -> Q) (l : list A) (next : nat) :
  cat [map f1 l; map f2 l; map f3 l; map f4 l] next
  = Ok (mkTensor next 4 (map (fun x => [f1 x; f2 x; f3 x; f4 x]) l), S next).
Proof. exact (cat_rows f1 [f2; f3; f4] l next). Qed.

Lemma cat6 {A : Type} (f1 f2 f3 f4 f5 f6 : A -> Q) (l : list A) (next : nat) :
  cat [map f1 l; map f2 l; map f3 l; map f4 l; map f5 l; map f6 l] next
  = Ok (mkTensor next 6 (map (fun x => [f1 x; f2 x; f3 x; f4 x; f5 x; f6 x]) l), S next).
Proof. exact (cat_rows f1 [f2; f3; f4; f5; f6] l next). Qed.

Ltac fuse_maps :=
  unfold col_add, col_sub, col_sub_scalar, col_add_scalar, col_div_scalar, clamp_min;
  repeat (rewrite map_map || rewrite zip_with_map).

(** On a valid array the column-wise conversion acts row by row, and its
    result lives in the buffer allocated for it. *)
Lemma box_convert_mode_rows (bbox : Tensor) (m1 m2 : string) (next : nat) :
  In m1 SUPPORTED_MODE -> In m2 SUPPORTED_MODE ->
  String.length m1 = String.length m2 ->
  ncols bbox = String.length m1 ->
  check_box_mode bbox (Some m1) = Ok true ->
  box_convert_mode bbox (Some m1) (Some m2) next
  = Ok (mkTensor next (ncols bbox) (map (convert_row m1 m2) (rows bbox)), S next).
Proof.
  intros H1 H2 Hl Hc Hchk. destruct bbox as [s c rs]. cbn [ncols rows] in *. subst c.
  unfold box_convert_mode, abind. rewrite Hchk. clear Hchk.
  each_mode H1; each_mode H2; try discriminate Hl; clear Hl.
  all: cbn -[cat]; fuse_maps; rewrite ?cat4, ?cat6; unfold convert_to_dst_type; cbn;
    do 3 f_equal;
    try (apply map_ext; intros r; reflexivity);
    try (rewrite <- (map_id rs) at 1; apply map_ext; intros r; reflexivity).
Qed.

Ltac bool_hyps :=
  repeat match goal with
  | H : (_ || _)%bool = false |- _ => apply orb_false_elim in H; destruct H
  | H : negb _ = false |- _ => apply negb_false_iff in H
  | H : Qle_bool _ _ = true |- _ => apply Qle_bool_iff in H
  end.

Ltac bool_goal :=
  repeat match goal with
  | |- (_ || _)%bool = false => apply orb_false_intro
  | |- negb _ = false => apply negb_false_iff
  | |- Qle_bool _ _ = true => apply Qle_bool_iff
  | |- false = false => reflexivity
  end.

Ltac max_cases :=
  repeat match goal with
  | |- context [Qmax ?a ?b] =>
      let H := fresh "Hmax" in
      let m := fresh "m" in
      destruct (Q.max_spec a b) as [[? H] | [? H]];
      set (m := Qmax a b) in *; clearbody m
  end.

Ltac row_of_length r :=
  repeat (let x := fresh "x" in destruct r as [|x r]; try discriminate).

(** One valid row, converted and converted back. *)
Lemma convert_row_roundtrip (m1 m2 : string) (r : list Q) :
  In m1 SUPPORTED_MODE -> In m2 SUPPORTED_MODE ->
  String.length m1 = String.length m2 ->
  List.length r = String.length m1 ->
  row_invalid m1 r = false ->
  Forall2 Qeq (convert_row m2 m1 (convert_row m1 m2 r)) r
  /\ row_invalid m2 (convert_row m1 m2 r) = false
  /\ List.length (convert_row m1 m2 r) = String.length m2.
Proof.
  intros H1 H2 Hl Hr Hv.
  each_mode H1; each_mode H2; try discriminate Hl; clear Hl;
    cbn in Hr; row_of_length r;
    cbn in Hv; unfold entry in Hv; cbn in Hv; bool_hyps;
    (split; [|split; [|reflexivity]]);
    cbn; unfold entry, TO_REMOVE; cbn;
    unfold Qdiv in *; change (Qinv 2) with (1 # 2)%Q in *.
  all: try (repeat constructor; max_cases; lra).
  all: try (bool_goal; repeat split; bool_goal; max_cases; lra).
Qed.

(** ** Validation of the box mode *)

Lemma box_convert_mode_unsupported_src (bbox : Tensor) (mode : string)
    (dst : option string) (next : nat) :
  ~ In mode SUPPORTED_MODE ->
  raises (box_convert_mode bbox (Some mode) dst next).
Proof.
  intros Hn. unfold box_convert_mode, abind, lift, check_box_mode, bind.
  rewrite (look_up_option_unsupported mode Hn). eexists; reflexivity.
Qed.

Lemma box_convert_mode_unsupported_dst (bbox : Tensor) (mode : string)
    (src : option string) (next : nat) :
  ~ In mode SUPPORTED_MODE ->
  raises (box_convert_mode bbox src (Some mode) next).
Proof.
  intros Hn. unfold box_convert_mode, abind, lift.
  destruct (check_box_mode bbox src) as [[|]|e]; cbn [negb];
    try (eexists; reflexivity).
  destruct (match src with
            | Some m => Ok m
            | None => get_standard_mode (ncols (convert_data_type bbox) / 2)
            end) as [m|e]; [|eexists; reflexivity].
  destruct (look_up_option String.eqb m SUPPORTED_MODE) as [m'|e]; [|eexists; reflexivity].
  rewrite (look_up_option_unsupported mode Hn). eexists; reflexivity.
Qed.

(** C5 (as amended): there are eight supported modes.  On an [N x 4] or
    [N x 6] array, a mode string outside [SUPPORTED_MODE] makes
    [check_box_mode] and [box_convert_mode] (as source or as target mode)
    raise.  A supported mode whose length equals the number of columns makes
    [check_box_mode] return [False] exactly when some box has a negative size
    in that mode's encoding, and [True] otherwise; a supported mode of the
    other spatial dimension makes it raise [ValueError]. *)
Theorem check_box_mode_validation (bbox : Tensor) (mode : string) :
  ncols bbox = 4 \/ ncols bbox = 6 ->
  List.length SUPPORTED_MODE = 8
  /\ (~ In mode SUPPORTED_MODE ->
        raises (check_box_mode bbox (Some mode))
        /\ forall (other : option string) (next : nat),
             raises (box_convert_mode bbox (Some mode) other next)
             /\ raises (box_convert_mode bbox other (Some mode) next))
  /\ (In mode SUPPORTED_MODE -> String.length mode = ncols bbox ->
        exists b, check_box_mode bbox (Some mode) = Ok b
                  /\ (b = false <->
                      exists box, In box (rows bbox) /\ has_negative_size mode box))
  /\ (In mode SUPPORTED_MODE -> String.length mode <> ncols bbox ->
        exists msg, check_box_mode bbox (Some mode) = Raise (ValueError msg)).
Proof.
  intros Hshape. split; [reflexivity|]. split; [|split].
  - intros Hn. split.
    + unfold check_box_mode, bind. rewrite (look_up_option_unsupported mode Hn).
      eexists; reflexivity.
    + intros other next. split.
      * apply box_convert_mode_unsupported_src; assumption.
      * apply box_convert_mode_unsupported_dst; assumption.
  - intros Hin Hlen. apply check_box_mode_spec; [assumption|symmetry; assumption].
  - intros Hin Hne. eexists. apply check_box_mode_mismatch; assumption.
Qed.

Lemma check_box_mode_validation_witness :
  (ncols unit_box_3d = 4 \/ ncols unit_box_3d = 6)
  /\ exists msg, check_box_mode unit_box_3d (Some "xyxy"%string) = Raise (ValueError msg).
Proof.
  split; [right; reflexivity|].
  refine (proj2 (proj2 (proj2
    (check_box_mode_validation unit_box_3d "xyxy" (or_intror eq_refl)))) _ _).
  - unfold SUPPORTED_MODE; simpl; tauto.
  - simpl; discriminate.
Defined.

(** C5 as stated fails: for the supported mode "xyxy" and a [1 x 6] array
    whose only box has no negative size, [check_box_mode] does not return
    [True]; it raises. *)
Lemma check_box_mode_supported_mode_raises :
  ~ (forall (bbox : Tensor) (mode : string),
       ncols bbox = 4 \/ ncols bbox = 6 ->
       In mode SUPPORTED_MODE ->
       (exists box, In box (rows bbox) /\ has_negative_size mode box)
       \/ check_box_mode bbox (Some mode) = Ok true).
Proof.
  intros H.
  destruct (H unit_box_3d "xyxy"%string) as [[box [Hin [axis [Hlt Hneg]]]] | Hc].
  - right; reflexivity.
  - unfold SUPPORTED_MODE; simpl; tauto.
  - destruct Hin as [<- | []]. cbn in Hlt.
    destruct axis as [|[|axis]]; try lia; vm_compute in Hneg; discriminate Hneg.
  - vm_compute in Hc. discriminate Hc.
Qed.

(** ** Round trip of the mode conversion *)

Lemma rows_valid (bbox : Tensor) (m : string) :
  (forall box, In box (rows bbox) -> ~ has_negative_size m box) ->
  existsb (row_invalid m) (rows bbox) = false.
Proof.
  intros Hv. apply not_true_iff_false. intros E.
  apply existsb_exists in E. destruct E as [box [Hin Hb]].
  apply (Hv box Hin). apply row_invalid_negative. assumption.
Qed.

(** C8: in exact arithmetic, converting an array of boxes with non-negative
    sizes from a supported mode [m1] to a supported mode [m2] of the same
    spatial dimension and back succeeds and gives the original values, and
    neither result shares memory with the array that was passed in. *)
Theorem box_convert_mode_round_trip (bbox : Tensor) (m1 m2 : string) (next : nat) :
  In m1 SUPPORTED_MODE -> In m2 SUPPORTED_MODE ->
  String.length m1 = String.length m2 ->
  is_array bbox -> ncols bbox = String.length m1 ->
  (forall box, In box (rows bbox) -> ~ has_negative_size m1 box) ->
  storage bbox < next ->
  exists mid out next1 next2,
    box_convert_mode bbox (Some m1) (Some m2) next = Ok (mid, next1)
    /\ box_convert_mode mid (Some m2) (Some m1) next1 = Ok (out, next2)
    /\ same_values out bbox
    /\ ~ shares_memory mid bbox
    /\ ~ shares_memory out bbox.
Proof.
  intros H1 H2 Hl Hwf Hc Hv Hst.
  pose proof (rows_valid bbox m1 Hv) as Hrows.
  assert (Hchk : check_box_mode bbox (Some m1) = Ok true).
  { rewrite (check_box_mode_rows bbox m1 H1 Hc), Hrows. reflexivity. }
  assert (Hrt : forall r, In r (rows bbox) ->
            Forall2 Qeq (convert_row m2 m1 (convert_row m1 m2 r)) r
            /\ row_invalid m2 (convert_row m1 m2 r) = false
            /\ List.length (convert_row m1 m2 r) = String.length m2).
  { intros r Hin. apply convert_row_roundtrip; try assumption.
    - unfold is_array in Hwf. rewrite Forall_forall in Hwf.
      rewrite (Hwf r Hin). assumption.
    - apply not_true_iff_false. intros E. apply (Hv r Hin).
      apply row_invalid_negative. assumption. }
  set (mid := mkTensor next (ncols bbox) (map (convert_row m1 m2) (rows bbox))).
  assert (Hchk2 : check_box_mode mid (Some m2) = Ok true).
  { rewrite (check_box_mode_rows mid m2 H2); [|cbn; congruence].
    assert (E : existsb (fun r => row_invalid m2 (convert_row m1 m2 r)) (rows bbox) = false).
    { apply not_true_iff_false. intros E. apply existsb_exists in E.
      destruct E as [r [Hin Hb]]. destruct (Hrt r Hin) as [_ [Hf _]]. congruence. }
    unfold mid; cbn [rows]. rewrite existsb_of_map, E. reflexivity. }
  exists mid, (mkTensor (S next) (ncols mid) (map (convert_row m2 m1) (rows mid))),
    (S next), (S (S next)).
  split; [apply box_convert_mode_rows; assumption|].
  split; [apply box_convert_mode_rows; try assumption; cbn; congruence|].
  split; [|split].
  - split; [reflexivity|]. cbn [rows mid]. rewrite map_map.
    clear - Hrt. induction (rows bbox) as [|r rs IH]; [constructor|].
    cbn [map]. constructor.
    + apply Hrt. left; reflexivity.
    + apply IH. intros r' Hin. apply Hrt. right; assumption.
  - unfold shares_memory; cbn. lia.
  - unfold shares_memory; cbn. lia.
Qed.

Lemma box_convert_mode_round_trip_witness :
  exists mid out next1 next2,
    box_convert_mode two_boxes (Some "xyxy"%string) (Some "ccwh"%string) 1 = Ok (mid, next1)
    /\ box_convert_mode mid (Some "ccwh"%string) (Some "xyxy"%string) next1 = Ok (out, next2)
    /\ same_values out two_boxes
    /\ ~ shares_memory mid two_boxes
    /\ ~ shares_memory out two_boxes.
Proof.
  apply (box_convert_mode_round_trip two_boxes "xyxy" "ccwh" 1).
  - unfold SUPPORTED_MODE; simpl; tauto.
  - unfold SUPPORTED_MODE; simpl; tauto.
  - reflexivity.
  - repeat constructor.
  - reflexivity.
  - intros box Hin [axis [Hlt Hneg]]. cbn in Hlt.
    destruct Hin as [<- | [<- | []]];
      destruct axis as [|[|axis]]; try lia; vm_compute in Hneg; discriminate Hneg.
  - cbn. lia.
Defined.

(** ** The spatial dimension *)

Lemma nodup_singleton (l : list nat) (d : nat) :
  nodup Nat.eq_dec l = [d] <-> l <> [] /\ Forall (eq d) l.
Proof.
  induction l as [|x l IH]; cbn [nodup].
  - split; [discriminate|intros [H _]; contradiction].
  - destruct (in_dec Nat.eq_dec x l) as [Hin|Hin].
    + rewrite IH. split.
      * intros [_ Hall]. split; [discriminate|]. constructor; [|assumption].
        rewrite Forall_forall in Hall. apply Hall. assumption.
      * intros [_ Hall]. inversion Hall; subst. split; [|assumption].
        intros ->. contradiction.
    + split.
      * intros E. injection E as -> E. split; [discriminate|].
        destruct l as [|y l]; [repeat constructor|].
        exfalso. assert (Hy : In y (nodup Nat.eq_dec (y :: l))) by (apply nodup_In; left; reflexivity).
        rewrite E in Hy. contradiction.
      * intros [_ Hall]. inversion Hall as [|? ? <- Hall']; subst.
        destruct l as [|y l]; [reflexivity|].
        exfalso. apply Hin. inversion Hall'; subst. left; reflexivity.
Qed.

(** X1: [get_dimension] returns a spatial dimension [d] exactly when [d] is
    2 or 3, at least one of the three arguments is given, and every argument
    that is given has that dimension: half the number of columns of the array,
    the length of the image size, half the length of the mode string.  In
    every other case it raises. *)
Theorem get_dimension_spec (bbox : option Tensor) (image_size : option (list Z))
    (mode : option string) (d : nat) :
  get_dimension bbox image_size mode = Ok d
  <-> (d = 2 \/ d = 3)
      /\ (bbox <> None \/ image_size <> None \/ mode <> None)
      /\ (forall b, bbox = Some b -> ncols b / 2 = d)
      /\ (forall sz, image_size = Some sz -> List.length sz = d)
      /\ (forall m, mode = Some m -> String.length m / 2 = d).
Proof.
  unfold get_dimension.
  set (l := (match image_size with Some sz => [List.length sz] | None => [] end)
            ++ (match mode with Some m => [String.length m / 2] | None => [] end)
            ++ (match bbox with Some b => [ncols b / 2] | None => [] end)).
  transitivity ((d = 2 \/ d = 3) /\ l <> [] /\ Forall (eq d) l).
  - rewrite <- nodup_singleton.
    destruct (nodup Nat.eq_dec l) as [|d0 [|d1 rest]].
    + split; [discriminate|intros [_ H]; discriminate H].
    + unfold look_up_option; cbn [existsb].
      destruct (Nat.eqb_spec d0 2); [|destruct (Nat.eqb_spec d0 3)]; cbn [orb]; split.
      all: try (intros E; injection E as <-; split; [lia|reflexivity]).
      all: try (intros [_ E]; injection E as <-; reflexivity).
      * discriminate.
      * intros [H E]; injection E as <-; lia.
    + split; [discriminate|intros [_ H]; discriminate H].
  - subst l. destruct bbox as [b|], image_size as [sz|], mode as [m|]; cbn [app].
    all: split; [intros [Hd [Hne Hall]] | intros [Hd [Hne [Hb [Hs Hm]]]]]; (split; [exact Hd|]).
    all: repeat match goal with
         | H : Forall _ (_ :: _) |- _ => inversion H; subst; clear H
         end.
    all: try (exfalso; apply Hne; reflexivity).
    all: try (destruct Hne as [?H|[?H|?H]]; exfalso; congruence).
    all: try (split; [discriminate|repeat constructor; symmetry; auto]).
    all: (split; [(left; discriminate) || (right; left; discriminate) || (right; right; discriminate)|]).
    all: repeat split; intros ? E; (discriminate E || (injection E as <-; first [reflexivity | assumption | symmetry; assumption])).
Qed.

(** ** Further properties of the mode conversion *)

Lemma convert_row_compose (m1 m2 m3 : string) (r : list Q) :
  In m1 SUPPORTED_MODE -> In m2 SUPPORTED_MODE -> In m3 SUPPORTED_MODE ->
  String.length m1 = String.length m2 -> String.length m2 = String.length m3 ->
  List.length r = String.length m1 ->
  row_invalid m1 r = false ->
  Forall2 Qeq (convert_row m2 m3 (convert_row m1 m2 r)) (convert_row m1 m3 r).
Proof.
  intros H1 H2 H3 Hl Hl' Hr Hv.
  each_mode H1; each_mode H2; try discriminate Hl; clear Hl;
    each_mode H3; try discriminate Hl'; clear Hl';
    cbn in Hr; row_of_length r;
    cbn in Hv; unfold entry in Hv; cbn in Hv; bool_hyps;
    cbn; unfold entry, TO_REMOVE; cbn;
    unfold Qdiv in *; change (Qinv 2) with (1 # 2)%Q in *.
  all: repeat constructor; max_cases; lra.
Qed.

Lemma row_valid_of (bbox : Tensor) (m : string) (r : list Q) :
  (forall box, In box (rows bbox) -> ~ has_negative_size m box) ->
  In r (rows bbox) -> row_invalid m r = false.
Proof.
  intros Hv Hin. apply not_true_iff_false. intros E. apply (Hv r Hin).
  apply row_invalid_negative. assumption.
Qed.

Lemma check_box_mode_valid (bbox : Tensor) (m : string) :
  In m SUPPORTED_MODE -> ncols bbox = String.length m ->
  (forall box, In box (rows bbox) -> ~ has_negative_size m box) ->
  check_box_mode bbox (Some m) = Ok true.
Proof.
  intros Hm Hc Hv. rewrite (check_box_mode_rows bbox m Hm Hc), (rows_valid bbox m Hv).
  reflexivity.
Qed.

(** The array computed by a conversion is an array of boxes with no
    negative size in the target mode. *)
Lemma converted_valid (bbox : Tensor) (m1 m2 : string) (s : nat) :
  In m1 SUPPORTED_MODE -> In m2 SUPPORTED_MODE ->
  String.length m1 = String.length m2 ->
  is_array bbox -> ncols bbox = String.length m1 ->
  (forall box, In box (rows bbox) -> ~ has_negative_size m1 box) ->
  let out := mkTensor s (ncols bbox) (map (convert_row m1 m2) (rows bbox)) in
  is_array out
  /\ (forall box, In box (rows out) -> ~ has_negative_size m2 box).
Proof.
  intros H1 H2 Hl Hwf Hc Hv out.
  assert (Hrt : forall r, In r (rows bbox) ->
            row_invalid m2 (convert_row m1 m2 r) = false
            /\ List.length (convert_row m1 m2 r) = String.length m2).
  { intros r Hin. apply convert_row_roundtrip; try assumption.
    - unfold is_array in Hwf. rewrite Forall_forall in Hwf.
      rewrite (Hwf r Hin). assumption.
    - apply (row_valid_of bbox); assumption. }
  split.
  - unfold is_array, out. cbn [rows ncols]. apply Forall_forall. intros r Hin.
    apply in_map_iff in Hin. destruct Hin as [r0 [<- Hin]].
    destruct (Hrt r0 Hin) as [_ E]. congruence.
  - intros box Hin Hneg. unfold out in Hin. cbn [rows] in Hin.
    apply in_map_iff in Hin. destruct Hin as [r0 [<- Hin]].
    destruct (Hrt r0 Hin) as [E _]. apply row_invalid_negative in Hneg. congruence.
Qed.

(** X2: an array holding a box of negative size in its (supported) source
    mode is never converted: [box_convert_mode], for any target mode, and
    [box_convert_standard_mode] raise [ValueError], before anything is
    allocated. *)
Theorem box_convert_mode_rejects_negative_size (bbox : Tensor) (m : string)
    (dst : option string) (next : nat) :
  In m SUPPORTED_MODE -> ncols bbox = String.length m ->
  (exists box, In box (rows bbox) /\ has_negative_size m box) ->
  box_convert_mode bbox (Some m) dst next
  = Raise (ValueError "Given bbox has invalid values. The box size must be non-negative.")
  /\ box_convert_standard_mode bbox (Some m) next
     = Raise (ValueError "Given bbox has invalid values. The box size must be non-negative.").
Proof.
  intros Hm Hc Hneg.
  destruct (check_box_mode_spec bbox m Hm Hc) as [b [Hchk Hb]].
  apply Hb in Hneg. subst b.
  assert (E : forall dst', box_convert_mode bbox (Some m) dst' next
     = Raise (ValueError "Given bbox has invalid values. The box size must be non-negative.")).
  { intros dst'. unfold box_convert_mode, abind, lift. rewrite Hchk. reflexivity. }
  split; [apply E|].
  unfold box_convert_standard_mode, abind, lift.
  destruct bbox as [s c rs]. cbn [ncols] in *. subst c.
  each_mode Hm; cbn -[box_convert_mode]; apply E.
Qed.

(** X3: converting an array of valid boxes between supported modes of
    different spatial dimension (a 4-letter and a 6-letter mode) raises
    [ValueError]. *)
Theorem box_convert_mode_dimension_mismatch (bbox : Tensor) (m1 m2 : string) (next : nat) :
  In m1 SUPPORTED_MODE -> In m2 SUPPORTED_MODE ->
  String.length m1 <> String.length m2 ->
  ncols bbox = String.length m1 ->
  (forall box, In box (rows bbox) -> ~ has_negative_size m1 box) ->
  box_convert_mode bbox (Some m1) (Some m2) next
  = Raise (ValueError
      "The dimension of the new mode should have the same spatial dimension as the old mode.").
Proof.
  intros H1 H2 Hne Hc Hv.
  pose proof (check_box_mode_valid bbox m1 H1 Hc Hv) as Hchk.
  unfold box_convert_mode, abind, lift. rewrite Hchk. cbn [negb].
  destruct bbox as [s c rs]. cbn [ncols] in *. subst c. clear Hchk Hv.
  each_mode H1; each_mode H2; try (exfalso; apply Hne; reflexivity); reflexivity.
Qed.

(** X4: converting an array of boxes with no negative size between supported
    modes of the same spatial dimension returns, in the buffer allocated for
    it, an array of the same shape whose boxes have no negative size in the
    target mode: [check_box_mode] accepts the result. *)
Theorem box_convert_mode_result_valid (bbox : Tensor) (m1 m2 : string) (next : nat) :
  In m1 SUPPORTED_MODE -> In m2 SUPPORTED_MODE ->
  String.length m1 = String.length m2 ->
  is_array bbox -> ncols bbox = String.length m1 ->
  (forall box, In box (rows bbox) -> ~ has_negative_size m1 box) ->
  exists out,
    box_convert_mode bbox (Some m1) (Some m2) next = Ok (out, S next)
    /\ storage out = next
    /\ ncols out = ncols bbox
    /\ List.length (rows out) = List.length (rows bbox)
    /\ is_array out
    /\ check_box_mode out (Some m2) = Ok true.
Proof.
  intros H1 H2 Hl Hwf Hc Hv.
  destruct (converted_valid bbox m1 m2 next H1 H2 Hl Hwf Hc Hv) as [Hwf' Hv'].
  eexists. split.
  - apply box_convert_mode_rows; try assumption.
    apply check_box_mode_valid; assumption.
  - split; [reflexivity|]. split; [reflexivity|]. split; [cbn; apply length_map|].
    split; [exact Hwf'|].
    apply check_box_mode_valid; [assumption|cbn; congruence|exact Hv'].
Qed.

(** X5: in exact arithmetic, converting from [m1] to [m3] through an
    intermediate supported mode [m2] gives the same values as converting from
    [m1] to [m3] directly. *)
Theorem box_convert_mode_compose (bbox : Tensor) (m1 m2 m3 : string) (next : nat) :
  In m1 SUPPORTED_MODE -> In m2 SUPPORTED_MODE -> In m3 SUPPORTED_MODE ->
  String.length m1 = String.length m2 -> String.length m2 = String.length m3 ->
  is_array bbox -> ncols bbox = String.length m1 ->
  (forall box, In box (rows bbox) -> ~ has_negative_size m1 box) ->
  exists mid out direct,
    box_convert_mode bbox (Some m1) (Some m2) next = Ok (mid, S next)
    /\ box_convert_mode mid (Some m2) (Some m3) (S next) = Ok (out, S (S next))
    /\ box_convert_mode bbox (Some m1) (Some m3) next = Ok (direct, S next)
    /\ same_values out direct.
Proof.
  intros H1 H2 H3 Hl Hl' Hwf Hc Hv.
  destruct (converted_valid bbox m1 m2 next H1 H2 Hl Hwf Hc Hv) as [Hwf' Hv'].
  pose proof (check_box_mode_valid bbox m1 H1 Hc Hv) as Hchk.
  do 3 eexists. split; [apply box_convert_mode_rows; assumption|].
  split.
  { apply box_convert_mode_rows; try assumption; [cbn; congruence|].
    apply check_box_mode_valid; [assumption|cbn; congruence|exact Hv']. }
  split; [apply box_convert_mode_rows; try assumption; congruence|].
  split; [reflexivity|]. cbn [rows]. rewrite map_map.
  assert (Hrow : forall r, In r (rows bbox) ->
            Forall2 Qeq (convert_row m2 m3 (convert_row m1 m2 r)) (convert_row m1 m3 r)).
  { intros r Hin. apply convert_row_compose; try assumption.
    - unfold is_array in Hwf. rewrite Forall_forall in Hwf. rewrite (Hwf r Hin). assumption.
    - apply (row_valid_of bbox); assumption. }
  clear - Hrow. induction (rows bbox) as [|r rs IH]; [constructor|].
  cbn [map]. constructor.
  - apply Hrow. left; reflexivity.
  - apply IH. intros r' Hin. apply Hrow. right; assumption.
Qed.

Lemma standard_mode_supported (m : string) :
  In m SUPPORTED_MODE ->
  In (standard_mode_of m) SUPPORTED_MODE
  /\ String.length m = String.length (standard_mode_of m)
  /\ get_standard_mode (String.length m / 2) = Ok (standard_mode_of m).
Proof.
  intros Hm. each_mode Hm; (split; [unfold SUPPORTED_MODE; simpl; tauto|split; reflexivity]).
Qed.

Lemma box_convert_standard_mode_unfold (bbox : Tensor) (m : string) (next : nat) :
  In m SUPPORTED_MODE -> ncols bbox = String.length m ->
  box_convert_standard_mode bbox (Some m) next
  = box_convert_mode bbox (Some m) (Some (standard_mode_of m)) next
  /\ (m = standard_mode_of m ->
      box_convert_standard_mode bbox None next
      = box_convert_mode bbox (Some m) (Some m) next).
Proof.
  intros Hm Hc. destruct bbox as [s c rs]. cbn [ncols] in *. subst c.
  unfold box_convert_standard_mode, abind, lift.
  each_mode Hm; cbn -[box_convert_mode]; (split; [reflexivity|]);
    intros E; try discriminate E; reflexivity.
Qed.

(** X6: on an array of boxes with no negative size, given in a supported
    mode of its spatial dimension, [box_convert_standard_mode] returns the
    conversion to "xyxy" (four columns) or "xyzxyz" (six columns) in memory
    not shared with the argument; [check_box_mode] with its default mode
    accepts the result, and converting the result once more, with the default
    mode, returns the same values in yet another buffer. *)
Theorem box_convert_standard_mode_spec (bbox : Tensor) (m : string) (next : nat) :
  In m SUPPORTED_MODE ->
  is_array bbox -> ncols bbox = String.length m ->
  (forall box, In box (rows bbox) -> ~ has_negative_size m box) ->
  storage bbox < next ->
  exists out again,
    box_convert_standard_mode bbox (Some m) next = Ok (out, S next)
    /\ rows out = map (convert_row m (standard_mode_of m)) (rows bbox)
    /\ ncols out = ncols bbox
    /\ check_box_mode out None = Ok true
    /\ ~ shares_memory out bbox
    /\ box_convert_standard_mode out None (S next) = Ok (again, S (S next))
    /\ rows again = rows out
    /\ ~ shares_memory again out.
Proof.
  intros Hm Hwf Hc Hv Hst.
  destruct (standard_mode_supported m Hm) as [Hs [Hl Hstd]].
  destruct (converted_valid bbox m (standard_mode_of m) next Hm Hs Hl Hwf Hc Hv) as [Hwf' Hv'].
  set (out := mkTensor next (ncols bbox)
                (map (convert_row m (standard_mode_of m)) (rows bbox))) in *.
  assert (Hc' : ncols out = String.length (standard_mode_of m)) by (cbn; congruence).
  assert (Hst2 : standard_mode_of (standard_mode_of m) = standard_mode_of m)
    by (clear - Hm; each_mode Hm; reflexivity).
  pose proof (check_box_mode_valid out _ Hs Hc' Hv') as Hchk.
  exists out, (mkTensor (S next) (ncols out) (rows out)).
  split.
  { rewrite (proj1 (box_convert_standard_mode_unfold bbox m next Hm Hc)).
    apply box_convert_mode_rows; try assumption.
    apply check_box_mode_valid; assumption. }
  split; [reflexivity|]. split; [reflexivity|].
  split.
  { unfold check_box_mode in *. rewrite Hc', <- Hl, Hstd. exact Hchk. }
  split; [unfold shares_memory; cbn; lia|].
  split.
  { rewrite (proj2 (box_convert_standard_mode_unfold out _ (S next) Hs Hc') (eq_sym Hst2)).
    rewrite (box_convert_mode_rows out _ _ (S next) Hs Hs eq_refl Hc' Hchk).
    do 3 f_equal. unfold convert_row. rewrite String.eqb_refl. apply map_id. }
  split; [reflexivity|]. unfold shares_memory; cbn; lia.
Qed.

Ltac supported := unfold SUPPORTED_MODE; simpl; tauto.

Ltac two_boxes_valid :=
  let box := fresh "box" in
  let Hin := fresh "Hin" in
  let axis := fresh "axis" in
  let Hlt := fresh "Hlt" in
  let Hneg := fresh "Hneg" in
  intros box Hin [axis [Hlt Hneg]]; cbn in Hlt;
  destruct Hin as [<- | [<- | []]];
  destruct axis as [|[|axis]]; try lia; vm_compute in Hneg; discriminate Hneg.

Lemma box_convert_mode_rejects_negative_size_witness :
  box_convert_mode inverted_box (Some "xyxy"%string) (Some "ccwh"%string) 1
  = Raise (ValueError "Given bbox has invalid values. The box size must be non-negative.")
  /\ box_convert_standard_mode inverted_box (Some "xyxy"%string) 1
     = Raise (ValueError "Given bbox has invalid values. The box size must be non-negative.").
Proof.
  apply (box_convert_mode_rejects_negative_size inverted_box "xyxy" (Some "ccwh"%string) 1).
  - supported.
  - reflexivity.
  - exists [1; 1; 0; 0]%Q. split; [left; reflexivity|].
    exists 0. split; [cbn; lia|reflexivity].
Defined.

Lemma box_convert_mode_dimension_mismatch_witness :
  box_convert_mode two_boxes (Some "xyxy"%string) (Some "xyzxyz"%string) 1
  = Raise (ValueError
      "The dimension of the new mode should have the same spatial dimension as the old mode.").
Proof.
  apply (box_convert_mode_dimension_mismatch two_boxes "xyxy" "xyzxyz" 1).
  - supported.
  - supported.
  - simpl; discriminate.
  - reflexivity.
  - two_boxes_valid.
Defined.

Lemma box_convert_mode_result_valid_witness :
  exists out,
    box_convert_mode two_boxes (Some "xywh"%string) (Some "ccwh"%string) 1 = Ok (out, 2)
    /\ storage out = 1
    /\ ncols out = ncols two_boxes
    /\ List.length (rows out) = List.length (rows two_boxes)
    /\ is_array out
    /\ check_box_mode out (Some "ccwh"%string) = Ok true.
Proof.
  apply (box_convert_mode_result_valid two_boxes "xywh" "ccwh" 1).
  - supported.
  - supported.
  - reflexivity.
  - repeat constructor.
  - reflexivity.
  - two_boxes_valid.
Defined.

Lemma box_convert_mode_compose_witness :
  exists mid out direct,
    box_convert_mode two_boxes (Some "xyxy"%string) (Some "xywh"%string) 1 = Ok (mid, 2)
    /\ box_convert_mode mid (Some "xywh"%string) (Some "ccwh"%string) 2 = Ok (out, 3)
    /\ box_convert_mode two_boxes (Some "xyxy"%string) (Some "ccwh"%string) 1 = Ok (direct, 2)
    /\ same_values out direct.
Proof.
  apply (box_convert_mode_compose two_boxes "xyxy" "xywh" "ccwh" 1).
  - supported.
  - supported.
  - supported.
  - reflexivity.
  - reflexivity.
  - repeat constructor.
  - reflexivity.
  - two_boxes_valid.
Defined.

Lemma box_convert_standard_mode_spec_witness :
  exists out again,
    box_convert_standard_mode two_boxes (Some "xywh"%string) 1 = Ok (out, 2)
    /\ rows out = map (convert_row "xywh" (standard_mode_of "xywh")) (rows two_boxes)
    /\ ncols out = ncols two_boxes
    /\ check_box_mode out None = Ok true
    /\ ~ shares_memory out two_boxes
    /\ box_convert_standard_mode out None 2 = Ok (again, 3)
    /\ rows again = rows out
    /\ ~ shares_memory again out.
Proof.
  apply (box_convert_standard_mode_spec two_boxes "xywh" 1).
  - supported.
  - repeat constructor.
  - reflexivity.
  - two_boxes_valid.
  - cbn. lia.
Defined.

(** ** Arrays with an extra column, and the corners *)

(** X24: the number of columns is only compared after halving it, so an
    array with one column more than the mode has letters (five columns for a
    4-letter mode, seven for a 6-letter one) is not rejected:
    [check_box_mode] returns, and when it returns [True], [box_convert_mode]
    returns a copy with all the columns if the mode does not change, and
    raises [ValueError] if it does. *)
Theorem extra_column_not_rejected (bbox : Tensor) (m1 m2 : string) (next : nat) :
  In m1 SUPPORTED_MODE -> In m2 SUPPORTED_MODE ->
  String.length m1 = String.length m2 ->
  ncols bbox = S (String.length m1) ->
  (exists valid, check_box_mode bbox (Some m1) = Ok valid)
  /\ (check_box_mode bbox (Some m1) = Ok true ->
      (m1 = m2 ->
       box_convert_mode bbox (Some m1) (Some m2) next
       = Ok (mkTensor next (ncols bbox) (rows bbox), S next))
      /\ (m1 <> m2 ->
          exists msg, box_convert_mode bbox (Some m1) (Some m2) next = Raise (ValueError msg))).
Proof.
  intros H1 H2 Hl Hc. destruct bbox as [s c rs]. cbn [ncols rows] in *. subst c.
  split.
  - each_mode H1; unfold check_box_mode; cbn -[mask_sum];
      match goal with |- exists v, (if ?b then _ else _) = _ =>
        destruct b; eexists; reflexivity end.
  - intros Hchk. unfold box_convert_mode, abind. rewrite Hchk. clear Hchk.
    each_mode H1; each_mode H2; try discriminate Hl; clear Hl;
      (split; intros E; [try discriminate E|try (exfalso; apply E; reflexivity)]).
    all: try reflexivity.
    all: eexists; reflexivity.
Qed.

Lemma split_into_corners_rows (bbox : Tensor) (m : string) :
  In m SUPPORTED_MODE -> ncols bbox = String.length m ->
  split_into_corners bbox (Some m)
  = Ok (map (fun j => map (fun r => nth j (corners_of m r) 0%Q) (rows bbox))
            (seq 0 (String.length m))).
Proof.
  intros Hm Hc. destruct bbox as [s c rs]. cbn [ncols rows] in *. subst c.
  each_mode Hm; cbn; fuse_maps; reflexivity.
Qed.

Lemma corners_of_ordered (m : string) (r : list Q) (axis : nat) :
  In m SUPPORTED_MODE ->
  row_invalid m r = false \/ str_in m (CORNER_SIZE_MODE ++ CENTER_SIZE_MODE) = true ->
  axis < String.length m / 2 ->
  (nth (2 * axis) (corners_of m r) 0 <= nth (2 * axis + 1) (corners_of m r) 0)%Q.
Proof.
  intros Hm Hv Hax.
  each_mode Hm; cbn in Hax;
    (destruct axis as [|[|[|axis]]]; try lia);
    (destruct Hv as [Hv|Hv]; [|try discriminate Hv]);
    try (cbn in Hv; unfold entry in Hv; cbn in Hv; bool_hyps);
    cbn; unfold entry, TO_REMOVE; cbn;
    unfold Qdiv in *; change (Qinv 2) with (1 # 2)%Q in *;
    max_cases; lra.
Qed.

(** X25: for a supported mode of the array's spatial dimension,
    [split_into_corners] returns one column per column of the array, each
    with one entry per box, as [(xmin, xmax, ymin, ymax(, zmin, zmax))]; the
    minimal corner never exceeds the maximal one when the boxes have no
    negative size, and for the corner-size and centre-size modes whatever the
    sizes are, since a negative size is clamped to 0. *)
Theorem split_into_corners_ordered (bbox : Tensor) (m : string) :
  In m SUPPORTED_MODE -> ncols bbox = String.length m ->
  exists corners,
    split_into_corners bbox (Some m) = Ok corners
    /\ List.length corners = ncols bbox
    /\ Forall (fun column => List.length column = List.length (rows bbox)) corners
    /\ ((forall box, In box (rows bbox) -> ~ has_negative_size m box)
        \/ In m (CORNER_SIZE_MODE ++ CENTER_SIZE_MODE) ->
        forall axis i, axis < String.length m / 2 -> i < List.length (rows bbox) ->
          (nth i (nth (2 * axis) corners []) 0 <= nth i (nth (2 * axis + 1) corners []) 0)%Q).
Proof.
  intros Hm Hc. rewrite (split_into_corners_rows bbox m Hm Hc).
  eexists. split; [reflexivity|]. split; [rewrite length_map, length_seq; congruence|].
  split.
  - apply Forall_forall. intros column Hin. apply in_map_iff in Hin.
    destruct Hin as [j [<- _]]. apply length_map.
  - intros Hv axis i Hax Hi.
    assert (Hlen : 2 * axis + 1 < String.length m).
    { clear - Hm Hax. each_mode Hm; cbn in Hax |- *; lia. }
    set (F := fun j => map (fun r => nth j (corners_of m r) 0%Q) (rows bbox)).
    assert (Hcol : forall j, j < String.length m ->
              nth i (nth j (map F (seq 0 (String.length m))) []) 0%Q
              = nth j (corners_of m (nth i (rows bbox) [])) 0%Q).
    { intros j Hj.
      rewrite (nth_indep _ [] (F 0)) by (rewrite length_map, length_seq; exact Hj).
      rewrite (map_nth F (seq 0 (String.length m)) 0 j), seq_nth by exact Hj.
      cbn [Nat.add]. unfold F.
      rewrite (nth_indep _ 0%Q ((fun r => nth j (corners_of m r) 0%Q) []))
        by (rewrite length_map; exact Hi).
      rewrite (map_nth (fun r => nth j (corners_of m r) 0%Q) (rows bbox) [] i).
      reflexivity. }
    rewrite !Hcol by lia.
    apply corners_of_ordered; [exact Hm| |exact Hax].
    destruct Hv as [Hv|Hv].
    + left. apply (row_valid_of bbox m); [exact Hv|]. apply nth_In. exact Hi.
    + right. clear - Hv. unfold str_in. apply existsb_exists. exists m.
      split; [exact Hv|apply String.eqb_refl].
Qed.

Lemma extra_column_not_rejected_witness :
  (exists valid, check_box_mode scored_boxes (Some "xyxy"%string) = Ok valid)
  /\ (check_box_mode scored_boxes (Some "xyxy"%string) = Ok true ->
      ("xyxy"%string = "xywh"%string ->
       box_convert_mode scored_boxes (Some "xyxy"%string) (Some "xywh"%string) 1
       = Ok (mkTensor 1 (ncols scored_boxes) (rows scored_boxes), 2))
      /\ ("xyxy"%string <> "xywh"%string ->
          exists msg,
            box_convert_mode scored_boxes (Some "xyxy"%string) (Some "xywh"%string) 1
            = Raise (ValueError msg))).
Proof.
  apply (extra_column_not_rejected scored_boxes "xyxy" "xywh" 1).
  - supported.
  - supported.
  - reflexivity.
  - reflexivity.
Defined.

Lemma split_into_corners_ordered_witness :
  exists corners,
    split_into_corners two_boxes (Some "ccwh"%string) = Ok corners
    /\ List.length corners = ncols two_boxes
    /\ Forall (fun column => List.length column = List.length (rows two_boxes)) corners
    /\ ((forall box, In box (rows two_boxes) -> ~ has_negative_size "ccwh" box)
        \/ In "ccwh"%string (CORNER_SIZE_MODE ++ CENTER_SIZE_MODE) ->
        forall axis i, axis < String.length "ccwh" / 2 -> i < List.length (rows two_boxes) ->
          (nth i (nth (2 * axis) corners []) 0 <= nth i (nth (2 * axis + 1) corners []) 0)%Q).
Proof.
  apply (split_into_corners_ordered two_boxes "ccwh").
  - supported.
  - reflexivity.
Defined.

End BoxUtilsFacts.

(** ** monai/losses/utils.py *)

Module LossUtilsFacts.

Import LossUtils.

Lemma broadcast_rev_same (s : list nat) : broadcast_rev s s = Some s.
Proof.
  induction s as [|a s IH]; [reflexivity|].
  simpl. rewrite IH, Nat.eqb_refl. reflexivity.
Qed.

Lemma broadcast_shapes_same (s : list nat) : broadcast_shapes s s = Ok s.
Proof.
  unfold broadcast_shapes. rewrite broadcast_rev_same, rev_involutive. reflexivity.
Qed.

Lemma expand_same (t : Tensor) (s : list nat) : shape t = s -> expand t s = t.
Proof.
  intros E. unfold expand, shape_eqb.
  destruct (list_eq_dec Nat.eq_dec (shape t) s); [reflexivity|contradiction].
Qed.

Lemma elementwise_same_shape (op : Q -> Q -> Q) (a b : Tensor) :
  shape a = shape b ->
  elementwise op a b
  = Ok (mkTensor (shape a) (fun idx => op (elems a idx) (elems b idx))).
Proof.
  intros E. unfold elementwise. rewrite <- E, broadcast_shapes_same. cbn [bind].
  rewrite (expand_same a (shape a) eq_refl), (expand_same b (shape a) (eq_sym E)).
  reflexivity.
Qed.

Lemma fold_sum_minus (F G : nat -> Q) (js : list nat) :
  (fold_right (fun j acc => F j - G j + acc) 0 js
   == fold_right (fun j acc => F j + acc) 0 js - fold_right (fun j acc => G j + acc) 0 js)%Q.
Proof.
  induction js as [|j js IH]; cbn [fold_right]; [lra|]. rewrite IH. lra.
Qed.

Lemma fold_sum_ext (F G : nat -> Q) (js : list nat) :
  (forall j, F j == G j)%Q ->
  (fold_right (fun j acc => F j + acc) 0 js == fold_right (fun j acc => G j + acc) 0 js)%Q.
Proof.
  intros E. induction js as [|j js IH]; cbn [fold_right]; [reflexivity|].
  rewrite IH, (E j). reflexivity.
Qed.

(** Summation is linear: the sum of a difference is the difference of the sums. *)
Lemma sum_over_minus (f g : list nat -> Q) (dims : list nat) :
  forall (pos : nat) (axes kept prefix : list nat),
    (sum_over dims pos axes kept prefix (fun idx => f idx - g idx)
     == sum_over dims pos axes kept prefix f - sum_over dims pos axes kept prefix g)%Q.
Proof.
  induction dims as [|d dims IH]; intros pos axes kept prefix; cbn [sum_over].
  - reflexivity.
  - destruct (existsb (Nat.eqb pos) axes).
    + rewrite <- fold_sum_minus. apply fold_sum_ext. intros j. apply IH.
    + destruct kept as [|k kept]; [lra|apply IH].
Qed.

Lemma sum_over_ext (f g : list nat -> Q) (dims : list nat) :
  (forall idx, f idx == g idx)%Q ->
  forall (pos : nat) (axes kept prefix : list nat),
    (sum_over dims pos axes kept prefix f == sum_over dims pos axes kept prefix g)%Q.
Proof.
  intros E. induction dims as [|d dims IH]; intros pos axes kept prefix; cbn [sum_over].
  - apply E.
  - destruct (existsb (Nat.eqb pos) axes).
    + apply fold_sum_ext. intros j. apply IH.
    + destruct kept as [|k kept]; [reflexivity|apply IH].
Qed.

(** C9 (as amended): in exact arithmetic, for input and target tensors of
    the same shape and every [reduce_axis], with [ord = 1] and
    [soft_label = False], the decoupled and the non-decoupled branch of
    [compute_tp_fp_fn] have the same outcome: the same exception when
    [reduce_axis] is invalid, and otherwise equal [(tp, fp, fn)]. *)
Theorem compute_tp_fp_fn_decoupled_agree (input target : Tensor) (reduce_axis : list Z) :
  shape input = shape target ->
  outcome_eq (compute_tp_fp_fn input target reduce_axis 1 false true)
             (compute_tp_fp_fn input target reduce_axis 1 false false).
Proof.
  intros Hs. unfold compute_tp_fp_fn. cbn [Nat.eqb negb andb].
  unfold mul, sub, rsub_scalar.
  rewrite !elementwise_same_shape by (cbn [shape map_elems]; assumption).
  cbn [bind]. unfold sum. cbn [shape map_elems elems].
  rewrite <- Hs.
  destruct (reduce_axes (List.length (shape input)) reduce_axis) as [axes|e];
    cbn [bind]; [|reflexivity].
  rewrite !elementwise_same_shape by reflexivity.
  cbn [bind outcome_eq shape elems].
  repeat split; intros idx; try reflexivity.
  - symmetry. eapply Qeq_trans.
    + apply (sum_over_ext _ (fun i => elems input i - elems input i * elems target i)%Q).
      intros i. lra.
    + apply (sum_over_minus (elems input) (fun i => elems input i * elems target i)%Q).
  - symmetry. eapply Qeq_trans.
    + apply (sum_over_ext _ (fun i => elems target i - elems input i * elems target i)%Q).
      intros i. lra.
    + apply (sum_over_minus (elems target) (fun i => elems input i * elems target i)%Q).
Qed.

Lemma compute_tp_fp_fn_decoupled_agree_witness :
  outcome_eq
    (compute_tp_fp_fn (vector [1 # 2; 1 # 3; 1]%Q) (vector [1; 0; 1]%Q) [0%Z] 1 false true)
    (compute_tp_fp_fn (vector [1 # 2; 1 # 3; 1]%Q) (vector [1; 0; 1]%Q) [0%Z] 1 false false).
Proof.
  apply (compute_tp_fp_fn_decoupled_agree
           (vector [1 # 2; 1 # 3; 1]%Q) (vector [1; 0; 1]%Q) [0%Z]).
  reflexivity.
Defined.

(** C9 as stated fails when the shapes differ and broadcasting applies: for
    an input of shape [(1,)] and a target of shape [(2,)], the decoupled
    branch gives [fp = 1] and the other one [fp = 2]. *)
Lemma compute_tp_fp_fn_broadcast_disagree :
  ~ outcome_eq
      (compute_tp_fp_fn (vector [1%Q]) (vector [0%Q; 0%Q]) [0%Z] 1 false true)
      (compute_tp_fp_fn (vector [1%Q]) (vector [0%Q; 0%Q]) [0%Z] 1 false false).
Proof.
  cbn. intros [_ [[_ Hfp] _]]. specialize (Hfp []). vm_compute in Hfp. discriminate Hfp.
Qed.

(** ** Further properties of the counts *)

Lemma fold_sum_plus (F G : nat -> Q) (js : list nat) :
  (fold_right (fun j acc => F j + G j + acc) 0 js
   == fold_right (fun j acc => F j + acc) 0 js + fold_right (fun j acc => G j + acc) 0 js)%Q.
Proof.
  induction js as [|j js IH]; cbn [fold_right]; [lra|]. rewrite IH. lra.
Qed.

Lemma sum_over_plus (f g : list nat -> Q) (dims : list nat) :
  forall (pos : nat) (axes kept prefix : list nat),
    (sum_over dims pos axes kept prefix (fun idx => f idx + g idx)
     == sum_over dims pos axes kept prefix f + sum_over dims pos axes kept prefix g)%Q.
Proof.
  induction dims as [|d dims IH]; intros pos axes kept prefix; cbn [sum_over].
  - reflexivity.
  - destruct (existsb (Nat.eqb pos) axes).
    + rewrite <- fold_sum_plus. apply fold_sum_ext. intros j. apply IH.
    + destruct kept as [|k kept]; [lra|apply IH].
Qed.

Lemma fold_sum_le (F G : nat -> Q) (js : list nat) :
  (forall j, F j <= G j)%Q ->
  (fold_right (fun j acc => F j + acc) 0 js <= fold_right (fun j acc => G j + acc) 0 js)%Q.
Proof.
  intros E. induction js as [|j js IH]; cbn [fold_right]; [lra|].
  specialize (E j). lra.
Qed.

Lemma sum_over_le (f g : list nat -> Q) (dims : list nat) :
  (forall idx, f idx <= g idx)%Q ->
  forall (pos : nat) (axes kept prefix : list nat),
    (sum_over dims pos axes kept prefix f <= sum_over dims pos axes kept prefix g)%Q.
Proof.
  intros E. induction dims as [|d dims IH]; intros pos axes kept prefix; cbn [sum_over].
  - apply E.
  - destruct (existsb (Nat.eqb pos) axes).
    + apply fold_sum_le. intros j. apply IH.
    + destruct kept as [|k kept]; [lra|apply IH].
Qed.

Lemma abs_pow_1 (x : Q) : abs_pow 1 x = Qabs x.
Proof. reflexivity. Qed.

Lemma abs_pow_sym (ord : nat) (a b : Q) : (abs_pow ord (a - b) == abs_pow ord (b - a))%Q.
Proof.
  destruct ord as [|n]; unfold abs_pow.
  - destruct (Qeq_bool (a - b) 0) eqn:E1, (Qeq_bool (b - a) 0) eqn:E2; try reflexivity.
    + apply Qeq_bool_iff in E1. apply Qeq_bool_neq in E2. exfalso. apply E2. lra.
    + apply Qeq_bool_iff in E2. apply Qeq_bool_neq in E1. exfalso. apply E1. lra.
  - rewrite (Qabs_Qminus a b). reflexivity.
Qed.

Ltac same_shape Hs :=
  unfold mul, sub, add, rsub_scalar, div_scalar, vector_norm_pow;
  rewrite ?elementwise_same_shape by (cbn [shape map_elems]; congruence);
  cbn [bind]; unfold sum; cbn [shape map_elems elems].

(** X7: in exact arithmetic, with [ord = 1] and hard labels, on tensors of
    the same shape, the counts returned by [compute_tp_fp_fn] add up to the
    marginal sums, in the decoupled and in the other branch:
    [tp + fp = sum(input)] and [tp + fn = sum(target)] over the reduced axes;
    the call raises exactly when these sums raise, with the same exception. *)
Theorem compute_tp_fp_fn_marginals (input target : Tensor) (reduce_axis : list Z)
    (decoupled : bool) :
  shape input = shape target ->
  match compute_tp_fp_fn input target reduce_axis 1 false decoupled,
        sum input reduce_axis, sum target reduce_axis with
  | Ok (tp, fp, fn), Ok si, Ok st =>
      shape tp = shape si /\ shape fp = shape si /\ shape fn = shape st
      /\ forall idx, (elems tp idx + elems fp idx == elems si idx)%Q
                     /\ (elems tp idx + elems fn idx == elems st idx)%Q
  | Raise e, Raise e1, Raise e2 => e = e1 /\ e = e2
  | _, _, _ => False
  end.
Proof.
  intros Hs. unfold compute_tp_fp_fn. cbn [Nat.eqb negb andb].
  same_shape Hs. rewrite <- Hs.
  destruct (reduce_axes (List.length (shape input)) reduce_axis) as [axes|e];
    cbn [bind]; [|split; reflexivity].
  destruct decoupled; same_shape Hs.
  - repeat split; lra.
  - repeat split.
    + rewrite <- (sum_over_plus (fun i => elems input i * elems target i)%Q
                                (fun i => elems input i * (1 - elems target i))%Q).
      apply sum_over_ext. intros i. lra.
    + rewrite <- (sum_over_plus (fun i => elems input i * elems target i)%Q
                                (fun i => (1 - elems input i) * elems target i)%Q).
      apply sum_over_ext. intros i. lra.
Qed.

Ltac unify_shapes input target Hs :=
  let s := fresh "s" in let s' := fresh "s" in
  let f := fresh "f" in let g := fresh "g" in
  destruct input as [s f], target as [s' g]; cbn [shape] in Hs; subst s'.

(** X8: for tensors of the same shape, and every [reduce_axis], [ord],
    [soft_label] and [decoupled], exchanging input and target exchanges the
    false positives and the false negatives and keeps the true positives. *)
Theorem compute_tp_fp_fn_swap (input target : Tensor) (reduce_axis : list Z) (ord : nat)
    (soft_label decoupled : bool) :
  shape input = shape target ->
  outcome_eq (compute_tp_fp_fn target input reduce_axis ord soft_label decoupled)
             (swap_fp_fn (compute_tp_fp_fn input target reduce_axis ord soft_label decoupled)).
Proof.
  intros Hs. unify_shapes input target Hs. unfold compute_tp_fp_fn.
  destruct ((ord =? 1) && negb soft_label).
  - same_shape Hs.
    destruct (reduce_axes (List.length s) reduce_axis) as [axes|e];
      cbn [bind swap_fp_fn outcome_eq]; [|reflexivity].
    destruct decoupled; same_shape Hs; cbn [swap_fp_fn outcome_eq];
      (split; [|split]); (split; [reflexivity|intros idx; cbn [elems]]).
    all: try (apply sum_over_ext; intros i; lra).
    all: try (apply Qplus_comp; [reflexivity|apply Qopp_comp];
              apply sum_over_ext; intros i; lra).
  - same_shape Hs.
    destruct (reduce_axes (List.length s) reduce_axis) as [axes|e];
      cbn [bind swap_fp_fn outcome_eq]; [|reflexivity].
    repeat (rewrite elementwise_same_shape by reflexivity; cbn [bind shape elems map_elems]).
    cbn [swap_fp_fn outcome_eq].
    assert (Hd : forall idx,
              (sum_over s 0 axes idx [] (fun i => abs_pow ord (g i - f i))
               == sum_over s 0 axes idx [] (fun i => abs_pow ord (f i - g i)))%Q).
    { intros idx. apply sum_over_ext. intros i. apply abs_pow_sym. }
    (split; [|split]); (split; [reflexivity|intros idx; pose proof (Hd idx)]);
      unfold map_elems; cbn [elems]; unfold Qdiv; change (/ 2)%Q with (1 # 2)%Q; lra.
Qed.

Lemma fold_sum_nonneg (F : nat -> Q) (js : list nat) :
  (forall j, 0 <= F j)%Q -> (0 <= fold_right (fun j acc => F j + acc) 0 js)%Q.
Proof.
  intros E. induction js as [|j js IH]; cbn [fold_right]; [lra|].
  specialize (E j). lra.
Qed.

Lemma sum_over_nonneg (f : list nat -> Q) (dims : list nat) :
  (forall idx, 0 <= f idx)%Q ->
  forall (pos : nat) (axes kept prefix : list nat),
    (0 <= sum_over dims pos axes kept prefix f)%Q.
Proof.
  intros E. induction dims as [|d dims IH]; intros pos axes kept prefix; cbn [sum_over].
  - apply E.
  - destruct (existsb (Nat.eqb pos) axes).
    + apply fold_sum_nonneg. intros j. apply IH.
    + destruct kept as [|k kept]; [lra|apply IH].
Qed.

Lemma Qabs_cases (x : Q) :
  ((0 <= x)%Q /\ (Qabs x == x)%Q) \/ ((x <= 0)%Q /\ (Qabs x == - x)%Q).
Proof.
  destruct (Qlt_le_dec x 0) as [H|H].
  - right. split; [lra|]. apply Qabs_neg. lra.
  - left. split; [assumption|]. apply Qabs_pos. assumption.
Qed.

Ltac abs_cases :=
  repeat match goal with
  | |- context [Qabs ?a] =>
      let a' := fresh "a" in
      destruct (Qabs_cases a) as [[? ?]|[? ?]];
      set (a' := Qabs a) in *; clearbody a'
  end.

(** A sum of [f + g - h], term by term. *)
Lemma sum_over_plus_minus (f g h : list nat -> Q) (dims : list nat)
    (pos : nat) (axes kept prefix : list nat) :
  (sum_over dims pos axes kept prefix (fun i => f i + g i - h i)
   == sum_over dims pos axes kept prefix f + sum_over dims pos axes kept prefix g
      - sum_over dims pos axes kept prefix h)%Q.
Proof.
  pose proof (sum_over_minus (fun i => f i + g i)%Q h dims pos axes kept prefix) as H1.
  pose proof (sum_over_plus f g dims pos axes kept prefix) as H2.
  cbv beta in H1. lra.
Qed.

(** X9: in exact arithmetic, with [ord = 1], on tensors of the same shape
    and a valid [reduce_axis], [compute_tp_fp_fn] returns, and no entry of
    [tp], [fp] or [fn] is negative: for soft labels whatever the entries
    are, for hard labels when the entries of input and target lie in
    [[0, 1]]. *)
Theorem compute_tp_fp_fn_nonnegative (input target : Tensor) (reduce_axis : list Z)
    (soft_label decoupled : bool) (axes : list nat) :
  shape input = shape target ->
  soft_label = true \/ (unit_range input /\ unit_range target) ->
  reduce_axes (List.length (shape input)) reduce_axis = Ok axes ->
  exists tp fp fn,
    compute_tp_fp_fn input target reduce_axis 1 soft_label decoupled = Ok (tp, fp, fn)
    /\ forall idx, (0 <= elems tp idx)%Q /\ (0 <= elems fp idx)%Q /\ (0 <= elems fn idx)%Q.
Proof.
  intros Hs Hr Hax. unify_shapes input target Hs. cbn [shape] in Hax.
  unfold compute_tp_fp_fn. cbn [Nat.eqb andb].
  destruct soft_label; cbn [negb].
  - same_shape Hs. rewrite Hax. cbn [bind].
    repeat (rewrite elementwise_same_shape by reflexivity; cbn [bind shape elems map_elems]).
    do 3 eexists. split; [reflexivity|]. intros idx.
    unfold map_elems; cbn [elems]. unfold Qdiv. change (/ 2)%Q with (1 # 2)%Q.
    pose proof (sum_over_nonneg
      (fun i => Qabs (f i) + Qabs (g i) - Qabs (f i - g i))%Q s) as Htp.
    pose proof (sum_over_nonneg
      (fun i => Qabs (f i - g i) + Qabs (f i) - Qabs (g i))%Q s) as Hfp.
    pose proof (sum_over_nonneg
      (fun i => Qabs (f i - g i) + Qabs (g i) - Qabs (f i))%Q s) as Hfn.
    specialize (Htp ltac:(intros i; cbv beta; abs_cases; lra) 0 axes idx []).
    specialize (Hfp ltac:(intros i; cbv beta; abs_cases; lra) 0 axes idx []).
    specialize (Hfn ltac:(intros i; cbv beta; abs_cases; lra) 0 axes idx []).
    rewrite sum_over_plus_minus in Htp, Hfp, Hfn.
    change (fun idx0 : list nat => abs_pow 1 (f idx0)) with (fun i => Qabs (f i)).
    change (fun idx0 : list nat => abs_pow 1 (g idx0)) with (fun i => Qabs (g i)).
    change (fun idx0 : list nat => abs_pow 1 (f idx0 - g idx0)) with (fun i => Qabs (f i - g i)).
    lra.
  - destruct Hr as [Hr|[Hf Hg]]; [discriminate Hr|].
    unfold unit_range in Hf, Hg. cbn [elems] in Hf, Hg.
    same_shape Hs. rewrite Hax. cbn [bind].
    destruct decoupled;
      repeat (rewrite ?elementwise_same_shape by reflexivity;
              cbn [bind shape elems map_elems]);
      (do 3 eexists; split; [reflexivity|]); intros idx; cbn [elems].
    + pose proof (sum_over_nonneg (fun i => f i * g i)%Q s
                    ltac:(intros i; cbv beta; specialize (Hf i); specialize (Hg i); nra)
                    0 axes idx []) as Htp.
      pose proof (sum_over_nonneg (fun i => f i - f i * g i)%Q s
                    ltac:(intros i; cbv beta; specialize (Hf i); specialize (Hg i); nra)
                    0 axes idx []) as Hfp.
      pose proof (sum_over_nonneg (fun i => g i - f i * g i)%Q s
                    ltac:(intros i; cbv beta; specialize (Hf i); specialize (Hg i); nra)
                    0 axes idx []) as Hfn.
      rewrite sum_over_minus in Hfp, Hfn. lra.
    + split; [|split]; apply sum_over_nonneg; intros i;
        specialize (Hf i); specialize (Hg i); nra.
Qed.




(** Every entry read from a vector is one of its entries or the default 0. *)
Lemma vector_entries (P : Q -> Prop) (xs : list Q) :
  P 0%Q -> Forall P xs -> forall idx, P (elems (vector xs) idx).
Proof.
  intros H0 Hall idx. cbn [vector elems]. generalize (hd 0 idx). intros n.
  revert n. induction Hall as [|x xs Hx _ IH]; intros [|n]; cbn [nth]; auto.
Qed.

Lemma compute_tp_fp_fn_marginals_witness :
  match compute_tp_fp_fn (vector [1 # 2; 1 # 3; 1]%Q) (vector [1; 0; 1]%Q) [0%Z] 1 false false,
        sum (vector [1 # 2; 1 # 3; 1]%Q) [0%Z], sum (vector [1; 0; 1]%Q) [0%Z] with
  | Ok (tp, fp, fn), Ok si, Ok st =>
      shape tp = shape si /\ shape fp = shape si /\ shape fn = shape st
      /\ forall idx, (elems tp idx + elems fp idx == elems si idx)%Q
                     /\ (elems tp idx + elems fn idx == elems st idx)%Q
  | Raise e, Raise e1, Raise e2 => e = e1 /\ e = e2
  | _, _, _ => False
  end.
Proof.
  apply (compute_tp_fp_fn_marginals
           (vector [1 # 2; 1 # 3; 1]%Q) (vector [1; 0; 1]%Q) [0%Z] false).
  reflexivity.
Defined.

Lemma compute_tp_fp_fn_swap_witness :
  outcome_eq
    (compute_tp_fp_fn (vector [1; 0; 1]%Q) (vector [1 # 2; 1 # 3; 1]%Q) [0%Z] 2 true true)
    (swap_fp_fn
       (compute_tp_fp_fn (vector [1 # 2; 1 # 3; 1]%Q) (vector [1; 0; 1]%Q) [0%Z] 2 true true)).
Proof.
  apply (compute_tp_fp_fn_swap
           (vector [1 # 2; 1 # 3; 1]%Q) (vector [1; 0; 1]%Q) [0%Z] 2 true true).
  reflexivity.
Defined.

Lemma compute_tp_fp_fn_nonnegative_witness :
  exists tp fp fn,
    compute_tp_fp_fn (vector [1 # 2; 1 # 3; 1]%Q) (vector [1; 0; 1]%Q) [0%Z] 1 false true
    = Ok (tp, fp, fn)
    /\ forall idx, (0 <= elems tp idx)%Q /\ (0 <= elems fp idx)%Q /\ (0 <= elems fn idx)%Q.
Proof.
  apply (compute_tp_fp_fn_nonnegative
           (vector [1 # 2; 1 # 3; 1]%Q) (vector [1; 0; 1]%Q) [0%Z] false true [0]).
  - reflexivity.
  - right. split; unfold unit_range; apply (vector_entries (fun x => (0 <= x <= 1)%Q));
      repeat apply Forall_cons; try apply Forall_nil; split; cbv; discriminate.
  - reflexivity.
Defined.


End LossUtilsFacts.

(** ** monai/apps/datasets.py *)

Module DatasetsFacts.

Import Datasets.

Section WithEnvironment.

Variable RandomState : Type.
Variable new_random_state : Z -> RandomState.
Variable random : RandomState -> Q * RandomState.

Local Abbreviation select_items := (Datasets.select_items RandomState random).
Local Abbreviation MedNIST_generate_data_list :=
  (Datasets.MedNIST_generate_data_list RandomState random).

Lemma select_items_unsupported (section : string) (val_frac test_frac : Q)
    (files : list string) (classes : list nat) (i : nat) (rest : list nat) (R : RandomState) :
  supported_section section = false ->
  exists msg, select_items section val_frac test_frac files classes (i :: rest) R
              = Raise (ValueError msg).
Proof.
  unfold supported_section, str_in. cbn [existsb]. intros H.
  apply orb_false_elim in H. destruct H as [H1 H].
  apply orb_false_elim in H. destruct H as [H2 H].
  apply orb_false_elim in H. destruct H as [H3 _].
  cbn [Datasets.select_items]. destruct (random R) as [rann R'].
  rewrite H1, H2, H3. eexists; reflexivity.
Qed.

Lemma select_items_partition (val_frac test_frac : Q) (files : list string)
    (classes : list nat) :
  (0 <= test_frac)%Q ->
  forall (indices : list nat) (R : RandomState),
  exists training validation test,
    select_items "training" val_frac test_frac files classes indices R = Ok training
    /\ select_items "validation" val_frac test_frac files classes indices R = Ok validation
    /\ select_items "test" val_frac test_frac files classes indices R = Ok test
    /\ Permutation (training ++ validation ++ test) (map (item_at files classes) indices).
Proof.
  intros Htest indices. induction indices as [|i rest IH]; intros R.
  - exists [], [], []. repeat split; constructor.
  - cbn [Datasets.select_items map]. destruct (random R) as [rann R'].
    destruct (IH R') as [tr [va [te [Htr [Hva [Hte Hperm]]]]]].
    rewrite Htr, Hva, Hte. cbn [String.eqb Ascii.eqb Bool.eqb andb bind].
    fold (item_at files classes i).
    unfold Qltb, Qgeb.
    destruct (Qle_bool (val_frac + test_frac) rann) eqn:Ea;
      destruct (Qle_bool val_frac rann) eqn:Eb; cbn [negb orb].
    + exists (item_at files classes i :: tr), va, te. repeat split.
      cbn [app]. apply perm_skip. assumption.
    + exfalso. apply Qle_bool_iff in Ea.
      assert (Hb : ~ (val_frac <= rann)%Q).
      { intros Hle. apply Qle_bool_iff in Hle. congruence. }
      apply Hb. lra.
    + exists tr, va, (item_at files classes i :: te). repeat split.
      rewrite app_assoc. apply Permutation_sym, Permutation_cons_app.
      rewrite <- app_assoc. apply Permutation_sym. assumption.
    + exists tr, (item_at files classes i :: va), te. repeat split.
      apply Permutation_sym, Permutation_cons_app. apply Permutation_sym. assumption.
Qed.

(** C10 (as amended): for a fixed seed, fractions [val_frac] and [test_frac]
    that are finite numbers (rationals here: neither NaN nor an infinity),
    [test_frac] not negative, and a fixed listing of the image files, the
    data lists of the three sections are produced without error and together
    hold every image exactly once. *)
Theorem MedNIST_sections_partition (fs : FileSystem) (dataset_dir : string) (seed : Z)
    (val_frac test_frac : Q) (files : list string) (classes : list nat) :
  (0 <= test_frac)%Q ->
  list_images fs dataset_dir = Ok (files, classes) ->
  exists training validation test,
    MedNIST_generate_data_list fs "training" val_frac test_frac
      (new_random_state seed) dataset_dir = Ok training
    /\ MedNIST_generate_data_list fs "validation" val_frac test_frac
         (new_random_state seed) dataset_dir = Ok validation
    /\ MedNIST_generate_data_list fs "test" val_frac test_frac
         (new_random_state seed) dataset_dir = Ok test
    /\ Permutation (training ++ validation ++ test) (all_items files classes).
Proof.
  intros Htest Hlist. unfold Datasets.MedNIST_generate_data_list. rewrite Hlist. cbn [bind].
  apply select_items_partition. assumption.
Qed.

(** With an unsupported section and at least one image, the loop raises. *)
Lemma MedNIST_unsupported_section_raises (fs : FileSystem) (section : string)
    (val_frac test_frac : Q) (R : RandomState) (dataset_dir : string)
    (files : list string) (classes : list nat) :
  supported_section section = false ->
  list_images fs dataset_dir = Ok (files, classes) ->
  classes <> [] ->
  exists msg, MedNIST_generate_data_list fs section val_frac test_frac R dataset_dir
              = Raise (ValueError msg).
Proof.
  intros Hs Hl Hne. unfold Datasets.MedNIST_generate_data_list. rewrite Hl. cbn [bind].
  destruct classes as [|c classes]; [contradiction|].
  cbn [List.length seq]. apply select_items_unsupported. assumption.
Qed.

End WithEnvironment.

(** C6 (the code departs from the claim): with an existing dataset directory
    that holds no image, constructing the dataset for the unsupported section
    "foo" raises nothing and yields an empty data list, whatever the seed,
    the fractions and the random state. *)
Theorem MedNIST_unsupported_section_not_reported
    (RandomState : Type) (new_random_state : Z -> RandomState)
    (random : RandomState -> Q * RandomState)
    (download_and_extract : DownloadCall -> FileSystem -> result FileSystem)
    (seed : Z) (val_frac test_frac : Q) :
  supported_section "foo" = false
  /\ path_exists empty_dataset_fs (path_join "data" MedNIST_dataset_folder_name) = true
  /\ MedNISTDataset_init RandomState new_random_state random download_and_extract
       empty_dataset_fs "data" "foo" false seed val_frac test_frac
     = (Ok [], []).
Proof. repeat split. Qed.

Lemma MedNIST_sections_partition_witness :
  exists training validation test,
    MedNIST_generate_data_list (list Q) next_draw small_fs "training" (1 # 10) (1 # 10)
      (draws_of_seed 0) "data/MedNIST" = Ok training
    /\ MedNIST_generate_data_list (list Q) next_draw small_fs "validation" (1 # 10) (1 # 10)
         (draws_of_seed 0) "data/MedNIST" = Ok validation
    /\ MedNIST_generate_data_list (list Q) next_draw small_fs "test" (1 # 10) (1 # 10)
         (draws_of_seed 0) "data/MedNIST" = Ok test
    /\ Permutation (training ++ validation ++ test)
         (all_items
            ["data/MedNIST/AbdomenCT/a1.jpeg"; "data/MedNIST/AbdomenCT/a2.jpeg";
             "data/MedNIST/Hand/h1.jpeg"]%string [0; 0; 1]).
Proof.
  apply (MedNIST_sections_partition (list Q) draws_of_seed next_draw small_fs
           "data/MedNIST" 0 (1 # 10) (1 # 10)).
  - unfold Qle; simpl; lia.
  - reflexivity.
Defined.

(** C10 as stated fails for a negative [test_frac]: with [val_frac = 0.7]
    and [test_frac = -0.3] the first image (draw 0.5488135) is put both in the
    training and in the validation data. *)
Lemma MedNIST_sections_overlap :
  exists item training validation,
    MedNIST_generate_data_list (list Q) next_draw small_fs "training" (7 # 10) (- 3 # 10)
      (draws_of_seed 0) "data/MedNIST" = Ok training
    /\ MedNIST_generate_data_list (list Q) next_draw small_fs "validation" (7 # 10) (- 3 # 10)
         (draws_of_seed 0) "data/MedNIST" = Ok validation
    /\ In item training /\ In item validation.
Proof.
  exists (mkItem "data/MedNIST/AbdomenCT/a1.jpeg" 0).
  eexists. eexists.
  split; [vm_compute; reflexivity|].
  split; [vm_compute; reflexivity|].
  split; left; reflexivity.
Qed.

(** ** The folds of the Decathlon data *)

Lemma py_index_in_range {A : Type} (l : list A) (i : nat) (x : A) :
  nth_error l i = Some x -> py_index l (Z.of_nat i) = Ok x.
Proof.
  intros H. unfold py_index.
  assert (Hlt : i < List.length l) by (apply nth_error_Some; congruence).
  destruct (Z.of_nat i <? 0)%Z eqn:E0; [apply Z.ltb_lt in E0; lia|].
  destruct ((0 <=? Z.of_nat i) && (Z.of_nat i <? Z.of_nat (List.length l)))%Z eqn:E1.
  - rewrite Nat2Z.id, H. reflexivity.
  - apply andb_false_iff in E1. destruct E1 as [E1|E1].
    + apply Z.leb_gt in E1. lia.
    + apply Z.ltb_ge in E1. lia.
Qed.

Lemma mapM_py_index {A : Type} (l : list A) (indices : list nat) :
  Forall (fun i => i < List.length l) indices ->
  mapM (fun i => py_index l (Z.of_nat i)) indices = Ok (flat_map (pick l) indices).
Proof.
  induction 1 as [|i indices Hi _ IH]; [reflexivity|].
  cbn [mapM flat_map]. unfold pick at 1.
  destruct (nth_error l i) as [x|] eqn:E.
  - rewrite (py_index_in_range l i x E), IH. reflexivity.
  - apply nth_error_None in E. lia.
Qed.

Lemma pick_all {A : Type} (pre l : list A) :
  flat_map (pick (pre ++ l)) (seq (List.length pre) (List.length l)) = l.
Proof.
  revert pre. induction l as [|x l IH]; intros pre; [reflexivity|].
  cbn [List.length seq flat_map]. unfold pick at 1.
  rewrite nth_error_app2 by lia. rewrite Nat.sub_diag. cbn [nth_error app]. f_equal.
  specialize (IH (pre ++ [x])). rewrite <- app_assoc, length_app in IH. cbn in IH.
  rewrite Nat.add_1_r in IH. exact IH.
Qed.

Lemma slices_partition {A : Type} (l : list A) (a b : nat) :
  Permutation (delete_slice l a b ++ slice l a b) l.
Proof.
  unfold delete_slice, slice.
  destruct (Nat.le_gt_cases a b) as [Hle|Hgt].
  - rewrite Nat.max_r by assumption. rewrite <- app_assoc.
    apply Permutation_trans with (firstn a l ++ firstn (b - a) (skipn a l) ++ skipn b l).
    + apply Permutation_app_head, Permutation_app_comm.
    + replace (skipn b l) with (skipn (b - a) (skipn a l))
        by (rewrite skipn_skipn; f_equal; lia).
      rewrite !firstn_skipn. reflexivity.
  - rewrite Nat.max_l by lia. replace (b - a) with 0 by lia.
    cbn [firstn]. rewrite app_nil_r, firstn_skipn. reflexivity.
Qed.

Section WithDecathlon.

Variable RandomState : Type.
Variable shuffle : RandomState -> list nat -> list nat * RandomState.
Variable DecathlonItem : Type.
Variable split_dataset : Z -> nat -> list (nat * nat).

Local Abbreviation Decathlon_split_datalist :=
  (Datasets.Decathlon_split_datalist RandomState shuffle DecathlonItem split_dataset).

Hypothesis shuffle_permutes : forall R l, Permutation (fst (shuffle R l)) l.

Lemma shuffled_in_range (R : RandomState) (n : nat) :
  Forall (fun i => i < n) (fst (shuffle R (seq 0 n))).
Proof.
  apply Forall_forall. intros i Hin.
  apply (Permutation_in _ (shuffle_permutes R (seq 0 n))) in Hin.
  apply in_seq in Hin. lia.
Qed.

Lemma pick_shuffled (R : RandomState) (datalist : list DecathlonItem) :
  Permutation (flat_map (pick datalist) (fst (shuffle R (seq 0 (List.length datalist)))))
              datalist.
Proof.
  rewrite <- (pick_all [] datalist) at 3. cbn [app List.length].
  apply Permutation_flat_map. apply shuffle_permutes.
Qed.

(** X11: when [R.shuffle] permutes its argument and [nsplits > 1], the
    training and the validation data of a fold are both produced, and
    together hold every item of the loaded datalist exactly once; the
    validation data has the length of the fold's slice [[a:b]] of the
    shuffled indices. *)
Theorem Decathlon_folds_partition (nsplits fold : Z) (R : RandomState)
    (datalist : list DecathlonItem) (a b : nat) :
  (1 < nsplits)%Z ->
  py_index (split_dataset nsplits (List.length datalist)) fold = Ok (a, b) ->
  exists training validation,
    Decathlon_split_datalist "training" nsplits fold R datalist = Ok training
    /\ Decathlon_split_datalist "validation" nsplits fold R datalist = Ok validation
    /\ Permutation (training ++ validation) datalist
    /\ List.length validation = Nat.min (b - a) (List.length datalist - a).
Proof.
  intros Hn Hfold. unfold Datasets.Decathlon_split_datalist.
  cbn [String.eqb Ascii.eqb Bool.eqb andb].
  pose proof (shuffled_in_range R (List.length datalist)) as Hrange.
  pose proof (pick_shuffled R datalist) as Hperm.
  pose proof (shuffle_permutes R (seq 0 (List.length datalist))) as Hsh.
  destruct (shuffle R (seq 0 (List.length datalist))) as [indices R'].
  cbn [fst] in *.
  apply Z.ltb_lt in Hn. rewrite Hn, Hfold. cbn [bind fst snd].
  assert (Hp : Permutation (delete_slice indices a b ++ slice indices a b) indices)
    by apply slices_partition.
  assert (Hall : Forall (fun i => i < List.length datalist)
                   (delete_slice indices a b ++ slice indices a b)).
  { apply Forall_forall. intros i Hin. rewrite Forall_forall in Hrange.
    apply Hrange. apply (Permutation_in _ Hp). assumption. }
  apply Forall_app in Hall. destruct Hall as [Hd Hs].
  rewrite (mapM_py_index datalist _ Hd), (mapM_py_index datalist _ Hs).
  do 2 eexists. split; [reflexivity|]. split; [reflexivity|]. split.
  - rewrite <- flat_map_app. apply Permutation_trans with (flat_map (pick datalist) indices).
    + apply Permutation_flat_map. exact Hp.
    + exact Hperm.
  - assert (Hlen : forall idxs, Forall (fun i => i < List.length datalist) idxs ->
               List.length (flat_map (pick datalist) idxs) = List.length idxs).
    { induction 1 as [|i idxs Hi _ IH]; [reflexivity|].
      cbn [flat_map]. rewrite length_app, IH. unfold pick.
      destruct (nth_error datalist i) eqn:E; [reflexivity|].
      apply nth_error_None in E. lia. }
    rewrite (Hlen _ Hs). unfold slice. rewrite length_firstn, length_skipn.
    rewrite (Permutation_length Hsh), length_seq. reflexivity.
Qed.

(** X12: the "test" section is the loaded datalist as it is, whatever the
    folds; with [nsplits <= 1] the "validation" section raises [ValueError]
    and the "training" section is the whole datalist, shuffled. *)
Theorem Decathlon_single_split (nsplits fold : Z) (R : RandomState)
    (datalist : list DecathlonItem) :
  Decathlon_split_datalist "test" nsplits fold R datalist = Ok datalist
  /\ ((nsplits <= 1)%Z ->
      Decathlon_split_datalist "validation" nsplits fold R datalist
      = Raise (ValueError "if nplits is 1, will not generate datalist for validation.")
      /\ exists training,
           Decathlon_split_datalist "training" nsplits fold R datalist = Ok training
           /\ Permutation training datalist).
Proof.
  split; [reflexivity|]. intros Hn. unfold Datasets.Decathlon_split_datalist.
  cbn [String.eqb Ascii.eqb Bool.eqb andb].
  pose proof (shuffled_in_range R (List.length datalist)) as Hrange.
  pose proof (pick_shuffled R datalist) as Hperm.
  destruct (shuffle R (seq 0 (List.length datalist))) as [indices R'].
  cbn [fst] in *.
  apply Z.ltb_ge in Hn. rewrite Hn. cbn [bind].
  split; [reflexivity|].
  rewrite (mapM_py_index datalist _ Hrange). eexists. split; [reflexivity|exact Hperm].
Qed.

End WithDecathlon.

(** ** Labels and extreme fractions of the MedNIST data *)

Lemma mapM_seq_nth {B : Type} (f : nat -> result B) (d : B) (n : nat) (ys : list B) :
  forall start, mapM f (seq start n) = Ok ys ->
  List.length ys = n /\ forall i, i < n -> f (start + i) = Ok (nth i ys d).
Proof.
  revert ys. induction n as [|n IH]; intros ys start H; cbn [seq mapM] in H.
  - injection H as <-. split; [reflexivity|]. intros i Hi. lia.
  - destruct (f start) as [y|e] eqn:Ey; cbn [bind] in H; [|discriminate H].
    destruct (mapM f (seq (S start) n)) as [ys'|e] eqn:Eys; cbn [bind] in H; [|discriminate H].
    injection H as <-. destruct (IH ys' (S start) Eys) as [Hlen Hnth].
    split; [cbn; congruence|]. intros [|i] Hi.
    + rewrite Nat.add_0_r. exact Ey.
    + cbn [nth]. rewrite <- (Hnth i) by lia. f_equal. lia.
Qed.

Lemma Forall2_flat_map {A B C : Type} (P : B -> C -> Prop) (F : A -> list B)
    (G : A -> list C) (l : list A) :
  (forall a, In a l -> Forall2 P (F a) (G a)) ->
  Forall2 P (flat_map F l) (flat_map G l).
Proof.
  induction l as [|a l IH]; intros H; cbn [flat_map]; [constructor|].
  apply Forall2_app.
  - apply H. left; reflexivity.
  - apply IH. intros a' Hin. apply H. right; assumption.
Qed.

Lemma Forall2_repeat {B C : Type} (P : B -> C -> Prop) (c : C) (l : list B) :
  Forall (fun b => P b c) l -> Forall2 P l (repeat c (List.length l)).
Proof. induction 1; cbn; constructor; assumption. Qed.

Lemma list_images_labels (fs : FileSystem) (dataset_dir : string)
    (files : list string) (classes : list nat) :
  list_images fs dataset_dir = Ok (files, classes) ->
  exists entries,
    listdir fs dataset_dir = Ok entries
    /\ Forall2 (fun file c =>
                  labelled_by_directory fs dataset_dir
                    (class_directories fs dataset_dir entries) (mkItem file c))
               files classes.
Proof.
  unfold list_images. destruct (listdir fs dataset_dir) as [entries|e]; cbn [bind];
    [|discriminate].
  fold (class_directories fs dataset_dir entries).
  set (class_names := class_directories fs dataset_dir entries).
  set (n := List.length class_names).
  match goal with |- context [mapM ?g (seq 0 n)] => set (f := g) end.
  destruct (mapM f (seq 0 n)) as [image_files|e] eqn:Em; cbn [bind]; [|discriminate].
  intros H. injection H as <- <-. exists entries. split; [reflexivity|].
  destruct (mapM_seq_nth f [] n image_files 0 Em) as [Hlen Hnth].
  apply Forall2_flat_map. intros i Hin. apply in_seq in Hin.
  assert (Hi : i < n) by lia.
  replace (nth i (map (fun i0 => List.length (nth i0 image_files [])) (seq 0 n)) 0)
    with (List.length (nth i image_files [])).
  2:{ rewrite (nth_indep _ 0 (List.length (nth n image_files []))) by (rewrite length_map, length_seq; exact Hi).
      rewrite (map_nth (fun i0 => List.length (nth i0 image_files [])) (seq 0 n) n i).
      rewrite seq_nth by exact Hi. reflexivity. }
  apply Forall2_repeat. specialize (Hnth i Hi). cbn [Nat.add] in Hnth.
  unfold f in Hnth.
  destruct (listdir fs (path_join dataset_dir (nth i class_names EmptyString)))
    as [names|e] eqn:Enames; cbn [bind] in Hnth; [|discriminate Hnth].
  injection Hnth as <-. apply Forall_forall. intros file Hf.
  apply in_map_iff in Hf. destruct Hf as [x [<- Hx]].
  split; [exact Hi|]. exists names, x. cbn [label image].
  split; [exact Enames|]. split; [exact Hx|reflexivity].
Qed.

Section WithRandomState.

Variable RandomState : Type.
Variable random : RandomState -> Q * RandomState.

Local Abbreviation select_items := (Datasets.select_items RandomState random).
Local Abbreviation MedNIST_generate_data_list :=
  (Datasets.MedNIST_generate_data_list RandomState random).

Lemma select_items_from_listing (section : string) (val_frac test_frac : Q)
    (files : list string) (classes : list nat) (indices : list nat) :
  forall (R : RandomState) (data : list Item),
    select_items section val_frac test_frac files classes indices R = Ok data ->
    Forall (fun item => exists i, In i indices /\ item = item_at files classes i) data.
Proof.
  induction indices as [|i rest IH]; intros R data H; cbn [Datasets.select_items] in H.
  - injection H as <-. constructor.
  - destruct (random R) as [rann R'].
    assert (Hkeep : forall data', 
              select_items section val_frac test_frac files classes rest R' = Ok data' ->
              Forall (fun item => exists i0, In i0 (i :: rest) /\ item = item_at files classes i0) data').
    { intros data' H'. apply IH in H'. eapply Forall_impl; [|exact H'].
      intros item [i0 [Hin ->]]. exists i0. split; [right; assumption|reflexivity]. }
    assert (Happ : forall data',
              (d <- select_items section val_frac test_frac files classes rest R' ;;
               Ok (mkItem (nth i files EmptyString) (nth i classes 0) :: d)) = Ok data' ->
              Forall (fun item => exists i0, In i0 (i :: rest) /\ item = item_at files classes i0) data').
    { intros data' H'.
      destruct (select_items section val_frac test_frac files classes rest R') as [d|e] eqn:E;
        cbn [bind] in H'; [|discriminate H'].
      injection H' as <-. constructor; [|apply Hkeep; reflexivity].
      exists i. split; [left; reflexivity|reflexivity]. }
    destruct (String.eqb section "training");
      [destruct (Qltb rann (val_frac + test_frac)); auto|].
    destruct (String.eqb section "validation");
      [destruct (Qgeb rann val_frac); auto|].
    destruct (String.eqb section "test");
      [destruct (Qltb rann val_frac || Qgeb rann (val_frac + test_frac)); auto|].
    discriminate H.
Qed.

(** X13: every item of a data list that [_generate_data_list] returns pairs
    an image file with the label of the class directory that holds it: the
    label is the position of that directory among the sorted class
    directories, and the image path is an entry of the listing of that
    directory, joined to it. *)
Theorem MedNIST_items_labelled (fs : FileSystem) (section : string)
    (val_frac test_frac : Q) (R : RandomState) (dataset_dir : string) (data : list Item) :
  MedNIST_generate_data_list fs section val_frac test_frac R dataset_dir = Ok data ->
  exists entries,
    listdir fs dataset_dir = Ok entries
    /\ Forall (labelled_by_directory fs dataset_dir
                 (class_directories fs dataset_dir entries))
              data.
Proof.
  unfold Datasets.MedNIST_generate_data_list.
  destruct (list_images fs dataset_dir) as [[files classes]|e] eqn:El; cbn [bind];
    [|discriminate].
  intros H. destruct (list_images_labels fs dataset_dir files classes El)
    as [entries [Hent Hall]].
  exists entries. split; [exact Hent|].
  apply select_items_from_listing in H.
  eapply Forall_impl; [|exact H]. cbv beta.
  intros item [i [Hin ->]]. apply in_seq in Hin.
  assert (Hlen : List.length files = List.length classes)
    by (eapply Forall2_length; exact Hall).
  clear - Hall Hin Hlen. unfold item_at.
  revert i Hin. induction Hall as [|file c files classes Hfc _ IH]; intros i Hin.
  - cbn in Hin. lia.
  - destruct i as [|i]; [exact Hfc|]. cbn [nth]. apply IH.
    + cbn in Hlen. lia.
    + cbn in Hin. lia.
Qed.

End WithRandomState.

Section WithUniformDraws.

Variable RandomState : Type.
Variable random : RandomState -> Q * RandomState.

Local Abbreviation select_items := (Datasets.select_items RandomState random).
Local Abbreviation MedNIST_generate_data_list :=
  (Datasets.MedNIST_generate_data_list RandomState random).

Hypothesis random_in_unit_interval : forall R, (0 <= fst (random R) < 1)%Q.

Lemma select_items_extremes (val_frac test_frac : Q) (files : list string)
    (classes : list nat) (indices : list nat) (R : RandomState) :
  ((val_frac + test_frac <= 0)%Q ->
     select_items "training" val_frac test_frac files classes indices R
     = Ok (map (item_at files classes) indices))
  /\ ((val_frac <= 0)%Q ->
        select_items "validation" val_frac test_frac files classes indices R = Ok [])
  /\ ((1 <= val_frac)%Q ->
        select_items "validation" val_frac test_frac files classes indices R
        = Ok (map (item_at files classes) indices)).
Proof.
  revert R. induction indices as [|i rest IH]; intros R.
  - repeat split.
  - cbn [Datasets.select_items map]. pose proof (random_in_unit_interval R) as Hr.
    destruct (random R) as [rann R']. cbn [fst] in Hr.
    destruct (IH R') as [Htr [Hv0 Hv1]].
    cbn [String.eqb Ascii.eqb Bool.eqb andb]. unfold Qltb, Qgeb.
    split; [|split]; intros H.
    + rewrite (Htr H). destruct (Qle_bool (val_frac + test_frac) rann) eqn:E;
        [reflexivity|].
      exfalso. assert (Hle : (val_frac + test_frac <= rann)%Q) by lra.
      apply Qle_bool_iff in Hle. congruence.
    + rewrite (Hv0 H). destruct (Qle_bool val_frac rann) eqn:E; [reflexivity|].
      exfalso. assert (Hle : (val_frac <= rann)%Q) by lra.
      apply Qle_bool_iff in Hle. congruence.
    + rewrite (Hv1 H). destruct (Qle_bool val_frac rann) eqn:E; [|reflexivity].
      exfalso. apply Qle_bool_iff in E. lra.
Qed.

(** X14: with random draws in [[0, 1)], fractions at the ends of the range
    select everything or nothing: when [val_frac + test_frac <= 0] the
    training data is every image, when [val_frac <= 0] the validation data is
    empty, and when [val_frac >= 1] the validation data is every image. *)
Theorem MedNIST_extreme_fractions (fs : FileSystem) (dataset_dir : string)
    (val_frac test_frac : Q) (R : RandomState) (files : list string) (classes : list nat) :
  list_images fs dataset_dir = Ok (files, classes) ->
  ((val_frac + test_frac <= 0)%Q ->
     MedNIST_generate_data_list fs "training" val_frac test_frac R dataset_dir
     = Ok (all_items files classes))
  /\ ((val_frac <= 0)%Q ->
        MedNIST_generate_data_list fs "validation" val_frac test_frac R dataset_dir = Ok [])
  /\ ((1 <= val_frac)%Q ->
        MedNIST_generate_data_list fs "validation" val_frac test_frac R dataset_dir
        = Ok (all_items files classes)).
Proof.
  intros Hl. unfold Datasets.MedNIST_generate_data_list. rewrite Hl. cbn [bind].
  apply select_items_extremes.
Qed.

End WithUniformDraws.

Lemma counter_draw_in_unit_interval (R : nat) : (0 <= fst (counter_draw R) < 1)%Q.
Proof.
  unfold counter_draw, Qle, Qlt. cbn [fst Qnum Qden].
  pose proof (Nat.mod_upper_bound R 10). lia.
Qed.

Lemma Decathlon_folds_partition_witness :
  exists training validation,
    Decathlon_split_datalist unit reverse_shuffle string two_folds
      "training" 2 1 tt ["a"; "b"; "c"]%string = Ok training
    /\ Decathlon_split_datalist unit reverse_shuffle string two_folds
         "validation" 2 1 tt ["a"; "b"; "c"]%string = Ok validation
    /\ Permutation (training ++ validation) ["a"; "b"; "c"]%string
    /\ List.length validation = Nat.min (3 - 1) (List.length ["a"; "b"; "c"]%string - 1).
Proof.
  apply (Decathlon_folds_partition unit reverse_shuffle string two_folds).
  - intros R l. apply Permutation_sym, Permutation_rev.
  - lia.
  - reflexivity.
Defined.

Lemma Decathlon_single_split_witness :
  Decathlon_split_datalist unit reverse_shuffle string two_folds
    "test" 1 0 tt ["a"; "b"; "c"]%string = Ok ["a"; "b"; "c"]%string
  /\ ((1 <= 1)%Z ->
      Decathlon_split_datalist unit reverse_shuffle string two_folds
        "validation" 1 0 tt ["a"; "b"; "c"]%string
      = Raise (ValueError "if nplits is 1, will not generate datalist for validation.")
      /\ exists training,
           Decathlon_split_datalist unit reverse_shuffle string two_folds
             "training" 1 0 tt ["a"; "b"; "c"]%string = Ok training
           /\ Permutation training ["a"; "b"; "c"]%string).
Proof.
  apply (Decathlon_single_split unit reverse_shuffle string two_folds).
  intros R l. apply Permutation_sym, Permutation_rev.
Defined.

Lemma MedNIST_items_labelled_witness :
  exists entries,
    listdir small_fs "data/MedNIST" = Ok entries
    /\ Forall (labelled_by_directory small_fs "data/MedNIST"
                 (class_directories small_fs "data/MedNIST" entries))
              [mkItem "data/MedNIST/AbdomenCT/a1.jpeg" 0;
               mkItem "data/MedNIST/AbdomenCT/a2.jpeg" 0;
               mkItem "data/MedNIST/Hand/h1.jpeg" 1].
Proof.
  apply (MedNIST_items_labelled (list Q) next_draw small_fs "training" (1 # 10) (1 # 10)
           (draws_of_seed 0) "data/MedNIST").
  vm_compute. reflexivity.
Defined.

Lemma MedNIST_extreme_fractions_witness :
  ((0 + 0 <= 0)%Q ->
     MedNIST_generate_data_list nat counter_draw small_fs "training" 0 0 0 "data/MedNIST"
     = Ok (all_items
             ["data/MedNIST/AbdomenCT/a1.jpeg"; "data/MedNIST/AbdomenCT/a2.jpeg";
              "data/MedNIST/Hand/h1.jpeg"]%string [0; 0; 1]))
  /\ ((0 <= 0)%Q ->
        MedNIST_generate_data_list nat counter_draw small_fs "validation" 0 0 0 "data/MedNIST"
        = Ok [])
  /\ ((1 <= 0)%Q ->
        MedNIST_generate_data_list nat counter_draw small_fs "validation" 0 0 0 "data/MedNIST"
        = Ok (all_items
                ["data/MedNIST/AbdomenCT/a1.jpeg"; "data/MedNIST/AbdomenCT/a2.jpeg";
                 "data/MedNIST/Hand/h1.jpeg"]%string [0; 0; 1])).
Proof.
  apply (MedNIST_extreme_fractions nat counter_draw counter_draw_in_unit_interval small_fs
           "data/MedNIST" 0 0 0).
  reflexivity.
Defined.

End DatasetsFacts.

(** ** monai/utils/misc.py *)

Module MiscFacts.

Import Misc.

(** X21: [ensure_tuple_size] always returns exactly [dim] values: the values
    of [tup] in order as far as they go, then [pad_val]. *)
Theorem ensure_tuple_size_spec {A : Type} (tup : Arg A) (dim : nat) (pad_val : A) :
  List.length (ensure_tuple_size tup dim pad_val) = dim
  /\ forall i, i < dim ->
       nth_error (ensure_tuple_size tup dim pad_val) i
       = Some (nth i (ensure_tuple tup) pad_val).
Proof.
  unfold ensure_tuple_size. split.
  - rewrite length_firstn, length_app, repeat_length. lia.
  - intros i Hi. rewrite nth_error_firstn.
    destruct (Nat.ltb_spec i dim) as [_|Hge]; [|lia].
    destruct (Nat.lt_ge_cases i (List.length (ensure_tuple tup))) as [Hlt|Hge].
    + rewrite nth_error_app1 by assumption. apply nth_error_nth'. assumption.
    + rewrite nth_error_app2 by assumption. rewrite nth_overflow by assumption.
      rewrite nth_error_repeat by lia. reflexivity.
Qed.

(** What [ensure_tuple_rep] returns, and when it raises. *)
Lemma ensure_tuple_rep_ok {A : Type} (tup : Arg A) (dim : nat) (r : list A) :
  ensure_tuple_rep tup dim = Ok r ->
  List.length r = dim
  /\ (forall a, tup = Scalar a -> Forall (eq a) r)
  /\ (forall items, tup = Sequence items -> r = items).
Proof.
  destruct tup as [a|items]; cbn [ensure_tuple_rep].
  - intros E. injection E as <-. split; [apply repeat_length|]. split; [|discriminate].
    intros a' E. injection E as <-. apply Forall_forall. intros x Hx.
    symmetry. exact (repeat_spec _ _ _ Hx).
  - destruct (Nat.eqb_spec (List.length items) dim) as [E|E]; [|discriminate].
    intros H. injection H as <-. split; [exact E|]. split; [discriminate|].
    intros items' H. injection H as <-. reflexivity.
Qed.

Lemma ensure_tuple_rep_raise {A : Type} (tup : Arg A) (dim : nat) (e : exn) :
  ensure_tuple_rep tup dim = Raise e ->
  exists items,
    tup = Sequence items /\ List.length items <> dim
    /\ e = ValueError ("Sequence must have length " ++ str_nat dim ++ ", got "
                       ++ str_nat (List.length items) ++ ".").
Proof.
  destruct tup as [a|items]; cbn [ensure_tuple_rep]; [discriminate|].
  destruct (Nat.eqb_spec (List.length items) dim) as [E|E]; [discriminate|].
  intros H. injection H as <-. exists items. repeat split. exact E.
Qed.

(** X22: [ensure_tuple_rep] either returns [dim] values, a scalar repeated or
    the sequence itself, and is then unchanged by a second application; or it
    raises [ValueError], which happens exactly for a sequence whose length is
    not [dim]. *)
Theorem ensure_tuple_rep_spec {A : Type} (tup : Arg A) (dim : nat) :
  match ensure_tuple_rep tup dim with
  | Ok r =>
      List.length r = dim
      /\ (forall a, tup = Scalar a -> Forall (eq a) r)
      /\ (forall items, tup = Sequence items -> r = items)
      /\ ensure_tuple_rep (Sequence r) dim = Ok r
  | Raise e =>
      exists items,
        tup = Sequence items /\ List.length items <> dim
        /\ e = ValueError ("Sequence must have length " ++ str_nat dim ++ ", got "
                           ++ str_nat (List.length items) ++ ".")
  end.
Proof.
  destruct (ensure_tuple_rep tup dim) as [r|e] eqn:E.
  - destruct (ensure_tuple_rep_ok tup dim r E) as [Hlen [Hs Hq]].
    repeat split; try assumption.
    cbn [ensure_tuple_rep]. apply Nat.eqb_eq in Hlen. rewrite Hlen. reflexivity.
  - apply ensure_tuple_rep_raise. exact E.
Qed.

Lemma zip_with_length {A B C : Type} (f : A -> B -> C) (xs : list A) (ys : list B) :
  List.length xs = List.length ys -> List.length (zip_with f xs ys) = List.length xs.
Proof.
  revert ys. induction xs as [|x xs IH]; intros [|y ys] H; cbn in *; try lia.
  rewrite IH by lia. reflexivity.
Qed.

(** X23: [fall_back_tuple] returns as many components as [default] has; each
    one is the user's component when [func] accepts it and the default's
    otherwise, so that the result is valid throughout when the defaults are.
    It raises, with [ValueError], exactly for a user sequence whose length
    differs from the length of [default]: when it returns, a user sequence
    has that length, and when it raises, the argument is a sequence of
    another length. *)
Theorem fall_back_tuple_spec (user_provided : Arg (option Z)) (default : list (option Z))
    (func : option Z -> bool) :
  match fall_back_tuple user_provided default func with
  | Ok r =>
      List.length r = List.length default
      /\ (forall items, user_provided = Sequence items ->
                        List.length items = List.length default)
      /\ (forall i d, nth_error default i = Some d ->
            exists u, nth_error r i = Some (if func u then u else d)
                      /\ (forall a, user_provided = Scalar a -> u = a)
                      /\ (forall items, user_provided = Sequence items ->
                                        nth_error items i = Some u))
      /\ (Forall (fun d => func d = true) default -> Forall (fun c => func c = true) r)
  | Raise e =>
      exists items,
        user_provided = Sequence items /\ List.length items <> List.length default
        /\ is_ValueError e = true
  end.
Proof.
  unfold fall_back_tuple.
  destruct (ensure_tuple_rep user_provided (List.length default)) as [user|e] eqn:Erep;
    cbn [bind].
  - destruct (ensure_tuple_rep_ok _ _ _ Erep) as [Hlen [Hs Hq]].
    assert (Hnth : forall i d, nth_error default i = Some d ->
              exists u, nth_error user i = Some u
                        /\ nth_error (zip_with (fun default_c user_c =>
                                         if func user_c then user_c else default_c)
                                        default user) i
                           = Some (if func u then u else d)).
    { clear Hs Hq Erep. revert user Hlen.
      induction default as [|d0 default IH]; intros [|u0 user] Hlen i d Hi;
        cbn in Hlen; try lia; [destruct i; discriminate Hi|].
      destruct i as [|i]; cbn [nth_error zip_with] in *.
      - injection Hi as <-. exists u0. split; reflexivity.
      - apply IH; [lia|exact Hi]. }
    split; [apply zip_with_length; congruence|].
    split; [intros items E; rewrite <- (Hq items E); exact Hlen|]. split.
    + intros i d Hi. destruct (Hnth i d Hi) as [u [Hu Hr]]. exists u.
      split; [exact Hr|]. split.
      * intros a E. specialize (Hs a E). rewrite Forall_forall in Hs.
        symmetry. apply Hs. eapply nth_error_In. exact Hu.
      * intros items E. rewrite <- (Hq items E). exact Hu.
    + intros Hd. apply Forall_forall. intros c Hc.
      apply In_nth_error in Hc. destruct Hc as [i Hi].
      assert (Hlt : i < List.length default).
      { rewrite <- (zip_with_length (fun default_c user_c =>
                      if func user_c then user_c else default_c) default user)
          by congruence.
        apply nth_error_Some. congruence. }
      destruct (nth_error default i) as [d|] eqn:Ed;
        [|apply nth_error_None in Ed; lia].
      destruct (Hnth i d Ed) as [u [_ Hr]]. rewrite Hr in Hi. injection Hi as <-.
      destruct (func u) eqn:Eu; [exact Eu|].
      rewrite Forall_forall in Hd. apply Hd. eapply nth_error_In. exact Ed.
  - destruct (ensure_tuple_rep_raise _ _ _ Erep) as [items [E [Hne ->]]].
    exists items. repeat split; assumption.
Qed.

End MiscFacts.

(** ** monai/apps/auto3dseg/bundle_gen.py *)

Module BundleGenFacts.

Import BundleGen.

Local Open Scope string_scope.

Section WithEnvironment.

Variable repr_bytes : string -> string.
Variable subprocess_run : Launch -> ProcessOutcome.
Variable cuda_device_count : nat.

Local Abbreviation render := (BundleGen.render repr_bytes).
Local Abbreviation call_error_message := (BundleGen.call_error_message repr_bytes).
Local Abbreviation train := (BundleGen.train repr_bytes subprocess_run cuda_device_count).



Lemma append_assoc (a b c : string) : (a ++ b) ++ c = a ++ (b ++ c).
Proof. induction a as [|x a IH]; cbn; [reflexivity|]. rewrite IH. reflexivity. Qed.





(** C4 (the code departs from the claim): called without parameters, which
    is the default, [train] builds no command and launches nothing; it stops
    on the unbound local variable [params]. *)
Theorem train_without_params_fails (output_path : string) (os_environ : list (string * string)) :
  train (Some output_path) None os_environ = (Raise (UnboundLocalError "params"), []).
Proof. reflexivity. Qed.

(** With a parameter dictionary, the launch is as C4 describes: [torchrun]
    for more than one device and [python] otherwise, the device list going
    to the environment variable only. *)
Lemma train_launch_with_devices (output_path : string) (params : list (string * PyValue))
    (devices : list PyValue) (os_environ : list (string * string)) :
  dict_get params "CUDA_VISIBLE_DEVICES" = Some (VList devices) ->
  snd (train (Some output_path) (Some params) os_environ)
  = [mkLaunch
       (str_split (launch_command output_path (List.length devices)
                     (dict_remove params "CUDA_VISIBLE_DEVICES")))
       (if String.eqb (join "," (map py_str devices)) ""
        then os_environ
        else dict_set os_environ "CUDA_VISIBLE_DEVICES" (join "," (map py_str devices)))].
Proof.
  intros H. unfold BundleGen.train, launch_command. rewrite H. cbn [py_len py_strs bind].
  rewrite ?append_assoc.
  destruct (String.eqb (join "," (map py_str devices)) ""); cbn [negb];
    destruct (subprocess_run _) as [m|rc out err]; try reflexivity;
    destruct (rc =? 0)%Z; reflexivity.
Qed.






End WithEnvironment.

(** ** Devices, repeated construction and prediction *)

Lemma dict_get_dict_set (d : list (string * string)) (key key' value : string) :
  dict_get (dict_set d key value) key'
  = if String.eqb key key' then Some value else dict_get d key'.
Proof.
  induction d as [|[k v] d IH]; cbn [dict_set dict_get].
  - destruct (String.eqb key key'); reflexivity.
  - destruct (String.eqb k key) eqn:E; cbn [dict_get].
    + apply String.eqb_eq in E. subst k. destruct (String.eqb key key'); reflexivity.
    + rewrite IH. destruct (String.eqb k key') eqn:E'; [|reflexivity].
      apply String.eqb_eq in E'. subst k. rewrite String.eqb_sym, E. reflexivity.
Qed.

Lemma fold_options_prefix (params : list (string * PyValue)) (a b : string) :
  fold_left (fun cmd kv => cmd ++ " --" ++ fst kv ++ "=" ++ py_str (snd kv)) params (a ++ b)
  = a ++ fold_left (fun cmd kv => cmd ++ " --" ++ fst kv ++ "=" ++ py_str (snd kv)) params b.
Proof.
  revert b. induction params as [|kv params IH]; intros b; cbn [fold_left]; [reflexivity|].
  rewrite append_assoc. apply IH.
Qed.

Section WithDevices.

Variable repr_bytes : string -> string.
Variable subprocess_run : Launch -> ProcessOutcome.
Variable cuda_device_count : nat.

Local Abbreviation train := (BundleGen.train repr_bytes subprocess_run cuda_device_count).

(** X17: when the parameters name a device list, [train] launches one
    process: with [torchrun] for more than one device and with [python]
    otherwise.  The launched process gets [os.environ] with
    [CUDA_VISIBLE_DEVICES] set to the comma-separated list and every other
    variable unchanged; when the list renders as the empty string, as the
    empty list does, the environment is [os.environ] as it is. *)
Theorem train_device_list (output_path : string) (params : list (string * PyValue))
    (devices : list PyValue) (os_environ : list (string * string)) :
  dict_get params "CUDA_VISIBLE_DEVICES" = Some (VList devices) ->
  exists launch,
    snd (train (Some output_path) (Some params) os_environ) = [launch]
    /\ hd "" (argv launch) = (if (1 <? List.length devices)%nat then "torchrun" else "python")
    /\ (join "," (map py_str devices) = "" -> environ launch = os_environ)
    /\ (join "," (map py_str devices) <> "" ->
        dict_get (environ launch) "CUDA_VISIBLE_DEVICES" = Some (join "," (map py_str devices))
        /\ forall key, key <> "CUDA_VISIBLE_DEVICES" ->
                       dict_get (environ launch) key = dict_get os_environ key).
Proof.
  intros H. eexists. split.
  { apply (train_launch_with_devices repr_bytes subprocess_run cuda_device_count); exact H. }
  cbn [argv environ]. split.
  - unfold launch_command. rewrite fold_options_prefix.
    destruct (1 <? List.length devices)%nat; reflexivity.
  - split.
    + intros E. rewrite E. reflexivity.
    + intros Hne. destruct (String.eqb (join "," (map py_str devices)) "") eqn:E.
      * apply String.eqb_eq in E. contradiction.
      * split.
        -- rewrite dict_get_dict_set, String.eqb_refl. reflexivity.
        -- intros key Hk. rewrite dict_get_dict_set.
           destruct (String.eqb "CUDA_VISIBLE_DEVICES" key) eqn:Ek; [|reflexivity].
           apply String.eqb_eq in Ek. congruence.
Qed.

End WithDevices.

Lemma path_join_relative (a b : string) :
  a <> "" -> String.prefix "/" a = false -> ends_with_slash a = false ->
  String.prefix "/" b = false ->
  path_join a b = a ++ "/" ++ b /\ String.prefix "/" (path_join a b) = false.
Proof.
  intros Ha Hp He Hb. unfold path_join. rewrite Hb, He.
  destruct a as [|c a]; [contradiction|]. cbn [String.eqb]. split; [reflexivity|].
  cbn [String.prefix String.append] in Hp |- *.
  destruct (ascii_dec "/" c); [|reflexivity].
  destruct a; discriminate Hp.
Qed.

Lemma path_join_onto_absolute (a b : string) :
  String.prefix "/" b = true -> path_join a b = b.
Proof. intros H. unfold path_join. rewrite H. reflexivity. Qed.

Lemma path_join_absolute (a b : string) :
  String.prefix "/" a = true -> String.prefix "/" (path_join a b) = true.
Proof.
  intros Ha. unfold path_join. destruct (String.prefix "/" b) eqn:Eb; [exact Eb|].
  destruct a as [|c a]; [destruct b; discriminate Ha|]. cbn [String.eqb].
  destruct (ends_with_slash (String c a));
    cbn [String.prefix String.append] in Ha |- *;
    (destruct (ascii_dec "/" c); [|discriminate Ha]);
    match goal with |- String.prefix "" ?s = true => destruct s; reflexivity end.
Qed.

Section WithDownloads.

Variable download_and_extract : DownloadCall -> FileSystem -> result FileSystem.
Variable Algo : Type.
Variable get_parsed_content : list (string * string) -> result Algo.
Variable set_name : Algo -> string -> Algo.

Local Abbreviation BundleGen_init :=
  (BundleGen.BundleGen_init download_and_extract Algo get_parsed_content set_name).

Lemma with_algo_path_step (n : nat) (algo_path : string) :
  with_algo_path algo_path (default_algos_after n algo_path)
  = Ok (default_algos_after (S n) algo_path).
Proof. reflexivity. Qed.

Lemma BundleGen_init_globals (fs : FileSystem) (tmp_dir algo_path : string) (g : Globals)
    (n : nat) :
  is_ok (download_and_extract
           (mkDownloadCall algo_zip (path_join tmp_dir "algo_templates.tar.gz") algo_path md5)
           fs) = true ->
  module_default_algos g = default_algos_after n algo_path ->
  module_default_algos (snd (BundleGen_init fs tmp_dir algo_path (AlgosNone Algo) g))
  = default_algos_after (S n) algo_path
  /\ sys_path (snd (BundleGen_init fs tmp_dir algo_path (AlgosNone Algo) g))
     = path_join algo_path "algo_templates" :: sys_path g.
Proof.
  intros Hd Hg. unfold BundleGen.BundleGen_init.
  destruct (download_and_extract _ fs) as [fs'|e]; [|discriminate Hd].
  cbn [module_default_algos sys_path downloads]. rewrite Hg, with_algo_path_step.
  split; reflexivity.
Qed.

(** X18: [BundleGen.__init__] with [algos=None] writes the joined paths into
    the module-level [default_algos], whose inner dictionaries the shallow
    copy shares, and inserts the template directory into [sys.path] each
    time.  After two constructions with the same [algo_path] every path has
    been joined to it twice: for an absolute [algo_path] that changes
    nothing, for a relative one that neither is empty nor ends with a slash
    the second construction looks under [algo_path/algo_path/...]. *)
Theorem BundleGen_init_twice (fs1 fs2 : FileSystem) (tmp1 tmp2 algo_path : string)
    (g : Globals) :
  (forall call fs, is_ok (download_and_extract call fs) = true) ->
  module_default_algos g = default_algos ->
  let g1 := snd (BundleGen_init fs1 tmp1 algo_path (AlgosNone Algo) g) in
  let g2 := snd (BundleGen_init fs2 tmp2 algo_path (AlgosNone Algo) g1) in
  module_default_algos g1 = default_algos_after 1 algo_path
  /\ module_default_algos g2 = default_algos_after 2 algo_path
  /\ sys_path g2
     = path_join algo_path "algo_templates" :: path_join algo_path "algo_templates" :: sys_path g
  /\ (String.prefix "/" algo_path = true ->
      module_default_algos g2 = module_default_algos g1)
  /\ (algo_path <> "" -> String.prefix "/" algo_path = false ->
      ends_with_slash algo_path = false ->
      forall name params,
        In (name, params) default_algos ->
        exists params2 template_configs,
          dict_get (module_default_algos g2) name = Some params2
          /\ dict_get params "template_configs" = Some template_configs
          /\ dict_get params2 "template_configs"
             = Some (algo_path ++ "/" ++ algo_path ++ "/" ++ template_configs)).
Proof.
  intros Hd Hg g1 g2.
  destruct (BundleGen_init_globals fs1 tmp1 algo_path g 0 (Hd _ _)) as [H1 S1].
  { rewrite Hg. reflexivity. }
  fold g1 in H1, S1.
  destruct (BundleGen_init_globals fs2 tmp2 algo_path g1 1 (Hd _ _) H1) as [H2 S2].
  fold g2 in H2, S2.
  split; [exact H1|]. split; [exact H2|]. split; [rewrite S2, S1; reflexivity|].
  split.
  - intros Habs. rewrite H2, H1. unfold default_algos_after, default_algos.
    cbn -[path_join].
    assert (E : forall x, path_join algo_path (path_join algo_path x) = path_join algo_path x).
    { intros x. apply path_join_onto_absolute, path_join_absolute. exact Habs. }
    rewrite !E. reflexivity.
  - intros Hne Hrel Hslash name params Hin. rewrite H2.
    assert (E : forall x, String.prefix "/" x = false ->
              path_join algo_path (path_join algo_path x)
              = algo_path ++ "/" ++ algo_path ++ "/" ++ x).
    { intros x Hx.
      destruct (path_join_relative algo_path x Hne Hrel Hslash Hx) as [E1 P1].
      destruct (path_join_relative algo_path _ Hne Hrel Hslash P1) as [E2 _].
      rewrite E2, E1. reflexivity. }
    unfold default_algos in Hin. cbn [In] in Hin.
    repeat (destruct Hin as [Hin|Hin]; [injection Hin as <- <-|]); try contradiction.
    all: eexists; eexists; split; [reflexivity|]; split; [reflexivity|];
      cbn -[path_join]; rewrite E by reflexivity; reflexivity.
Qed.

End WithDownloads.

Lemma mapM_length {A B : Type} (f : A -> result B) (xs : list A) (ys : list B) :
  mapM f xs = Ok ys -> List.length ys = List.length xs.
Proof.
  revert ys. induction xs as [|x xs IH]; intros ys H; cbn [mapM] in H.
  - injection H as <-. reflexivity.
  - destruct (f x) as [y|e]; cbn [bind] in H; [|discriminate H].
    destruct (mapM f xs) as [ys'|e]; cbn [bind] in H; [|discriminate H].
    injection H as <-. cbn. rewrite (IH ys' eq_refl). reflexivity.
Qed.

Section WithInferer.

Variable isfile : string -> bool.
Variable Inferer : Type.
Variable Prediction : Type.
Variable InferClass : option string -> list (string * PyValue) -> result Inferer.
Variable infer : Inferer -> PyValue -> result Prediction.

Local Abbreviation predict :=
  (BundleGen.predict isfile Inferer Prediction InferClass infer).

(** X19: [predict] without parameters predicts the single file ".", as
    with [{"files": "."}]; when the bundle has no [scripts/infer.py] it
    raises [ValueError] whatever the parameters are; and when it returns, it
    returns one prediction for each file of a list given under "files", and
    one prediction for any other value, a string being one file. *)
Theorem predict_files (output_path : string) (params : list (string * PyValue)) :
  predict (Some output_path) None = predict (Some output_path) (Some [("files", VStr ".")])
  /\ (isfile (path_join (path_join output_path "scripts") "infer.py") = false ->
      predict (Some output_path) (Some params)
      = Raise (ValueError (path_join (path_join output_path "scripts") "infer.py"
                           ++ " is not found, please check the path.")))
  /\ (forall predictions,
        predict (Some output_path) (Some params) = Ok predictions ->
        List.length predictions
        = match dict_get params "files" with
          | Some (VList files) => List.length files
          | _ => 1
          end).
Proof.
  split; [reflexivity|]. split.
  - intros H. unfold BundleGen.predict, get_inferer. rewrite H. reflexivity.
  - intros predictions H. unfold BundleGen.predict in H.
    destruct (get_inferer isfile Inferer InferClass (Some output_path) _) as [inferer|e];
      cbn [bind] in H; [|discriminate H].
    apply mapM_length in H. rewrite H.
    destruct (dict_get params "files") as [[z|s|files]|]; reflexivity.
Qed.

End WithInferer.

Lemma train_device_list_witness :
  exists launch,
    snd (train (fun b => b) exits_normally 0 (Some "work/unet_0")
           (Some [("CUDA_VISIBLE_DEVICES", VList [VInt 0; VInt 1])]) [("HOME", "/root")])
    = [launch]
    /\ hd "" (argv launch) = (if (1 <? List.length [VInt 0; VInt 1])%nat
                               then "torchrun" else "python")
    /\ (join "," (map py_str [VInt 0; VInt 1]) = "" -> environ launch = [("HOME", "/root")])
    /\ (join "," (map py_str [VInt 0; VInt 1]) <> "" ->
        dict_get (environ launch) "CUDA_VISIBLE_DEVICES"
        = Some (join "," (map py_str [VInt 0; VInt 1]))
        /\ forall key, key <> "CUDA_VISIBLE_DEVICES" ->
                       dict_get (environ launch) key = dict_get [("HOME", "/root")] key).
Proof.
  apply (train_device_list (fun b => b) exits_normally 0 "work/unet_0"
           [("CUDA_VISIBLE_DEVICES", VList [VInt 0; VInt 1])] [VInt 0; VInt 1]
           [("HOME", "/root")]).
  reflexivity.
Defined.

Lemma BundleGen_init_twice_witness :
  let init := BundleGen_init download_succeeds string (fun _ => Ok "") (fun _ name => name) in
  let g1 := snd (init Datasets.small_fs "/tmp/a" "work" (AlgosNone string) fresh_globals) in
  let g2 := snd (init Datasets.small_fs "/tmp/b" "work" (AlgosNone string) g1) in
  module_default_algos g1 = default_algos_after 1 "work"
  /\ module_default_algos g2 = default_algos_after 2 "work"
  /\ sys_path g2
     = path_join "work" "algo_templates" :: path_join "work" "algo_templates"
       :: sys_path fresh_globals
  /\ (String.prefix "/" "work" = true ->
      module_default_algos g2 = module_default_algos g1)
  /\ ("work" <> "" -> String.prefix "/" "work" = false ->
      ends_with_slash "work" = false ->
      forall name params,
        In (name, params) default_algos ->
        exists params2 template_configs,
          dict_get (module_default_algos g2) name = Some params2
          /\ dict_get params "template_configs" = Some template_configs
          /\ dict_get params2 "template_configs"
             = Some ("work" ++ "/" ++ "work" ++ "/" ++ template_configs)).
Proof.
  apply (BundleGen_init_twice download_succeeds string (fun _ => Ok "") (fun _ name => name)
           Datasets.small_fs Datasets.small_fs "/tmp/a" "/tmp/b" "work" fresh_globals).
  - intros call fs. reflexivity.
  - reflexivity.
Defined.

End BundleGenFacts.

(** ** Downloads and their checksums *)

Section Downloads.

Variable RandomState : Type.
Variable new_random_state : Z -> RandomState.
Variable random : RandomState -> Q * RandomState.
Variable shuffle : RandomState -> list nat -> list nat * RandomState.
Variable download_and_extract : DownloadCall -> FileSystem -> result FileSystem.
Variable DecathlonItem : Type.
Variable load_decathlon_datalist :
  FileSystem -> string -> bool -> string -> result (list DecathlonItem).
Variable split_dataset : Z -> nat -> list (nat * nat).
Variable Algo : Type.
Variable get_parsed_content : list (string * string) -> result Algo.
Variable set_name : Algo -> string -> Algo.

Let MedNIST_init :=
  Datasets.MedNISTDataset_init RandomState new_random_state random download_and_extract.
Let Decathlon_init :=
  Datasets.DecathlonDataset_init RandomState new_random_state shuffle download_and_extract
    DecathlonItem load_decathlon_datalist split_dataset.
Let BundleGen_init :=
  BundleGen.BundleGen_init download_and_extract Algo get_parsed_content set_name.

(** Every task with a resource URL has a checksum. *)
Lemma Decathlon_md5_total (task : string) :
  dict_mem Datasets.Decathlon_resource task = true ->
  exists resource md5,
    dict_get Datasets.Decathlon_resource task = Some resource
    /\ dict_get Datasets.Decathlon_md5 task = Some md5.
Proof.
  unfold dict_mem, Datasets.Decathlon_resource, Datasets.Decathlon_md5. cbn [dict_get].
  repeat match goal with
         | |- context [String.eqb ?k task] => destruct (String.eqb k task)
         end;
    intros H; try discriminate H; eexists; eexists; split; reflexivity.
Qed.

Lemma MedNIST_downloads (fs : FileSystem) (root_dir section : string) (download : bool)
    (seed : Z) (val_frac test_frac : Q) :
  snd (MedNIST_init fs root_dir section download seed val_frac test_frac)
  = if isdir fs root_dir && download
    then [mkDownloadCall Datasets.MedNIST_resource
            (path_join root_dir Datasets.MedNIST_compressed_file_name) root_dir
            Datasets.MedNIST_md5]
    else [].
Proof.
  unfold MedNIST_init, Datasets.MedNISTDataset_init.
  destruct (isdir fs root_dir); cbn [negb andb]; [|reflexivity].
  destruct download.
  - destruct (download_and_extract _ fs) as [fs'|e]; [|reflexivity].
    destruct (path_exists fs' _); reflexivity.
  - destruct (path_exists fs _); reflexivity.
Qed.

Lemma Decathlon_downloads (fs : FileSystem) (root_dir task section : string)
    (download : bool) (seed nsplits fold : Z) :
  snd (Decathlon_init fs root_dir task section download seed nsplits fold) = []
  \/ exists resource md5,
       download = true
       /\ isdir fs root_dir = true /\ (fold <= nsplits - 1)%Z
       /\ dict_get Datasets.Decathlon_resource task = Some resource
       /\ dict_get Datasets.Decathlon_md5 task = Some md5
       /\ snd (Decathlon_init fs root_dir task section download seed nsplits fold)
          = [mkDownloadCall resource (path_join root_dir task ++ ".tar")%string root_dir md5].
Proof.
  unfold Decathlon_init, Datasets.DecathlonDataset_init.
  destruct (isdir fs root_dir); cbn [negb]; [|left; reflexivity].
  destruct (nsplits - 1 <? fold)%Z eqn:Efold; [left; reflexivity|].
  apply Z.ltb_ge in Efold.
  destruct (dict_mem Datasets.Decathlon_resource task) eqn:Etask; cbn [negb];
    [|left; reflexivity].
  destruct (Decathlon_md5_total task Etask) as [resource [md5 [Hr Hm]]].
  destruct download.
  - right. exists resource, md5. unfold dict_lookup. rewrite Hr, Hm.
    repeat split; try assumption.
    destruct (download_and_extract _ fs) as [fs'|e]; [|reflexivity].
    destruct (path_exists fs' _); reflexivity.
  - left. destruct (path_exists fs _); reflexivity.
Qed.

(** C2: every call of [download_and_extract] that the constructors of
    [MedNISTDataset], [DecathlonDataset] and [BundleGen] make passes the MD5
    checksum stored for the resource URL it passes; with [download=True]
    (for [BundleGen]: with [algos] left [None]) and arguments that pass
    validation, exactly that one call is made. *)
Theorem downloads_use_stored_md5 :
  (forall fs root_dir section download seed val_frac test_frac call,
      In call (snd (MedNIST_init fs root_dir section download seed val_frac test_frac)) ->
      url call = Datasets.MedNIST_resource /\ hash_val call = Datasets.MedNIST_md5)
  /\ (forall fs root_dir section seed val_frac test_frac,
        isdir fs root_dir = true ->
        snd (MedNIST_init fs root_dir section true seed val_frac test_frac)
        = [mkDownloadCall Datasets.MedNIST_resource
             (path_join root_dir Datasets.MedNIST_compressed_file_name) root_dir
             Datasets.MedNIST_md5])
  /\ (forall fs root_dir task section download seed nsplits fold call,
        In call (snd (Decathlon_init fs root_dir task section download seed nsplits fold)) ->
        dict_get Datasets.Decathlon_resource task = Some (url call)
        /\ dict_get Datasets.Decathlon_md5 task = Some (hash_val call))
  /\ (forall fs root_dir task section seed nsplits fold,
        isdir fs root_dir = true -> (fold <= nsplits - 1)%Z ->
        dict_mem Datasets.Decathlon_resource task = true ->
        exists resource md5,
          dict_get Datasets.Decathlon_resource task = Some resource
          /\ dict_get Datasets.Decathlon_md5 task = Some md5
          /\ snd (Decathlon_init fs root_dir task section true seed nsplits fold)
             = [mkDownloadCall resource (path_join root_dir task ++ ".tar")%string root_dir md5])
  /\ (forall fs tmp_dir algo_path g,
        BundleGen.downloads (snd (BundleGen_init fs tmp_dir algo_path (BundleGen.AlgosNone Algo) g))
        = BundleGen.downloads g
          ++ [mkDownloadCall BundleGen.algo_zip (path_join tmp_dir "algo_templates.tar.gz")
                algo_path BundleGen.md5])
  /\ (forall fs tmp_dir algo_path algos g,
        algos <> BundleGen.AlgosNone Algo ->
        BundleGen.downloads (snd (BundleGen_init fs tmp_dir algo_path algos g))
        = BundleGen.downloads g).
Proof.
  repeat apply conj.
  - intros fs root_dir section download seed val_frac test_frac call.
    rewrite MedNIST_downloads.
    destruct (isdir fs root_dir && download); [|intros []].
    intros [<- | []]. split; reflexivity.
  - intros fs root_dir section seed val_frac test_frac Hdir.
    rewrite MedNIST_downloads, Hdir. reflexivity.
  - intros fs root_dir task section download seed nsplits fold call.
    destruct (Decathlon_downloads fs root_dir task section download seed nsplits fold)
      as [-> | [resource [md5 [_ [_ [_ [Hr [Hm ->]]]]]]]]; [intros []|].
    intros [<- | []]. split; assumption.
  - intros fs root_dir task section seed nsplits fold Hdir Hfold Htask.
    destruct (Decathlon_downloads fs root_dir task section true seed nsplits fold)
      as [Hnil | [resource [md5 [_ [_ [_ [Hr [Hm Hcalls]]]]]]]].
    + exfalso. revert Hnil.
      unfold Decathlon_init, Datasets.DecathlonDataset_init.
      rewrite Hdir. cbn [negb].
      apply Z.ltb_ge in Hfold. rewrite Hfold, Htask. cbn [negb].
      destruct (Decathlon_md5_total task Htask) as [resource [md5 [Hr Hm]]].
      unfold dict_lookup. rewrite Hr, Hm.
      destruct (download_and_extract _ fs) as [fs'|e]; [|discriminate].
      destruct (path_exists fs' _); discriminate.
    + exists resource, md5. repeat split; assumption.
  - intros fs tmp_dir algo_path g.
    unfold BundleGen_init, BundleGen.BundleGen_init.
    destruct (download_and_extract _ fs) as [fs'|e]; [|reflexivity].
    cbn [BundleGen.downloads BundleGen.sys_path BundleGen.module_default_algos].
    destruct (BundleGen.with_algo_path _ _); reflexivity.
  - intros fs tmp_dir algo_path algos g Hne.
    destruct algos; [contradiction| |]; reflexivity.
Qed.

End Downloads.

(** ** monai/apps/pathology/evaluators.py *)

Module EvaluatorsFacts.

Import Evaluators.

Section WithEnvironment.

Variable Sample : Type.
Variable Mask : Type.
Variable nms : Sample -> list (Q * Z * Z).
Variable prepare_ground_truth : Sample -> Mask * list nat.
Variable level : Sample -> nat.
Variable compute_fp_tp_probs : FpTpArgs Mask -> list Q * list Q * nat.

Local Abbreviation prepare_inference_result := (Evaluators.prepare_inference_result Sample nms).
Local Abbreviation fp_tp_args :=
  (Evaluators.fp_tp_args Sample Mask nms prepare_ground_truth level).
Local Abbreviation compute_fp_tp :=
  (Evaluators.compute_fp_tp Sample Mask nms prepare_ground_truth level compute_fp_tp_probs).

Lemma compute_fp_tp_loop (data : list Sample) (fp tp : list Q) (n : nat) :
  fold_left
    (fun acc sample =>
       let '(total_fp_probs, total_tp_probs, total_num_targets) := acc in
       let '(fp_probs, tp_probs, num_targets) := compute_fp_tp_probs (fp_tp_args sample) in
       (total_fp_probs ++ fp_probs, total_tp_probs ++ tp_probs,
        total_num_targets + num_targets))
    data (fp, tp, n)
  = (fp ++ flat_map (fun s => fst (fst (compute_fp_tp_probs (fp_tp_args s)))) data,
     tp ++ flat_map (fun s => snd (fst (compute_fp_tp_probs (fp_tp_args s)))) data,
     n + list_sum (map (fun s => snd (compute_fp_tp_probs (fp_tp_args s))) data)).
Proof.
  revert fp tp n. induction data as [|s data IH]; intros fp tp n; cbn [fold_left].
  - cbn. rewrite !app_nil_r, Nat.add_0_r. reflexivity.
  - destruct (compute_fp_tp_probs (fp_tp_args s)) as [[fps tps] k] eqn:E.
    rewrite IH. cbn [flat_map map]. rewrite E. cbn [fst snd].
    rewrite <- !app_assoc. f_equal. simpl list_sum. lia.
Qed.

(** The probabilities are concatenated over the samples, the targets are
    added up and the images are counted. *)
Lemma compute_fp_tp_totals (data : list Sample) :
  compute_fp_tp data
  = (flat_map (fun s => fst (fst (compute_fp_tp_probs (fp_tp_args s)))) data,
     flat_map (fun s => snd (fst (compute_fp_tp_probs (fp_tp_args s)))) data,
     list_sum (map (fun s => snd (compute_fp_tp_probs (fp_tp_args s))) data),
     List.length data).
Proof. unfold Evaluators.compute_fp_tp. rewrite compute_fp_tp_loop. reflexivity. Qed.

(** What [compute_fp_tp] passes as [y_coord] is what
    [prepare_inference_result] returned as [x_coord], and the other way round. *)
Lemma fp_tp_args_roles (sample : Sample) :
  y_coord (fp_tp_args sample) = snd (fst (prepare_inference_result sample))
  /\ x_coord (fp_tp_args sample) = snd (prepare_inference_result sample).
Proof.
  unfold Evaluators.fp_tp_args.
  destruct (prepare_inference_result sample) as [[p x] y].
  destruct (prepare_ground_truth sample) as [g l]. split; reflexivity.
Qed.

End WithEnvironment.

(** C7 (the code departs from the claim): for a sample with the single
    detection [(0.9, 3, 7)], [prepare_inference_result] produces the
    x-coordinate 3 and the y-coordinate 7, and [compute_fp_tp] supplies 3 as
    [y_coord] and 7 as [x_coord]. *)
Theorem compute_fp_tp_swaps_coordinates :
  let nms := fun _ : unit => [((9 # 10)%Q, 3%Z, 7%Z)] in
  let ground_truth := fun _ : unit => (tt, @nil nat) in
  prepare_inference_result unit nms tt = ([(9 # 10)%Q], [3%Z], [7%Z])
  /\ x_coord (fp_tp_args unit unit nms ground_truth (fun _ => 0) tt) = [7%Z]
  /\ y_coord (fp_tp_args unit unit nms ground_truth (fun _ => 0) tt) = [3%Z].
Proof. repeat split. Qed.

(** ** Isolated tumor cells, and the evaluation of concatenated data *)

Lemma py_index_nat_spec {A : Type} (l : list A) (i : nat) :
  py_index l (Z.of_nat i)
  = match nth_error l i with
    | Some x => Ok x
    | None => Raise (IndexError "list index out of range")
    end.
Proof.
  unfold py_index.
  destruct (Z.of_nat i <? 0)%Z eqn:E0; [apply Z.ltb_lt in E0; lia|].
  rewrite Nat2Z.id.
  destruct ((0 <=? Z.of_nat i) && (Z.of_nat i <? Z.of_nat (List.length l)))%Z eqn:E1;
    [reflexivity|].
  destruct (nth_error l i) eqn:E; [|reflexivity].
  assert (i < List.length l) by (apply nth_error_Some; congruence).
  apply andb_false_iff in E1. destruct E1 as [E1|E1].
  - apply Z.leb_gt in E1. lia.
  - apply Z.ltb_ge in E1. lia.
Qed.

Lemma itc_loop_in_range (lengths : list Q) (threshold : Q) (count : nat) :
  forall (start : nat) (acc : list nat),
    start + count <= List.length lengths ->
    foldM (itc_step lengths threshold) acc (seq start count)
    = Ok (acc ++ map S (filter (fun i => Qltb (nth i lengths 0%Q) threshold) (seq start count))).
Proof.
  induction count as [|count IH]; intros start acc Hlen; cbn [seq foldM filter map].
  - rewrite app_nil_r. reflexivity.
  - unfold itc_step at 1. rewrite py_index_nat_spec.
    destruct (nth_error lengths start) as [x|] eqn:E.
    2:{ apply nth_error_None in E. lia. }
    rewrite (nth_error_nth _ _ 0%Q E). cbn [bind].
    destruct (Qltb x threshold); cbn [bind]; rewrite IH by lia.
    + rewrite <- app_assoc. cbn [map app]. rewrite Nat.add_1_r. reflexivity.
    + reflexivity.
Qed.

Lemma itc_loop_out_of_range (lengths : list Q) (threshold : Q) (count : nat) :
  forall (start : nat) (acc : list nat),
    start <= List.length lengths -> List.length lengths < start + count ->
    foldM (itc_step lengths threshold) acc (seq start count)
    = Raise (IndexError "list index out of range").
Proof.
  induction count as [|count IH]; intros start acc Hs Hlen; [lia|].
  cbn [seq foldM]. unfold itc_step at 1. rewrite py_index_nat_spec.
  destruct (nth_error lengths start) as [x|] eqn:E; [|reflexivity].
  assert (start < List.length lengths) by (apply nth_error_Some; congruence).
  cbn [bind]. destruct (Qltb x threshold); cbn [bind]; apply IH; lia.
Qed.

Lemma map_S_sorted (l : list nat) :
  StronglySorted lt l -> StronglySorted lt (map S l).
Proof.
  induction 1 as [|x l Hs IH Hall]; cbn [map]; constructor; [assumption|].
  apply Forall_map. eapply Forall_impl; [|exact Hall]. cbv beta. intros; lia.
Qed.

Lemma filter_seq_sorted (p : nat -> bool) (count : nat) :
  forall start, StronglySorted lt (filter p (seq start count)).
Proof.
  induction count as [|count IH]; intros start; cbn [seq filter]; [constructor|].
  destruct (p start); [|apply IH]. constructor; [apply IH|].
  apply Forall_forall. intros i Hin. apply filter_In in Hin. destruct Hin as [Hin _].
  apply in_seq in Hin. lia.
Qed.

(** X15: when [regionprops] returned at least [max_label] regions,
    [compute_isolated_tumor_cells] returns, in increasing order and without
    repetition, exactly the labels [l] in [1 .. max_label] whose region
    [properties[l - 1]] has a major axis shorter than the threshold; with
    fewer regions than [max_label] it raises [IndexError]. *)
Theorem compute_isolated_tumor_cells_spec (max_label : nat) (lengths : list Q)
    (threshold : Q) :
  (max_label <= List.length lengths ->
   exists itc_list,
     compute_isolated_tumor_cells max_label lengths threshold = Ok itc_list
     /\ StronglySorted lt itc_list
     /\ forall label,
          In label itc_list
          <-> 1 <= label <= max_label /\ (nth (label - 1) lengths 0 < threshold)%Q)
  /\ (List.length lengths < max_label ->
      compute_isolated_tumor_cells max_label lengths threshold
      = Raise (IndexError "list index out of range")).
Proof.
  unfold compute_isolated_tumor_cells. split.
  - intros Hlen. rewrite itc_loop_in_range by lia. cbn [app].
    eexists. split; [reflexivity|]. split.
    + apply map_S_sorted, filter_seq_sorted.
    + intros label. rewrite in_map_iff. split.
      * intros [i [<- Hin]]. apply filter_In in Hin. destruct Hin as [Hin Hlt].
        apply in_seq in Hin. replace (S i - 1) with i by lia. split; [lia|].
        unfold Qltb in Hlt. apply negb_true_iff in Hlt.
        apply Qnot_le_lt. intros Hle. apply Qle_bool_iff in Hle. congruence.
      * intros [Hrange Hlt]. exists (label - 1). split; [lia|].
        apply filter_In. split; [apply in_seq; lia|].
        unfold Qltb. apply negb_true_iff. apply not_true_iff_false. intros Hle.
        apply Qle_bool_iff in Hle. lra.
  - intros Hlen. apply itc_loop_out_of_range; lia.
Qed.

Section WithSamples.

Variable Sample : Type.
Variable Mask : Type.
Variable nms : Sample -> list (Q * Z * Z).
Variable prepare_ground_truth : Sample -> Mask * list nat.
Variable level : Sample -> nat.
Variable compute_fp_tp_probs : FpTpArgs Mask -> list Q * list Q * nat.

Local Abbreviation compute_fp_tp :=
  (Evaluators.compute_fp_tp Sample Mask nms prepare_ground_truth level compute_fp_tp_probs).

(** X16: [compute_fp_tp] works sample by sample: on the data [data1]
    followed by [data2] it returns the probabilities of [data1] followed by
    those of [data2], and the sums of the numbers of targets and of images. *)
Theorem compute_fp_tp_app (data1 data2 : list Sample) :
  let '(fp1, tp1, targets1, images1) := compute_fp_tp data1 in
  let '(fp2, tp2, targets2, images2) := compute_fp_tp data2 in
  compute_fp_tp (data1 ++ data2)
  = (fp1 ++ fp2, tp1 ++ tp2, targets1 + targets2, images1 + images2).
Proof.
  rewrite !(compute_fp_tp_totals Sample Mask nms prepare_ground_truth level compute_fp_tp_probs).
  rewrite !flat_map_app, map_app, list_sum_app, length_app. reflexivity.
Qed.

End WithSamples.

End EvaluatorsFacts.

(** ** monai/data/inverse_batch_transform.py *)

Module InverseBatchTransformFacts.

Import InverseBatchTransform.

Local Open Scope string_scope.

Section WithEnvironment.

Variable Array : Type.
Variable Batch : Type.
Variable Inverted : Type.
Variable Collated : Type.
Variable CenterSpatialCrop : list Z -> Array -> Array.
Variable decollate_batch : Batch -> list (InverseBatchTransform.Item Array).
Variable collate : list Inverted -> result Collated.
Variable inverse : InverseBatchTransform.Item Array -> option (list string) -> result Inverted.

Local Abbreviation Item := (InverseBatchTransform.Item Array).
Local Abbreviation ds_data := (InverseBatchTransform.ds_data Array).
Local Abbreviation ds_keys := (InverseBatchTransform.ds_keys Array).
Local Abbreviation BatchInverseDataset_init :=
  (InverseBatchTransform.BatchInverseDataset_init Array Batch decollate_batch).
Local Abbreviation undo_pad := (InverseBatchTransform.undo_pad Array CenterSpatialCrop).
Local Abbreviation getitem :=
  (InverseBatchTransform.getitem Array Inverted CenterSpatialCrop inverse).
Local Abbreviation first_batch :=
  (InverseBatchTransform.first_batch Array Inverted Collated CenterSpatialCrop collate inverse).
Local Abbreviation call :=
  (InverseBatchTransform.call Array Batch Inverted Collated CenterSpatialCrop
     decollate_batch collate inverse).
Local Abbreviation padded := (InverseBatchTransform.padded Array).
Local Abbreviation padded_by_SpatialPadd := (InverseBatchTransform.padded_by_SpatialPadd Array).
Local Abbreviation padded_by_other := (InverseBatchTransform.padded_by_other Array).
Local Abbreviation cropped := (InverseBatchTransform.cropped Array CenterSpatialCrop).
Local Abbreviation inverted_keys := (InverseBatchTransform.inverted_keys Array).

Lemma dict_get_set_same {V : Type} (d : list (string * V)) (k : string) (v : V) :
  dict_get (dict_set d k v) k = Some v.
Proof.
  induction d as [|[k0 v0] d IH]; cbn.
  - rewrite String.eqb_refl. reflexivity.
  - destruct (String.eqb k0 k) eqn:E; cbn; rewrite E; [reflexivity|exact IH].
Qed.

Lemma dict_get_set_other {V : Type} (d : list (string * V)) (k k' : string) (v : V) :
  k <> k' -> dict_get (dict_set d k v) k' = dict_get d k'.
Proof.
  intros Hne. induction d as [|[k0 v0] d IH]; cbn.
  - destruct (String.eqb k k') eqn:E; [|reflexivity].
    apply String.eqb_eq in E. contradiction.
  - destruct (String.eqb k0 k) eqn:E; cbn.
    + apply String.eqb_eq in E. subst k0.
      destruct (String.eqb k k') eqn:E'; [|reflexivity].
      apply String.eqb_eq in E'. contradiction.
    + destruct (String.eqb k0 k'); [reflexivity|exact IH].
Qed.

Lemma length_append (a b : string) :
  String.length (a ++ b) = String.length a + String.length b.
Proof. induction a as [|c a IH]; cbn; [reflexivity|]. rewrite IH. reflexivity. Qed.

Lemma append_cancel_r (a b s : string) : a ++ s = b ++ s -> a = b.
Proof.
  revert b. induction a as [|c a IH]; intros [|c' b] H; cbn in H.
  - reflexivity.
  - exfalso. apply (f_equal String.length) in H. cbn in H. rewrite length_append in H. lia.
  - exfalso. apply (f_equal String.length) in H. cbn in H. rewrite length_append in H. lia.
  - injection H as <- H. f_equal. apply IH. assumption.
Qed.

Lemma transform_key_inj (a b : string) : transform_key a = transform_key b -> a = b.
Proof. apply append_cancel_r. Qed.

Lemma py_index_nat {A : Type} (l : list A) (i : nat) (x : A) :
  nth_error l i = Some x -> py_index l (Z.of_nat i) = Ok x.
Proof.
  intros H. unfold py_index.
  assert (Hlt : i < List.length l) by (apply nth_error_Some; congruence).
  destruct (Z.of_nat i <? 0)%Z eqn:E0; [apply Z.ltb_lt in E0; lia|].
  destruct ((0 <=? Z.of_nat i) && (Z.of_nat i <? Z.of_nat (List.length l)))%Z eqn:E1.
  - rewrite Nat2Z.id, H. reflexivity.
  - apply andb_false_iff in E1. destruct E1 as [E1|E1].
    + apply Z.leb_gt in E1. lia.
    + apply Z.ltb_ge in E1. lia.
Qed.

(** One round of the loop on a padded key. *)
Lemma undo_pad_padded (data : Item) (key : string) (earlier : list TransformRecord)
    (rec : TransformRecord) (img : Array) :
  dict_get data (transform_key key) = Some (inr (earlier ++ [rec])%list) ->
  dict_get data key = Some (inl img) ->
  undo_pad data key
  = if String.eqb (class_name rec) "SpatialPadd"
    then Ok (dict_set (dict_set data (transform_key key) (inr earlier)) key
               (inl (CenterSpatialCrop (orig_size rec) img)))
    else Raise (RuntimeError
           ("Expected most recent transform to have been SpatialPadd because "
            ++ "pad_list_data_collate was used. Instead, found " ++ class_name rec)).
Proof.
  intros Ht Hk. unfold InverseBatchTransform.undo_pad, dict_lookup. rewrite Ht. cbn [bind].
  rewrite rev_app_distr. cbn [rev app]. rewrite rev_involutive.
  destruct (String.eqb (class_name rec) "SpatialPadd"); cbn [negb]; [|reflexivity].
  rewrite dict_get_set_other, Hk; [reflexivity|].
  intros E. rewrite E, Hk in Ht. discriminate Ht.
Qed.

Lemma undo_pad_frame (data : Item) (key : string) (earlier : list TransformRecord)
    (rec : TransformRecord) (img : Array) (x : string) :
  x <> key -> x <> transform_key key ->
  dict_get (dict_set (dict_set data (transform_key key) (inr earlier)) key
              (inl (CenterSpatialCrop (orig_size rec) img))) x
  = dict_get data x.
Proof.
  intros H1 H2. rewrite !dict_get_set_other; [reflexivity| |]; congruence.
Qed.

(** The loop over distinct padded keys whose last records are all of class
    SpatialPadd: every key ends up cropped, nothing else changes. *)
Lemma undo_pad_all (keys : list string) :
  forall data : Item,
    NoDup keys ->
    (forall k, In k keys -> padded_by_SpatialPadd data k) ->
    exists data',
      foldM undo_pad data keys = Ok data'
      /\ (forall k, In k keys -> cropped data data' k)
      /\ (forall x, (forall k, In k keys -> x <> k /\ x <> transform_key k) ->
                    dict_get data' x = dict_get data x).
Proof.
  induction keys as [|k keys IH]; intros data Hnd Hall.
  - exists data. cbn. split; [reflexivity|]. split; [intros k []|reflexivity].
  - inversion Hnd as [|k0 ks Hnotin Hnd']; subst.
    destruct (Hall k (or_introl eq_refl)) as [earlier [rec [img [Ht [Hk Hc]]]]].
    cbn [foldM]. rewrite (undo_pad_padded data k earlier rec img Ht Hk).
    cbn beta in Hc. rewrite Hc. cbn [String.eqb Ascii.eqb Bool.eqb andb bind].
    set (data1 := dict_set (dict_set data (transform_key k) (inr earlier)) k
                    (inl (CenterSpatialCrop (orig_size rec) img))).
    assert (Hframe : forall k', In k' keys ->
              dict_get data1 (transform_key k') = dict_get data (transform_key k')
              /\ dict_get data1 k' = dict_get data k').
    { intros k' Hin.
      destruct (Hall k' (or_intror Hin)) as [e' [r' [i' [Ht' [Hk' _]]]]].
      assert (k' <> k) by (intros ->; contradiction).
      split; apply undo_pad_frame.
      - intros E. rewrite E, Hk in Ht'. discriminate Ht'.
      - intros E. apply transform_key_inj in E. contradiction.
      - assumption.
      - intros E. rewrite E, Ht in Hk'. discriminate Hk'. }
    destruct (IH data1 Hnd') as [data' [Hfold [Hcrop Hrest]]].
    { intros k' Hin. destruct (Hall k' (or_intror Hin)) as [e' [r' [i' [Ht' [Hk' Hc']]]]].
      destruct (Hframe k' Hin) as [F1 F2].
      exists e', r', i'. rewrite F1, F2. repeat split; assumption. }
    exists data'. split; [assumption|]. split.
    + intros k' [<- | Hin].
      * exists earlier, rec, img. repeat split; try assumption.
        -- rewrite Hrest.
           ++ unfold data1. rewrite dict_get_set_other, dict_get_set_same; [reflexivity|].
              intros E. rewrite <- E, Hk in Ht. discriminate Ht.
           ++ intros k' Hin.
              destruct (Hall k' (or_intror Hin)) as [e' [r' [i' [Ht' [Hk' _]]]]].
              split.
              ** intros E. rewrite <- E, Ht in Hk'. discriminate Hk'.
              ** intros E. apply transform_key_inj in E. subst k'. contradiction.
        -- rewrite Hrest.
           ++ unfold data1. apply dict_get_set_same.
           ++ intros k' Hin.
              destruct (Hall k' (or_intror Hin)) as [e' [r' [i' [Ht' [Hk' _]]]]].
              split.
              ** intros ->. contradiction.
              ** intros E. rewrite E, Ht' in Hk. discriminate Hk.
      * destruct (Hcrop k' Hin) as [e' [r' [i' [Ht' [Hk' [Ht'' Hk'']]]]]].
        destruct (Hframe k' Hin) as [F1 F2].
        exists e', r', i'. rewrite <- F1, <- F2. repeat split; assumption.
    + intros x Hx. rewrite Hrest.
      * destruct (Hx k (or_introl eq_refl)) as [X1 X2].
        unfold data1. apply undo_pad_frame; assumption.
      * intros k' Hin. apply Hx. right. assumption.
Qed.

(** The loop over distinct padded keys one of which ends with a record of
    another class: [RuntimeError]. *)
Lemma undo_pad_other_class (keys : list string) :
  forall data : Item,
    NoDup keys ->
    (forall k, In k keys -> padded data k) ->
    (exists k, In k keys /\ padded_by_other data k) ->
    exists msg, foldM undo_pad data keys = Raise (RuntimeError msg).
Proof.
  induction keys as [|k keys IH]; intros data Hnd Hall [kb [Hin Hbad]].
  - destruct Hin.
  - inversion Hnd as [|k0 ks Hnotin Hnd']; subst.
    destruct (Hall k (or_introl eq_refl)) as [earlier [rec [img [Ht [Hk _]]]]].
    cbn [foldM]. rewrite (undo_pad_padded data k earlier rec img Ht Hk).
    destruct (String.eqb (class_name rec) "SpatialPadd") eqn:Ec; cbn [bind];
      [|eexists; reflexivity].
    apply String.eqb_eq in Ec.
    set (data1 := dict_set (dict_set data (transform_key k) (inr earlier)) k
                    (inl (CenterSpatialCrop (orig_size rec) img))).
    assert (Hframe : forall k', In k' keys ->
              dict_get data1 (transform_key k') = dict_get data (transform_key k')
              /\ dict_get data1 k' = dict_get data k').
    { intros k' Hin'.
      destruct (Hall k' (or_intror Hin')) as [e' [r' [i' [Ht' [Hk' _]]]]].
      assert (k' <> k) by (intros ->; contradiction).
      split; apply undo_pad_frame.
      - intros E. rewrite E, Hk in Ht'. discriminate Ht'.
      - intros E. apply transform_key_inj in E. contradiction.
      - assumption.
      - intros E. rewrite E, Ht in Hk'. discriminate Hk'. }
    apply IH; [assumption| |].
    + intros k' Hin'. destruct (Hall k' (or_intror Hin')) as [e' [r' [i' [Ht' [Hk' Hc']]]]].
      destruct (Hframe k' Hin') as [F1 F2].
      exists e', r', i'. rewrite F1, F2. repeat split; assumption.
    + destruct Hin as [<- | Hin].
      * exfalso. destruct Hbad as [e' [r' [i' [Ht' [_ Hc']]]]].
        rewrite Ht in Ht'. injection Ht' as Ht'.
        apply app_inj_tail in Ht'. destruct Ht' as [_ <-]. contradiction.
      * exists kb. split; [assumption|].
        destruct Hbad as [e' [r' [i' [Ht' [Hk' Hc']]]]].
        destruct (Hframe kb Hin) as [F1 F2].
        exists e', r', i'. rewrite F1, F2. repeat split; assumption.
Qed.

(** A [RuntimeError] of the first batch leaves [__call__] as a
    [RuntimeError]. *)
Lemma call_keeps_RuntimeError (batch_size : nat) (pad_collation_used : bool)
    (data : Batch) (keys : option (list string)) (msg : string) :
  first_batch (BatchInverseDataset_init data keys pad_collation_used) batch_size
  = Raise (RuntimeError msg) ->
  exists msg', call batch_size pad_collation_used data keys = Raise (RuntimeError msg').
Proof.
  intros H. unfold InverseBatchTransform.call. rewrite H.
  destruct (contains _ msg); eexists; reflexivity.
Qed.

Lemma mapM_first_raise {A B : Type} (f : A -> result B) (before : list A) (x : A)
    (after : list A) (e : exn) :
  (forall y, In y before -> is_ok (f y) = true) ->
  f x = Raise e ->
  mapM f (before ++ x :: after)%list = Raise e.
Proof.
  intros Hok Hx. induction before as [|y before IH]; cbn [app mapM].
  - rewrite Hx. reflexivity.
  - pose proof (Hok y (or_introl eq_refl)) as Hy.
    destruct (f y) as [v|e']; [|discriminate Hy]. cbn [bind].
    rewrite IH; [reflexivity|]. intros z Hz. apply Hok. right. assumption.
Qed.

Lemma seq_split_at (n index : nat) :
  index < n ->
  seq 0 n = (seq 0 index ++ index :: seq (S index) (n - S index))%list.
Proof.
  intros Hlt. replace n with (index + S (n - S index)) at 1 by lia.
  rewrite seq_app. reflexivity.
Qed.

(** C1: [__call__] decollates the batch and works on the items one by one.
    For an item of a batch whose loader used [pad_list_data_collate], with
    distinct inverted keys that were padded: if the last transform record of
    some key is not of class "SpatialPadd", [__getitem__] raises
    [RuntimeError], and so does [__call__] when the items before it went
    through; if all of them are, it pops these records, crops every key to
    the recorded original size, changes nothing else, and applies the
    wrapped transform's inverse to the result.  Without pad collation it
    applies the inverse to the decollated item as it is.  When every item
    goes through, [__call__] returns their collation. *)
Theorem batch_inverse_undoes_pad_collation (batch_size : nat) (pad_collation_used : bool)
    (data : Batch) (keys : option (list string)) (index : nat) (item : Item) :
  let inv_ds := BatchInverseDataset_init data keys pad_collation_used in
  nth_error (decollate_batch data) index = Some item ->
  (List.length (decollate_batch data) <= batch_size ->
   (forall j, j < index -> is_ok (getitem inv_ds j) = true) ->
   forall msg, getitem inv_ds index = Raise (RuntimeError msg) ->
   exists msg', call batch_size pad_collation_used data keys = Raise (RuntimeError msg'))
  /\ (List.length (decollate_batch data) <= batch_size ->
      forall items batch,
        mapM (getitem inv_ds) (seq 0 (List.length (decollate_batch data))) = Ok items ->
        collate items = Ok batch ->
        call batch_size pad_collation_used data keys = Ok (Some batch))
  /\ (pad_collation_used = false ->
      getitem inv_ds index = inverse item (ds_keys inv_ds))
  /\ (pad_collation_used = true ->
      NoDup (inverted_keys inv_ds item) ->
      (forall k, In k (inverted_keys inv_ds item) -> padded item k) ->
      ((exists k, In k (inverted_keys inv_ds item) /\ padded_by_other item k) ->
       exists msg, getitem inv_ds index = Raise (RuntimeError msg))
      /\ ((forall k, In k (inverted_keys inv_ds item) -> padded_by_SpatialPadd item k) ->
          exists item',
            getitem inv_ds index = inverse item' (ds_keys inv_ds)
            /\ (forall k, In k (inverted_keys inv_ds item) -> cropped item item' k)
            /\ (forall x,
                  (forall k, In k (inverted_keys inv_ds item) ->
                             x <> k /\ x <> transform_key k) ->
                  dict_get item' x = dict_get item x))).
Proof.
  intros inv_ds Hitem.
  assert (Hget : py_index (ds_data inv_ds) (Z.of_nat index) = Ok item).
  { apply py_index_nat. exact Hitem. }
  assert (Hlt : index < List.length (decollate_batch data)).
  { apply nth_error_Some. congruence. }
  assert (Hfirst : List.length (decollate_batch data) <= batch_size ->
            first_batch inv_ds batch_size
            = (items <- mapM (getitem inv_ds) (seq 0 (List.length (decollate_batch data))) ;;
               batch <- collate items ;;
               Ok (Some batch))).
  { intros Hlen. unfold InverseBatchTransform.first_batch.
    change (ds_data inv_ds) with (decollate_batch data).
    rewrite Nat.min_r by assumption.
    destruct (List.length (decollate_batch data)) as [|n]; [lia|]. reflexivity. }
  split; [|split; [|split]].
  - intros Hlen Hbefore msg Hmsg.
    apply (call_keeps_RuntimeError batch_size pad_collation_used data keys msg).
    fold inv_ds. rewrite (Hfirst Hlen), (seq_split_at _ _ Hlt).
    rewrite (mapM_first_raise (getitem inv_ds) (seq 0 index) index _ (RuntimeError msg));
      [reflexivity| |exact Hmsg].
    intros j Hj. apply in_seq in Hj. apply Hbefore. lia.
  - intros Hlen items batch Hitems Hbatch. unfold InverseBatchTransform.call. fold inv_ds.
    rewrite (Hfirst Hlen), Hitems. cbn [bind]. rewrite Hbatch. reflexivity.
  - intros ->. unfold InverseBatchTransform.getitem. rewrite Hget. reflexivity.
  - intros -> Hnd Hpad. unfold InverseBatchTransform.getitem. rewrite Hget.
    cbn [bind InverseBatchTransform.ds_pad_collation_used inv_ds
         InverseBatchTransform.BatchInverseDataset_init].
    fold inv_ds. fold (inverted_keys inv_ds item).
    split.
    + intros Hbad.
      destruct (undo_pad_other_class (inverted_keys inv_ds item) item Hnd Hpad Hbad)
        as [msg Hmsg].
      exists msg. rewrite Hmsg. reflexivity.
    + intros Hgood.
      destruct (undo_pad_all (inverted_keys inv_ds item) item Hnd Hgood)
        as [item' [Hfold [Hcrop Hrest]]].
      exists item'. rewrite Hfold. cbn [bind]. repeat split; assumption.
Qed.

End WithEnvironment.

Lemma batch_inverse_undoes_pad_collation_witness :
  nth_error [padded_item] 0 = Some padded_item
  /\ exists item',
       getitem (list Z) (Item (list Z)) crop_to (fun data keys => Ok data)
         (BatchInverseDataset_init (list Z) (list (Item (list Z))) (fun batch => batch)
            [padded_item] None true) 0
       = Ok item'
       /\ dict_get item' "image" = Some (inl [3%Z; 3%Z])
       /\ dict_get item' "image_transforms"
          = Some (inr [mkTransformRecord "Rotate90d" [3%Z; 3%Z]]).
Proof.
  split; [reflexivity|].
  assert (Hpadded : forall k, In k ["image"] -> padded_by_SpatialPadd (list Z) padded_item k).
  { intros k [<- | []]. exists [mkTransformRecord "Rotate90d" [3%Z; 3%Z]],
      (mkTransformRecord "SpatialPadd" [3%Z; 3%Z]), [4%Z; 4%Z]. repeat split. }
  destruct (proj2 (proj2 (proj2
    (batch_inverse_undoes_pad_collation (list Z) (list (Item (list Z))) (Item (list Z))
       (list (Item (list Z))) crop_to (fun batch => batch) (fun items => Ok items)
       (fun data keys => Ok data) 1 true [padded_item] None 0 padded_item eq_refl))) eq_refl)
    as [_ Hgood].
  - repeat constructor. intros [].
  - intros k Hin. destruct (Hpadded k Hin) as [e [r [i [Ht [Hk _]]]]].
    exists e, r, i. repeat split; assumption.
  - destruct (Hgood Hpadded) as [item' [Hget [Hcrop _]]].
    exists item'. split; [exact Hget|].
    destruct (Hcrop "image" (or_introl eq_refl)) as [earlier [rec [img [Ht [Hk [Ht' Hk']]]]]].
    cbn in Ht, Hk. injection Hk as <-. injection Ht as Ht.
    change [mkTransformRecord "Rotate90d" [3%Z; 3%Z]; mkTransformRecord "SpatialPadd" [3%Z; 3%Z]]
      with ([mkTransformRecord "Rotate90d" [3%Z; 3%Z]]
            ++ [mkTransformRecord "SpatialPadd" [3%Z; 3%Z]])%list in Ht.
    apply app_inj_tail in Ht. destruct Ht as [<- <-].
    split; assumption.
Defined.

(** ** Explicit keys without recorded transforms *)

Section WithExplicitKeys.

Variable Array : Type.
Variable Batch : Type.
Variable Inverted : Type.
Variable Collated : Type.
Variable CenterSpatialCrop : list Z -> Array -> Array.
Variable decollate_batch : Batch -> list (Item Array).
Variable collate : list Inverted -> result Collated.
Variable inverse : Item Array -> option (list string) -> result Inverted.

Local Abbreviation call :=
  (InverseBatchTransform.call Array Batch Inverted Collated CenterSpatialCrop
     decollate_batch collate inverse).

(** X20: with pad collation and keys given explicitly, when the first item
    of the batch has no [key_transforms] entry for the first key, [__call__]
    raises [KeyError] for that entry, and when the entry is an empty list it
    raises [IndexError]; neither is turned into a [RuntimeError]. *)
Theorem call_explicit_key_errors (batch_size : nat) (data : Batch) (key : string)
    (keys : list string) (item : Item Array) (rest : list (Item Array)) :
  0 < batch_size ->
  decollate_batch data = item :: rest ->
  (dict_get item (transform_key key) = None ->
   call batch_size true data (Some (key :: keys)) = Raise (KeyError (transform_key key)))
  /\ (dict_get item (transform_key key) = Some (inr []) ->
      call batch_size true data (Some (key :: keys))
      = Raise (IndexError "pop from empty list")).
Proof.
  intros Hbs Hdata.
  assert (E : forall e, is_RuntimeError e = false ->
            undo_pad Array CenterSpatialCrop item key = Raise e ->
            call batch_size true data (Some (key :: keys)) = Raise e).
  { intros e He Hundo. unfold InverseBatchTransform.call, InverseBatchTransform.first_batch.
    cbn [ds_data BatchInverseDataset_init]. rewrite Hdata. cbn [List.length].
    destruct batch_size as [|n]; [lia|]. cbn [Nat.min seq mapM].
    unfold getitem at 1. cbn [ds_data ds_pad_collation_used ds_keys BatchInverseDataset_init].
    rewrite Hdata. cbn [py_index].
    change (py_index (item :: rest) (Z.of_nat 0)) with (@Ok (Item Array) item).
    cbn [bind foldM]. rewrite Hundo. cbn [bind].
    destruct e; try reflexivity; discriminate He. }
  split.
  - intros H. apply E; [reflexivity|]. unfold undo_pad, dict_lookup. rewrite H. reflexivity.
  - intros H. apply E; [reflexivity|]. unfold undo_pad, dict_lookup. rewrite H. reflexivity.
Qed.

End WithExplicitKeys.

Lemma call_explicit_key_errors_witness :
  (dict_get plain_item (transform_key "image") = None ->
   call (list Z) (list (Item (list Z))) (Item (list Z)) (list (Item (list Z))) crop_to
     (fun b => b) (fun items => Ok items) (fun item _ => Ok item)
     1 true [plain_item] (Some ["image"])
   = Raise (KeyError (transform_key "image")))
  /\ (dict_get plain_item (transform_key "image") = Some (inr []) ->
      call (list Z) (list (Item (list Z))) (Item (list Z)) (list (Item (list Z))) crop_to
        (fun b => b) (fun items => Ok items) (fun item _ => Ok item)
        1 true [plain_item] (Some ["image"])
      = Raise (IndexError "pop from empty list")).
Proof.
  apply (call_explicit_key_errors (list Z) (list (Item (list Z))) (Item (list Z))
           (list (Item (list Z))) crop_to (fun b => b) (fun items => Ok items)
           (fun item _ => Ok item) 1 [plain_item] "image" [] plain_item []).
  - lia.
  - reflexivity.
Defined.

End InverseBatchTransformFacts.
